(** * Indiyummm backend: order lifecycle, payment verification and auth

    A shallow embedding of the three generations of the Express server of
    this repository and the properties of its order lifecycle:

    - [V1]: [server.js] (ES module, reviews and orders);
    - [V2]: the CommonJS rewrite with configuration guards and debug logs;
    - [V3]: the version with email/password accounts, cash on delivery,
      admin status updates and deletion.

    JavaScript numbers are IEEE-754 doubles ([PrimFloat]); the numbers
    of a JSON text are the finite ones ([JSON.number]), and what is not
    finite is written as [null]; strings are [string]; a request field
    that may be left out is an [option] ([None] is JavaScript's
    [undefined]).  Request fields are taken at the
    types the handlers expect (strings, numbers, booleans).  The JSON file
    [db.json] is the only state; reading and writing it, reading the clock,
    drawing random bytes and calling the payment gateway are effects
    threaded through a small state-and-exception monad that also records a
    trace of the I/O performed.  [fs.writeFileSync] is taken to succeed.  HMAC-SHA256,
    PBKDF2 and the other library functions are parameters of the
    environment: every theorem holds whatever they compute. *)

From Stdlib Require Import ZArith String Ascii List Bool Lia.
From Stdlib Require Import PrimFloat FloatOps SpecFloat Uint63.
From Stdlib Require Import DecimalString.
From stdpp Require Import base option list strings gmap.

Set Warnings "-inexact-float".
Local Open Scope string_scope.
Local Open Scope Z_scope.

(** ** JavaScript primitives used by the handlers *)

Module JS.

(** [String(x)] / template-literal conversion of a possibly absent
    string: [undefined] prints as the text "undefined". *)
Definition String_ (x : option string) : string :=
  match x with
  | Some s => s
  | None => "undefined"
  end.

(** Truthiness of a possibly absent string: [undefined] and the empty
    string are falsy. *)
Definition truthy_str (x : option string) : bool :=
  match x with
  | Some s => negb (String.eqb s "")
  | None => false
  end.

(** Truthiness of a possibly absent number: [undefined], [0], [-0] and
    [NaN] are falsy. *)
Definition truthy_num (x : option float) : bool :=
  match x with
  | Some f => negb (PrimFloat.is_zero f || PrimFloat.is_nan f)
  | None => false
  end.

(** [Number(x)] of a possibly absent number ([Number(undefined)] is
    [NaN]). *)
Definition Number_ (x : option float) : float :=
  match x with
  | Some f => f
  | None => PrimFloat.nan
  end.

(** Decimal rendering of an integral timestamp, as a template literal
    prints [Date.now()]. *)
Definition decimal (z : Z) : string :=
  NilZero.string_of_int (Z.to_int z).

(** The integer nearest to [(-1)^s * m * 2^e], ties going up (towards
    plus infinity), as a sign and a magnitude. *)
Definition round_magnitude (s : bool) (m : positive) (e : Z) : Z :=
  if (0 <=? e) then Z.shiftl (Z.pos m) e
  else
    let k := - e in
    let half := Z.shiftl 1 (k - 1) in
    if s then Z.shiftr (Z.pos m + half - 1) k
    else Z.shiftr (Z.pos m + half) k.

(** [Math.round]: NaN, infinities and zeros are returned unchanged; a
    finite number is rounded to the nearest integer, ties towards plus
    infinity; a negative number that rounds to zero gives [-0]. *)
Definition Math_round (x : float) : float :=
  match Prim2SF x with
  | S754_finite s m e =>
      if (0 <=? e) then x
      else
        let n := PrimFloat.of_uint63 (Uint63.of_Z (round_magnitude s m e)) in
        if s then PrimFloat.opp n else n
  | _ => x
  end.

(** [a === b] on two strings: [true] exactly when they are the same
    sequence of characters. *)
Definition strict_equals (a b : string) : bool := String.eqb a b.

(** [a === b] where [b] may be [undefined]: a string is never strictly
    equal to [undefined]. *)
Definition strict_equals_opt (a : string) (b : option string) : bool :=
  match b with
  | Some s => strict_equals a s
  | None => false
  end.

(** [Array.prototype.findIndex]: the index of the first element that
    satisfies [p], or [-1]. *)
Fixpoint findIndex_from {A} (p : A -> bool) (l : list A) (i : nat) : option nat :=
  match l with
  | [] => None
  | x :: l' => if p x then Some i else findIndex_from p l' (S i)
  end.

Definition findIndex {A} (p : A -> bool) (l : list A) : option nat :=
  findIndex_from p l 0%nat.

(** [s.replace(pat, rep)] with a string pattern: only the first
    occurrence is replaced. *)
Definition replace_first (pat rep s : string) : string :=
  match String.index 0 pat s with
  | Some i =>
      String.substring 0 i s ++ rep ++
      String.substring (i + String.length pat)
                       (String.length s - (i + String.length pat)) s
  | None => s
  end.

(** [Array.prototype.find], together with the position of the object
    found (the handlers mutate that object in place). *)
Definition find {A} (p : A -> bool) (l : list A) : option (nat * A) :=
  match findIndex p l with
  | Some i => match l !! i with
              | Some x => Some (i, x)
              | None => None
              end
  | None => None
  end.

(** The number [findIndex] returns: [-1] when nothing matched. *)
Definition index_number (i : option nat) : Z :=
  match i with
  | Some n => Z.of_nat n
  | None => -1
  end.

End JS.


(** ** JSON numbers

    Everything a handler stores or sends passes through [JSON.stringify]
    ([writeDB], [saveDB], [res.json]), which writes a finite number as
    it is, a negative zero as [0], and [NaN] and the infinities as
    [null].  The values of [db.json] and of the responses are modelled as
    the JSON values themselves, so the conversion appears where a number
    the handler holds in memory enters a stored object or an answer. *)

Module JSON.

(** The doubles a text written by [JSON.stringify] holds: the finite
    ones, zero without a sign. *)
Definition representable (x : float) : bool :=
  match Prim2SF x with
  | S754_finite _ _ _ => true
  | S754_zero s => negb s
  | _ => false
  end.

(** A number of a JSON text. *)
Record number := Number {
  value : float;
  value_ok : Is_true (representable value)
}.

(** [JSON.stringify] on a number, read back: [None] is [null]. *)
Definition stringify_number (x : float) : option number :=
  let y := match Prim2SF x with
           | S754_zero _ => 0%float
           | _ => x
           end in
  match decide (Is_true (representable y)) with
  | left H => Some (Number y H)
  | right _ => None
  end.

(** [JSON.stringify] on a property that holds a number or is
    [undefined]; [None] is [null] or a property left out. *)
Definition stringify_optional (x : option float) : option number :=
  x ≫= stringify_number.

End JSON.


(** ** Data model: what [db.json] holds and what requests carry *)

(** A line of a cart.  The fields are those the server itself writes
    when it turns a quick-view product into a one-line cart.  [N] is the
    type of its numbers: doubles in a request body held in memory
    ([cart_line]), JSON numbers in [db.json] ([cart_item]). *)
Record cart_item_of (N : Type) := CartItem {
  item_name : option string;
  item_img : string;
  item_pricePerKg : option N;
  item_qty : option N;
  item_packLabel : option string;
  item_calculatedPrice : option N
}.
Arguments CartItem {N} _ _ _ _ _ _.
Arguments item_name {N} _.
Arguments item_img {N} _.
Arguments item_pricePerKg {N} _.
Arguments item_qty {N} _.
Arguments item_packLabel {N} _.
Arguments item_calculatedPrice {N} _.

Abbreviation cart_line := (cart_item_of float).
Abbreviation cart_item := (cart_item_of JSON.number).

(** A cart line as [JSON.stringify] writes it. *)
Definition JSON_cart_item (it : cart_line) : cart_item :=
  CartItem (item_name it) (item_img it)
           (JSON.stringify_optional (item_pricePerKg it))
           (JSON.stringify_optional (item_qty it))
           (item_packLabel it)
           (JSON.stringify_optional (item_calculatedPrice it)).

(** A cart as [JSON.stringify] writes it. *)
Definition JSON_cart (c : list cart_line) : list cart_item :=
  JSON_cart_item <$> c.

(** [selectedProduct] of a create-order request. *)
Record selected_product := SelectedProduct {
  sp_name : option string;
  sp_img : option string;
  sp_price : option float;
  sp_packKg : option float;
  sp_packLabel : option string
}.

(** Free-form contact details of the buyer. *)
Record customer_info := Customer {
  cust_name : option string;
  cust_phone : option string;
  cust_email : option string
}.

(** A stored order: the union of the properties the three servers write.
    A property that was never assigned is [None]; so is a number that
    was written as [null]. *)
Module Order.
Record t := Make {
  id : Z;
  receipt : string;
  razorpay_order_id : string;
  amount : option JSON.number;
  amount_paise : option JSON.number;
  currency : string;
  cart : option (list cart_item);
  customer : option customer_info;
  status : string;
  created_at : Z;
  eta : option string;
  razorpay_payment_id : option string;
  razorpay_signature : option string;
  paid_at : option Z
}.

(** In-place property assignments [o.status = s] and so on. *)
Definition set_status (s : string) (o : t) : t :=
  Make (id o) (receipt o) (razorpay_order_id o) (amount o) (amount_paise o)
       (currency o) (cart o) (customer o) s (created_at o) (eta o)
       (razorpay_payment_id o) (razorpay_signature o) (paid_at o).
Definition set_eta (e : string) (o : t) : t :=
  Make (id o) (receipt o) (razorpay_order_id o) (amount o) (amount_paise o)
       (currency o) (cart o) (customer o) (status o) (created_at o) (Some e)
       (razorpay_payment_id o) (razorpay_signature o) (paid_at o).
Definition set_razorpay_payment_id (p : option string) (o : t) : t :=
  Make (id o) (receipt o) (razorpay_order_id o) (amount o) (amount_paise o)
       (currency o) (cart o) (customer o) (status o) (created_at o) (eta o)
       p (razorpay_signature o) (paid_at o).
Definition set_razorpay_signature (s : option string) (o : t) : t :=
  Make (id o) (receipt o) (razorpay_order_id o) (amount o) (amount_paise o)
       (currency o) (cart o) (customer o) (status o) (created_at o) (eta o)
       (razorpay_payment_id o) s (paid_at o).
Definition set_paid_at (z : Z) (o : t) : t :=
  Make (id o) (receipt o) (razorpay_order_id o) (amount o) (amount_paise o)
       (currency o) (cart o) (customer o) (status o) (created_at o) (eta o)
       (razorpay_payment_id o) (razorpay_signature o) (Some z).
End Order.

(** Values of the properties of a user object. *)
Inductive jsval :=
| JStr (s : string)
| JNum (z : Z).

(** A user is a plain JavaScript object: a finite map from property names
    to values.  The handlers copy it with a rest pattern, so the set of
    properties matters. *)
Abbreviation user := (gmap string jsval).

(** [String(v)] of a property that may be missing. *)
Definition String_of (v : option jsval) : string :=
  match v with
  | Some (JStr s) => s
  | Some (JNum z) => JS.decimal z
  | None => "undefined"
  end.

Record review := Review {
  rv_id : Z;
  rv_productName : string;
  rv_name : string;
  rv_rating : option JSON.number;
  rv_text : string
}.

(** The whole of [db.json].  A collection an older server never wrote is
    [None]; the handlers read it as [db.orders || []]. *)
Module Document.
Record t := Make {
  reviews : list review;
  orders : option (list Order.t);
  users : option (list user)
}.
Definition set_orders (l : list Order.t) (d : t) : t :=
  Make (reviews d) (Some l) (users d).
Definition set_users (l : list user) (d : t) : t :=
  Make (reviews d) (orders d) (Some l).
End Document.

(** [db.orders || []] *)
Definition orders_or_empty (d : Document.t) : list Order.t :=
  default [] (Document.orders d).
Definition users_or_empty (d : Document.t) : list user :=
  default [] (Document.users d).

(** ** The payment gateway *)

(** Argument of [razorpay.orders.create]. *)
Module RzpOptions.
Record t := Make {
  amount : float;
  currency : string;
  receipt : string;
  payment_capture : Z
}.
End RzpOptions.

(** The order entity the gateway answers with. *)
Module RzpOrder.
Record t := Make {
  id : string;
  amount : float;
  currency : string;
  receipt : option string
}.
End RzpOrder.

(** ** Request bodies *)

Module CreateBody.
Record t := Make {
  amount : option float;
  currency : option string;
  receipt : option string;
  cart : option (list cart_line);
  selectedProduct : option selected_product;
  customer : option customer_info;
  cod : bool
}.
End CreateBody.

Module VerifyBody.
Record t := Make {
  razorpay_order_id : option string;
  razorpay_payment_id : option string;
  razorpay_signature : option string;
  receipt : option string
}.
End VerifyBody.

Module UpdateBody.
Record t := Make {
  status : option string;
  eta : option string
}.
End UpdateBody.

Module AuthBody.
Record t := Make {
  name : option string;
  email : option string;
  password : option string
}.
End AuthBody.

(** ** Responses *)

(** The JSON bodies the handlers send: [{error, detail?}];
    [{success, order_id, amount, currency, receipt, key_id}];
    [{verified, order_index, order}] (V1, V2); [{verified: false, reason}]
    and [{verified: false, error}] (V2); [{verified}] (V3);
    [{success, order}]; [{success}]; [{success, user, token?}]. *)
Inductive body :=
| BError (error : string) (detail : option string)
| BOrderCreated (order_id : string) (amount : option JSON.number)
                (currency receipt key_id : string)
| BVerified (verified : bool) (order_index : Z) (order : option Order.t)
| BVerifyRefused (reason : string)
| BVerifyCrashed (error : option string)
| BVerifiedOnly (verified : bool)
| BUpdated (order : option Order.t)
| BSuccess
| BUser (u : user) (token : option string).

(** An answer: the HTTP status and the body. *)
Record response := Response { code : nat; payload : body }.

(** The [verified] property of a verify-payment response, when it has
    one. *)
Definition verified_of (r : response) : option bool :=
  match payload r with
  | BVerified v _ _ => Some v
  | BVerifyRefused _ => Some false
  | BVerifyCrashed _ => Some false
  | BVerifiedOnly v => Some v
  | _ => None
  end.

(** The [order] property of a verify-payment response: [Some None] is
    [order: null]. *)
Definition order_of (r : response) : option (option Order.t) :=
  match payload r with
  | BVerified _ _ o => Some o
  | _ => None
  end.

(** The [user] object of an auth response, when it has one. *)
Definition user_of (r : response) : option user :=
  match payload r with
  | BUser u _ => Some u
  | _ => None
  end.

(** ** Environment and effects *)

(** What the process is given from outside: its environment variables,
    the library functions it calls, and the answers of the clock, the
    random generator and the gateway.  The answers are indexed by the
    number of such calls made so far. *)
Record env := Env {
  RAZORPAY_KEY_ID : option string;
  RAZORPAY_KEY_SECRET : option string;
  Razorpay_constructs : bool;
  hmac_sha256_hex : string -> string -> string;
  pbkdf2_sha512_hex : string -> string -> string;
  timingSafeEqual_hex : string -> string -> option bool;
  toLowerCase : string -> string;
  trim : string -> string;
  Date_now_at : nat -> Z;
  randomBytes_hex_at : nat -> nat -> string;
  orders_create_at : nat -> RzpOptions.t -> RzpOrder.t + string
}.

Inductive event :=
| EvReadDB
| EvWriteDB (d : Document.t)
| EvGateway (o : RzpOptions.t).

Record world := World {
  db_file : option Document.t;
  ticks : nat;
  trace : list event
}.

Inductive result (A : Type) :=
| Ok (a : A)
| Throw (err : string).
Arguments Ok {A} a.
Arguments Throw {A} err.

Definition M (A : Type) : Type := world -> result A * world.

#[export] Instance M_ret : MRet M := fun A a w => (Ok a, w).
#[export] Instance M_bind : MBind M := fun A B f m w =>
  match m w with
  | (Ok a, w') => f a w'
  | (Throw e, w') => (Throw e, w')
  end.

(** [try { m } catch (err) { h err }] *)
Definition try_catch {A} (m : M A) (h : string -> M A) : M A := fun w =>
  match m w with
  | (Ok a, w') => (Ok a, w')
  | (Throw e, w') => h e w'
  end.

Definition throw {A} (e : string) : M A := fun w => (Throw e, w).

(** Run a handler whose body is wrapped in try/catch: it always answers. *)
Definition run (m : M response) (w : world) : response * world :=
  match m w with
  | (Ok r, w') => (r, w')
  | (Throw e, w') => (Response 500 (BError e None), w')
  end.

Definition json (c : nat) (b : body) : M response := mret (Response c b).

Section Effects.
Context (E : env).

(** Read and parse [db.json]; a missing or unreadable file gives the
    default document. *)
Definition read_file (dflt : Document.t) : M Document.t := fun w =>
  (Ok (default dflt (db_file w)),
   World (db_file w) (ticks w) (trace w ++ [EvReadDB])).

(** Overwrite [db.json] with the text of the document.  A [Document.t]
    is the JSON value itself (its numbers are [JSON.number]s), so the
    text determines it. *)
Definition write_file (d : Document.t) : M unit := fun w =>
  (Ok tt, World (Some d) (ticks w) (trace w ++ [EvWriteDB d])).

Definition Date_now : M Z := fun w =>
  (Ok (Date_now_at E (ticks w)), World (db_file w) (S (ticks w)) (trace w)).

(** [crypto.randomBytes(n).toString("hex")] *)
Definition randomBytes_hex (n : nat) : M string := fun w =>
  (Ok (randomBytes_hex_at E n (ticks w)),
   World (db_file w) (S (ticks w)) (trace w)).

(** [await razorpay.orders.create(options)]: a rejected promise throws. *)
Definition orders_create (o : RzpOptions.t) : M RzpOrder.t := fun w =>
  let w' := World (db_file w) (S (ticks w)) (trace w ++ [EvGateway o]) in
  match orders_create_at E (ticks w) o with
  | inl r => (Ok r, w')
  | inr e => (Throw e, w')
  end.

End Effects.

(** The orders held by the file, as the next [readDB] would see them. *)
Definition stored_orders (w : world) : list Order.t :=
  match db_file w with
  | Some d => orders_or_empty d
  | None => []
  end.

(** The events a handler added to the trace. *)
Definition gateway_calls (t : list event) : list RzpOptions.t :=
  omap (fun e => match e with EvGateway o => Some o | _ => None end) t.
Definition file_accesses (t : list event) : list event :=
  List.filter (fun e => match e with
                        | EvReadDB | EvWriteDB _ => true
                        | _ => false
                        end) t.


(** ** V1: [server.js] *)

Module V1.
Section Server.
Context (E : env).

(** [process.env.X || ""] *)
Definition RZP_KEY_ID : string := default "" (RAZORPAY_KEY_ID E).
Definition RZP_KEY_SECRET : string := default "" (RAZORPAY_KEY_SECRET E).

Definition readDB : M Document.t := read_file (Document.Make [] (Some []) None).
Definition saveDB : Document.t -> M unit := write_file.

(** [POST /create-order].  The order pushed and the answer are given as
    [saveDB] and [res.json] write them: their numbers go through
    [JSON.stringify]. *)
Definition create_order (b : CreateBody.t) : M response :=
  try_catch
    (let amount := CreateBody.amount b in
     let currency := default "INR" (CreateBody.currency b) in
     let receipt := CreateBody.receipt b in
     if negb (JS.truthy_num amount) || negb (JS.truthy_str receipt) then
       json 400 (BError "Missing amount or receipt" None)
     else
       let amountPaise := JS.Math_round (PrimFloat.mul (JS.Number_ amount) 100) in
       let options := RzpOptions.Make amountPaise currency (JS.String_ receipt) 1 in
       order ← orders_create E options;
       db ← readDB;
       let orders := orders_or_empty db in
       let receipt' :=
         if JS.truthy_str (RzpOrder.receipt order)
         then JS.String_ (RzpOrder.receipt order) else JS.String_ receipt in
       id ← Date_now E;
       created_at ← Date_now E;
       let newOrder :=
         Order.Make id receipt' (RzpOrder.id order)
                    (JSON.stringify_optional amount)
                    (JSON.stringify_number amountPaise) currency
                    (JSON_cart <$> CreateBody.cart b)
                    (CreateBody.customer b) "created" created_at
                    None None None None in
       _ ← saveDB (Document.set_orders (orders ++ [newOrder]) db);
       json 200 (BOrderCreated (RzpOrder.id order)
                               (JSON.stringify_number amountPaise) currency
                               receipt' RZP_KEY_ID))
    (fun err => json 500 (BError "Failed to create order" (Some err))).

(** The [findIndex] callback of verify-payment:
    [o.razorpay_order_id === razorpay_order_id ||
     String(o.receipt) === String(receipt)]. *)
Definition matches (b : VerifyBody.t) (o : Order.t) : bool :=
  JS.strict_equals_opt (Order.razorpay_order_id o) (VerifyBody.razorpay_order_id b)
  || JS.strict_equals (Order.receipt o) (JS.String_ (VerifyBody.receipt b)).

(** The signature the server computes for a request. *)
Definition generated_signature (b : VerifyBody.t) : string :=
  hmac_sha256_hex E RZP_KEY_SECRET
    (JS.String_ (VerifyBody.razorpay_order_id b) ++ "|" ++
     JS.String_ (VerifyBody.razorpay_payment_id b)).

(** The four assignments of the verified branch. *)
Definition mark_paid (b : VerifyBody.t) (now : Z) (o : Order.t) : Order.t :=
  Order.set_paid_at now
    (Order.set_razorpay_signature (VerifyBody.razorpay_signature b)
       (Order.set_razorpay_payment_id (VerifyBody.razorpay_payment_id b)
          (Order.set_status "paid" o))).

(** [POST /verify-payment] *)
Definition verify_payment (b : VerifyBody.t) : M response :=
  try_catch
    (if negb (JS.truthy_str (VerifyBody.razorpay_order_id b))
        || negb (JS.truthy_str (VerifyBody.razorpay_payment_id b))
        || negb (JS.truthy_str (VerifyBody.razorpay_signature b)) then
       json 400 (BError "Missing Razorpay fields" None)
     else
       let generated := generated_signature b in
       let verified :=
         JS.strict_equals_opt generated (VerifyBody.razorpay_signature b) in
       db ← readDB;
       let orders := orders_or_empty db in
       let idx := JS.findIndex (matches b) orders in
       match idx with
       | Some i =>
           if verified then
             paid_at ← Date_now E;
             let orders' := alter (mark_paid b paid_at) i orders in
             _ ← saveDB (Document.set_orders orders' db);
             json 200 (BVerified verified (JS.index_number idx) (orders' !! i))
           else
             let orders' := alter (Order.set_status "payment_failed") i orders in
             _ ← saveDB (Document.set_orders orders' db);
             json 200 (BVerified verified (JS.index_number idx) (orders' !! i))
       | None =>
           json 200 (BVerified verified (JS.index_number idx) None)
       end)
    (fun err => json 500 (BError "Verification failed" (Some err))).

End Server.
End V1.


(** ** V2: the CommonJS rewrite with configuration guards *)

Module V2.
Section Server.
Context (E : env).

Definition RZP_KEY_ID : string := default "" (RAZORPAY_KEY_ID E).
Definition RZP_KEY_SECRET : string := default "" (RAZORPAY_KEY_SECRET E).

(** The gateway client exists only if both keys are set and its
    constructor did not throw; otherwise [razorpay] stays [null]. *)
Definition razorpay : bool :=
  negb (String.eqb RZP_KEY_ID "") && negb (String.eqb RZP_KEY_SECRET "")
  && Razorpay_constructs E.

Definition readDB : M Document.t := read_file (Document.Make [] (Some []) None).
Definition writeDB : Document.t -> M unit := write_file.

(** [POST /create-order].  The order pushed and the answer are given as
    [writeDB] and [res.json] write them: their numbers go through
    [JSON.stringify]. *)
Definition create_order (b : CreateBody.t) : M response :=
  try_catch
    (let amount := CreateBody.amount b in
     let currency := default "INR" (CreateBody.currency b) in
     let receipt := CreateBody.receipt b in
     if negb (JS.truthy_num amount) then json 400 (BError "Missing amount" None)
     else if negb razorpay then json 500 (BError "Razorpay not configured" None)
     else
       let amountPaise := JS.Math_round (PrimFloat.mul (JS.Number_ amount) 100) in
       receipt0 ← (if JS.truthy_str receipt then mret (JS.String_ receipt)
                   else now ← Date_now E; mret ("rcpt_" ++ JS.decimal now));
       let options := RzpOptions.Make amountPaise currency receipt0 1 in
       order ← orders_create E options;
       db ← readDB;
       let orders := orders_or_empty db in
       let receipt' :=
         if JS.truthy_str (RzpOrder.receipt order)
         then JS.String_ (RzpOrder.receipt order) else receipt0 in
       id ← Date_now E;
       created_at ← Date_now E;
       let newOrder :=
         Order.Make id receipt' (RzpOrder.id order)
                    (JSON.stringify_optional amount)
                    (JSON.stringify_number (RzpOrder.amount order))
                    (RzpOrder.currency order)
                    (JSON_cart <$> CreateBody.cart b)
                    (CreateBody.customer b) "created"
                    created_at None None None None in
       _ ← writeDB (Document.set_orders (orders ++ [newOrder]) db);
       json 200 (BOrderCreated (RzpOrder.id order)
                               (JSON.stringify_number (RzpOrder.amount order))
                               (RzpOrder.currency order) receipt' RZP_KEY_ID))
    (fun err => json 500 (BError "Failed to create order" (Some err))).

Definition matches (b : VerifyBody.t) (o : Order.t) : bool :=
  JS.strict_equals_opt (Order.razorpay_order_id o) (VerifyBody.razorpay_order_id b)
  || JS.strict_equals (Order.receipt o) (JS.String_ (VerifyBody.receipt b)).

Definition generated_signature (b : VerifyBody.t) : string :=
  hmac_sha256_hex E RZP_KEY_SECRET
    (JS.String_ (VerifyBody.razorpay_order_id b) ++ "|" ++
     JS.String_ (VerifyBody.razorpay_payment_id b)).

Definition mark_paid (b : VerifyBody.t) (now : Z) (o : Order.t) : Order.t :=
  Order.set_paid_at now
    (Order.set_razorpay_signature (VerifyBody.razorpay_signature b)
       (Order.set_razorpay_payment_id (VerifyBody.razorpay_payment_id b)
          (Order.set_status "paid" o))).

(** [POST /verify-payment] *)
Definition verify_payment (b : VerifyBody.t) : M response :=
  try_catch
    (if negb (JS.truthy_str (VerifyBody.razorpay_order_id b))
        || negb (JS.truthy_str (VerifyBody.razorpay_payment_id b))
        || negb (JS.truthy_str (VerifyBody.razorpay_signature b)) then
       json 400 (BVerifyRefused "missing_fields")
     else if String.eqb RZP_KEY_SECRET "" then
       json 500 (BVerifyRefused "server_secret_missing")
     else
       let generated := generated_signature b in
       let verified :=
         JS.strict_equals_opt generated (VerifyBody.razorpay_signature b) in
       db ← readDB;
       let orders := orders_or_empty db in
       let idx := JS.findIndex (matches b) orders in
       match idx with
       | Some i =>
           if verified then
             paid_at ← Date_now E;
             let orders' := alter (mark_paid b paid_at) i orders in
             _ ← writeDB (Document.set_orders orders' db);
             json 200 (BVerified verified (JS.index_number idx) (orders' !! i))
           else
             let orders' := alter (Order.set_status "payment_failed") i orders in
             _ ← writeDB (Document.set_orders orders' db);
             json 200 (BVerified verified (JS.index_number idx) (orders' !! i))
       | None =>
           json 200 (BVerified verified (JS.index_number idx) None)
       end)
    (fun err => json 500 (BVerifyCrashed (Some err))).

End Server.
End V2.


(** ** V3: accounts, cash on delivery, admin updates *)

Module V3.
Section Server.
Context (E : env).

(** The fallbacks the source commits for the two keys.  The key id is
    public (it is sent to every client as [key_id]).  The secret is a
    live credential: its literal is not repeated here, and nothing
    below depends on it beyond its being a non-empty string. *)
Definition committed_key_id : string := "rzp_live_Rk1n4SeiHtIW3P".
Definition committed_key_secret : string := "<key_secret literal of the source>".

(** [process.env.X || "<committed key>"] *)
Definition RZP_KEY_ID : string :=
  if JS.truthy_str (RAZORPAY_KEY_ID E) then JS.String_ (RAZORPAY_KEY_ID E)
  else committed_key_id.
Definition RZP_KEY_SECRET : string :=
  if JS.truthy_str (RAZORPAY_KEY_SECRET E) then JS.String_ (RAZORPAY_KEY_SECRET E)
  else committed_key_secret.

(** The gateway client, as in V2.  Here the two keys are never empty,
    so the client exists whenever the constructor of the library
    returns. *)
Definition razorpay : bool :=
  negb (String.eqb RZP_KEY_ID "") && negb (String.eqb RZP_KEY_SECRET "")
  && Razorpay_constructs E.

Definition readDB : M Document.t :=
  read_file (Document.Make [] (Some []) (Some [])).
Definition writeDB : Document.t -> M unit := write_file.

(** The one-line cart made from [selectedProduct]. *)
Definition cart_of_selected (p : selected_product) : list cart_line :=
  [ CartItem (sp_name p)
             (if JS.truthy_str (sp_img p) then JS.String_ (sp_img p) else "")
             (sp_price p) (sp_packKg p) (sp_packLabel p)
             (Some (JS.Math_round (PrimFloat.mul (JS.Number_ (sp_price p))
                                                 (JS.Number_ (sp_packKg p))))) ].

(** [cart && cart.length > 0 ? cart : []], then the quick-view fallback. *)
Definition finalCart (b : CreateBody.t) : list cart_line :=
  let c := match CreateBody.cart b with
           | Some (x :: l) => x :: l
           | _ => []
           end in
  match c, CreateBody.selectedProduct b with
  | [], Some p => cart_of_selected p
  | _, _ => c
  end.

(** [POST /create-order].  The order pushed and the answer are given as
    [writeDB] and [res.json] write them: their numbers go through
    [JSON.stringify]. *)
Definition create_order (b : CreateBody.t) : M response :=
  try_catch
    (let amount := CreateBody.amount b in
     let currency := default "INR" (CreateBody.currency b) in
     let receipt := CreateBody.receipt b in
     if negb (JS.truthy_num amount) then json 400 (BError "Missing amount" None)
     else
       let amountPaise := JS.Math_round (PrimFloat.mul (JS.Number_ amount) 100) in
       finalReceipt ← (if JS.truthy_str receipt then mret (JS.String_ receipt)
                       else now ← Date_now E; mret ("rcpt_" ++ JS.decimal now));
       rzpOrder ← (if negb (CreateBody.cod b) && razorpay then
                     orders_create E
                       (RzpOptions.Make amountPaise currency finalReceipt 1)
                   else
                     now ← Date_now E;
                     mret (RzpOrder.Make ("cod_" ++ JS.decimal now)
                                         amountPaise currency None));
       db ← readDB;
       let orders := orders_or_empty db in
       id ← Date_now E;
       created_at ← Date_now E;
       let newOrder :=
         Order.Make id finalReceipt (RzpOrder.id rzpOrder)
                    (JSON.stringify_optional amount)
                    (JSON.stringify_number (RzpOrder.amount rzpOrder))
                    (RzpOrder.currency rzpOrder)
                    (Some (JSON_cart (finalCart b)))
                    (CreateBody.customer b) "created"
                    created_at None None None None in
       _ ← writeDB (Document.set_orders (orders ++ [newOrder]) db);
       json 200 (BOrderCreated (RzpOrder.id rzpOrder)
                               (JSON.stringify_number (RzpOrder.amount rzpOrder))
                               (RzpOrder.currency rzpOrder) finalReceipt
                               RZP_KEY_ID))
    (fun err => json 500 (BError "Failed to create order" None)).

(** [o.razorpay_order_id === key || o.receipt === key] *)
Definition matches_key (oid receipt : option string) (o : Order.t) : bool :=
  JS.strict_equals_opt (Order.razorpay_order_id o) oid
  || JS.strict_equals_opt (Order.receipt o) receipt.

Definition generated_signature (b : VerifyBody.t) : string :=
  hmac_sha256_hex E RZP_KEY_SECRET
    (JS.String_ (VerifyBody.razorpay_order_id b) ++ "|" ++
     JS.String_ (VerifyBody.razorpay_payment_id b)).

(** [POST /verify-payment] *)
Definition verify_payment (b : VerifyBody.t) : M response :=
  try_catch
    (let generated := generated_signature b in
     let verified :=
       JS.strict_equals_opt generated (VerifyBody.razorpay_signature b) in
     db ← readDB;
     let orders := orders_or_empty db in
     let idx :=
       JS.findIndex (matches_key (VerifyBody.razorpay_order_id b)
                                 (VerifyBody.receipt b)) orders in
     _ ← match idx with
         | Some i =>
             let orders' :=
               alter (fun o => Order.set_razorpay_payment_id
                                 (VerifyBody.razorpay_payment_id b)
                                 (Order.set_status
                                    (if verified then "paid" else "payment_failed")
                                    o)) i orders in
             writeDB (Document.set_orders orders' db)
         | None => mret tt
         end;
     json 200 (BVerifiedOnly verified))
    (fun err => json 500 (BVerifiedOnly false)).

(** [PATCH /update-status/:id] *)
Definition update_status (id : string) (b : UpdateBody.t) : M response :=
  db ← readDB;
  let orders := orders_or_empty db in
  match JS.findIndex (matches_key (Some id) (Some id)) orders with
  | None => json 404 (BError "Not found" None)
  | Some i =>
      let set_s o := if JS.truthy_str (UpdateBody.status b)
                     then Order.set_status (JS.String_ (UpdateBody.status b)) o
                     else o in
      let set_e o := if JS.truthy_str (UpdateBody.eta b)
                     then Order.set_eta (JS.String_ (UpdateBody.eta b)) o
                     else o in
      let orders' := alter (fun o => set_e (set_s o)) i orders in
      _ ← writeDB (Document.set_orders orders' db);
      json 200 (BUpdated (orders' !! i))
  end.

(** [DELETE /delete-order/:id] *)
Definition delete_order (id : string) : M response :=
  db ← readDB;
  let orders := orders_or_empty db in
  let kept :=
    List.filter (fun o => negb (JS.strict_equals (Order.razorpay_order_id o) id)
                          && negb (JS.strict_equals (Order.receipt o) id))
                orders in
  _ ← writeDB (Document.set_orders kept db);
  json 200 BSuccess.

(** *** Accounts *)

Definition genSalt : M string := randomBytes_hex E 16.
Definition genToken : M string := randomBytes_hex E 24.

Definition hashPassword (password : option string) (salt : string) : string :=
  pbkdf2_sha512_hex E (JS.String_ password) salt.

(** [verifyPassword(password, user.salt, user.password)].  [pbkdf2Sync]
    and [Buffer.from] throw a [TypeError] on a salt or hash that is not
    a string; [timingSafeEqual] throws on buffers of different
    lengths. *)
Definition verifyPassword (password : option string)
    (salt hashed : option jsval) : M bool :=
  match salt, hashed with
  | Some (JStr salt), Some (JStr hashed) =>
      match timingSafeEqual_hex E (hashPassword password salt) hashed with
      | Some ok => mret ok
      | None => throw "RangeError"
      end
  | _, _ => throw "TypeError"
  end.

(** [const { password: _p, salt: _s, ...userSafe } = user] *)
Definition userSafe (u : user) : user := delete "salt" (delete "password" u).

(** [String(u.email).toLowerCase() === String(email).toLowerCase()] *)
Definition same_email (email : option string) (u : user) : bool :=
  JS.strict_equals (toLowerCase E (String_of (u !! "email")))
                   (toLowerCase E (JS.String_ email)).

(** [u.token === token] *)
Definition has_token (token : string) (u : user) : bool :=
  match u !! "token" with
  | Some (JStr t) => JS.strict_equals t token
  | _ => false
  end.

(** [POST /register] *)
Definition register (b : AuthBody.t) : M response :=
  try_catch
    (let name := AuthBody.name b in
     let email := AuthBody.email b in
     let password := AuthBody.password b in
     if negb (JS.truthy_str email) || negb (JS.truthy_str password)
        || negb (JS.truthy_str name) then
       json 400 (BError "Missing fields" None)
     else
       db ← readDB;
       let users := users_or_empty db in
       match JS.find (same_email email) users with
       | Some _ => json 400 (BError "User already exists" None)
       | None =>
           salt ← genSalt;
           let hashed := hashPassword password salt in
           token ← genToken;
           id ← Date_now E;
           created_at ← Date_now E;
           let u : user :=
             <["id" := JNum id]>
             (<["name" := JStr (JS.String_ name)]>
             (<["email" := JStr (toLowerCase E (JS.String_ email))]>
             (<["salt" := JStr salt]>
             (<["password" := JStr hashed]>
             (<["token" := JStr token]>
             (<["created_at" := JNum created_at]> ∅)))))) in
           _ ← writeDB (Document.set_users (users ++ [u]) db);
           json 200 (BUser (userSafe u) (Some token))
       end)
    (fun err => json 500 (BError "server_error" None)).

(** [POST /login] *)
Definition login (b : AuthBody.t) : M response :=
  try_catch
    (let email := AuthBody.email b in
     let password := AuthBody.password b in
     if negb (JS.truthy_str email) || negb (JS.truthy_str password) then
       json 400 (BError "Missing fields" None)
     else
       db ← readDB;
       let users := users_or_empty db in
       match JS.find (same_email email) users with
       | None => json 400 (BError "Invalid credentials" None)
       | Some (i, u) =>
           ok ← verifyPassword password (u !! "salt") (u !! "password");
           if negb ok then json 400 (BError "Invalid credentials" None)
           else
             token ← genToken;
             let u' : user := <["token" := JStr token]> u in
             _ ← writeDB (Document.set_users (<[i := u']> users) db);
             json 200 (BUser (userSafe u') (Some token))
       end)
    (fun err => json 500 (BError "server_error" None)).

(** [GET /me] with the [Authorization] header, if any. *)
Definition me (authorization : option string) : M response :=
  try_catch
    (let auth := if JS.truthy_str authorization
                 then JS.String_ authorization else "" in
     let token := trim E (JS.replace_first "Bearer " "" auth) in
     if String.eqb token "" then json 401 (BError "missing_token" None)
     else
       db ← readDB;
       let users := users_or_empty db in
       match JS.find (has_token token) users with
       | None => json 401 (BError "invalid_token" None)
       | Some (_, u) => json 200 (BUser (userSafe u) None)
       end)
    (fun err => json 500 (BError "server_error" None)).

End Server.
End V3.


(** A handler as a total function from the world before the request to
    the response and the world after it. *)
Definition serve (m : M response) (w : world) : response * world := run m w.


(** ** Vocabulary of the properties *)

(** Two strings that differ at exactly one position. *)
Definition one_char_apart (a b : string) : Prop :=
  ∃ pre x y suf, x ≠ y ∧ a = pre ++ String x suf ∧ b = pre ++ String y suf.

(** The guards of V2's verify-payment: the three gateway fields are there
    and the secret is configured. *)
Definition V2_preconditions (E : env) (b : VerifyBody.t) : Prop :=
  JS.truthy_str (VerifyBody.razorpay_order_id b) = true
  ∧ JS.truthy_str (VerifyBody.razorpay_payment_id b) = true
  ∧ JS.truthy_str (VerifyBody.razorpay_signature b) = true
  ∧ V2.RZP_KEY_SECRET E ≠ "".

(** The guard of V1's verify-payment: the three gateway fields are
    there. *)
Definition V1_preconditions (b : VerifyBody.t) : Prop :=
  JS.truthy_str (VerifyBody.razorpay_order_id b) = true
  ∧ JS.truthy_str (VerifyBody.razorpay_payment_id b) = true
  ∧ JS.truthy_str (VerifyBody.razorpay_signature b) = true.

(** The two assignments verify-payment makes to the order it found. *)
Definition V3_settle (b : VerifyBody.t) (verified : bool) (o : Order.t) : Order.t :=
  Order.set_razorpay_payment_id (VerifyBody.razorpay_payment_id b)
    (Order.set_status (if verified then "paid" else "payment_failed") o).

(** A stand-in environment for running the handlers on examples.  The
    library functions are replaced by simple stand-ins: the "digest" of
    a message under a key is the two glued together, the clock counts
    up from a fixed instant, the gateway answers every request with the
    order [order_abc] and echoes what it was asked for.  The theorems
    below hold for every environment; this one only serves to evaluate
    the handlers on concrete requests. *)
Definition stub_env : env :=
  Env (Some "rzp_test_key") (Some "s3cret") true
      (fun key msg => key ++ "/" ++ msg)
      (fun password salt => salt ++ "$" ++ password)
      (fun a b => if (String.length a =? String.length b)%nat
                  then Some (String.eqb a b) else None)
      (fun s => s) (fun s => s)
      (fun n => 1700000000000 + Z.of_nat n)
      (fun n k => "r" ++ JS.decimal (Z.of_nat k))
      (fun _ o => inl (RzpOrder.Make "order_abc" (RzpOptions.amount o)
                                     (RzpOptions.currency o)
                                     (Some (RzpOptions.receipt o)))).

(** No [db.json] yet, nothing done yet. *)
Definition empty_world : world := World None 0 [].

(** An order as create-order leaves it. *)
Definition created_order (id : Z) (receipt oid : string) (amount : float) : Order.t :=
  Order.Make id receipt oid (JSON.stringify_number amount)
             (JSON.stringify_number (JS.Math_round (PrimFloat.mul amount 100)))
             "INR" None None "created" id None None None None.

(** A [db.json] that holds the orders [l]. *)
Definition world_with (l : list Order.t) : world :=
  World (Some (Document.Make [] (Some l) (Some []))) 0 [].

(** The lookup as the specification words it: the gateway order id is
    the supplied one, or the receipt is the supplied receipt. *)
Definition correlates (b : VerifyBody.t) (o : Order.t) : Prop :=
  VerifyBody.razorpay_order_id b = Some (Order.razorpay_order_id o)
  ∨ VerifyBody.receipt b = Some (Order.receipt o).

(** The three properties of an order the idempotence claim speaks of. *)
Definition settlement (o : Order.t) : string * option string * option string :=
  (Order.status o, Order.razorpay_payment_id o, Order.razorpay_signature o).

(** What V1 and V2 have in common once the guards are passed: the
    answer and the stored orders after one verify-payment request, for
    the digest [gen] the server computed and the clock reading [now]. *)
Definition verify_outcome (gen : string) (now : Z) (b : VerifyBody.t)
    (orders : list Order.t) (r : response) (orders' : list Order.t) : Prop :=
  let verified := bool_decide (VerifyBody.razorpay_signature b = Some gen) in
  let idx := JS.findIndex (V2.matches b) orders in
  r = Response 200 (BVerified verified (JS.index_number idx) (idx ≫= (orders' !!.)))
  ∧ orders' = match idx with
              | Some i =>
                  if verified then alter (V2.mark_paid b now) i orders
                  else alter (Order.set_status "payment_failed") i orders
              | None => orders
              end.

(** What the idempotence claim promises of two consecutive answers
    [r1], [r2] and the stores [l1], [l2] they leave, starting from [l]:
    both answers are successes with [verified = true]; the order the
    lookup selects in [l] is returned and stored as "paid" both times
    with the payment id and signature of the request; and no order's
    status, payment id or signature differs between [l1] and [l2]. *)
Definition verified_twice (b : VerifyBody.t) (l : list Order.t)
    (r1 : response) (l1 : list Order.t) (r2 : response) (l2 : list Order.t) : Prop :=
  code r1 = 200%nat ∧ code r2 = 200%nat
  ∧ verified_of r1 = Some true ∧ verified_of r2 = Some true
  ∧ settlement <$> l2 = settlement <$> l1
  ∧ ∀ i, JS.findIndex (V2.matches b) l = Some i →
         ∃ o1 o2, l1 !! i = Some o1 ∧ l2 !! i = Some o2
                  ∧ order_of r1 = Some (Some o1) ∧ order_of r2 = Some (Some o2)
                  ∧ Order.status o1 = "paid" ∧ Order.status o2 = "paid"
                  ∧ Order.razorpay_payment_id o1 = VerifyBody.razorpay_payment_id b
                  ∧ Order.razorpay_payment_id o2 = VerifyBody.razorpay_payment_id b
                  ∧ Order.razorpay_signature o1 = VerifyBody.razorpay_signature b
                  ∧ Order.razorpay_signature o2 = VerifyBody.razorpay_signature b.

(** The part of the trace a handler added. *)
Definition added_events (w w' : world) (evs : list event) : Prop :=
  trace w' = (trace w ++ evs)%list.

(** The gateway cannot be reached: every call to it is rejected. *)
Definition gateway_down (E : env) : Prop :=
  ∀ t o, ∃ e, orders_create_at E t o = inr e.

(** The gateway answers with the amount it was asked for. *)
Definition gateway_echoes (E : env) : Prop :=
  ∀ t o r, orders_create_at E t o = inl r → RzpOrder.amount r = RzpOptions.amount o.

(** [Math.round(Number(amount) * 100)] *)
Definition amountPaise (b : CreateBody.t) : float :=
  JS.Math_round (PrimFloat.mul (JS.Number_ (CreateBody.amount b)) 100).

(** A failed creation: an error answer, [db.json] as it was, and no read
    or write of it among the events of the request. *)
Definition creation_failed (w : world) (rw : response * world) (msg : string) : Prop :=
  code (fst rw) = 500%nat
  ∧ (∃ detail, payload (fst rw) = BError msg detail)
  ∧ db_file (snd rw) = db_file w
  ∧ file_accesses (trace (snd rw)) = file_accesses (trace w).

(** A request left [db.json] alone: the file is as it was, and no read or
    write of it is among the events of the request. *)
Definition store_untouched (w w' : world) : Prop :=
  db_file w' = db_file w
  ∧ file_accesses (trace w') = file_accesses (trace w).

(** A stand-in environment whose gateway is unreachable. *)
Definition offline_env : env :=
  Env (Some "rzp_test_key") (Some "s3cret") true
      (hmac_sha256_hex stub_env) (pbkdf2_sha512_hex stub_env)
      (timingSafeEqual_hex stub_env) (toLowerCase stub_env) (trim stub_env)
      (Date_now_at stub_env) (randomBytes_hex_at stub_env)
      (fun _ _ => inr "Error: connect ECONNREFUSED").

(** A stand-in environment whose gateway answers with an amount of its
    own. *)
Definition repricing_env : env :=
  Env (Some "rzp_test_key") (Some "s3cret") true
      (hmac_sha256_hex stub_env) (pbkdf2_sha512_hex stub_env)
      (timingSafeEqual_hex stub_env) (toLowerCase stub_env) (trim stub_env)
      (Date_now_at stub_env) (randomBytes_hex_at stub_env)
      (fun _ o => inl (RzpOrder.Make "order_abc" 49900 (RzpOptions.currency o)
                                     (Some (RzpOptions.receipt o)))).

(** The orders [DELETE /delete-order/:id] removes. *)
Definition keyed_by (id : string) (o : Order.t) : Prop :=
  Order.razorpay_order_id o = id ∨ Order.receipt o = id.

(** Whether an order is keyed by [id] can be decided. *)
#[local] Instance keyed_by_dec (id : string) (o : Order.t) : Decision (keyed_by id o).
Proof. unfold keyed_by. apply _. Defined.

(** An answer either has no user object or has one made by the rest
    pattern. *)
Definition discloses_safe_user_only (r : response) : Prop :=
  ∀ u, user_of r = Some u → ∃ u0, u = V3.userSafe u0.




(** The requests of V3. *)
Inductive V3_request :=
| V3_create (b : CreateBody.t)
| V3_verify (b : VerifyBody.t)
| V3_update (id : string) (u : UpdateBody.t)
| V3_delete (id : string)
| V3_register (b : AuthBody.t)
| V3_login (b : AuthBody.t)
| V3_me (authorization : option string).

(** The handler that serves a request of V3. *)
Definition V3_handle (E : env) (q : V3_request) : M response :=
  match q with
  | V3_create b => V3.create_order E b
  | V3_verify b => V3.verify_payment E b
  | V3_update id u => V3.update_status id u
  | V3_delete id => V3.delete_order id
  | V3_register b => V3.register E b
  | V3_login b => V3.login E b
  | V3_me a => V3.me E a
  end.

(** The worlds V3 can be in. *)
Inductive V3_reachable (E : env) : world → Prop :=
| V3_fresh (w : world) : stored_orders w = [] → V3_reachable E w
| V3_step (w : world) (q : V3_request) :
    V3_reachable E w → V3_reachable E (snd (serve (V3_handle E q) w)).




(** ** The read-only endpoints and the reviews *)

(** The endpoints that answer with a bare JSON value and status 200:
    their handlers are computations of that value. *)
Module Queries.
Section Server.
Context (E : env).

(** [GET /orders] (all three servers): [res.json(db.orders || [])]. *)
Definition get_orders (readDB : M Document.t) : M (list Order.t) :=
  db ← readDB;
  mret (orders_or_empty db).

(** [o.customer.phone || ""] and [o.customer.email || ""] *)
Definition or_empty (x : option string) : string :=
  if JS.truthy_str x then JS.String_ x else "".

(** [GET /my-orders/phone/:phone] of V3. *)
Definition my_orders_phone (param : string) : M (list Order.t) :=
  let phone := trim E (or_empty (Some param)) in
  db ← V3.readDB;
  mret (List.filter
          (fun o => match Order.customer o with
                    | Some c => JS.strict_equals (or_empty (cust_phone c)) phone
                    | None => false
                    end)
          (orders_or_empty db)).

(** [GET /my-orders/email/:email] of V3. *)
Definition my_orders_email (param : string) : M (list Order.t) :=
  let email := toLowerCase E (trim E (or_empty (Some param))) in
  db ← V3.readDB;
  mret (List.filter
          (fun o => match Order.customer o with
                    | Some c =>
                        JS.strict_equals (toLowerCase E (or_empty (cust_email c)))
                                         email
                    | None => false
                    end)
          (orders_or_empty db)).

End Server.
End Queries.

(** The reviews endpoints of [server.js], of the CommonJS rewrite and of
    the first, reviews-only server; the three differ only in the
    document [readDB] falls back to. *)
Module Reviews.

(** The body of [POST /reviews]. *)
Record body := Body {
  productName : option string;
  name : option string;
  rating : option float;
  text : option string
}.

(** What [POST /reviews] answers: 400 [{error: "Missing review fields"}],
    or 200 with the review it stored. *)
Inductive reply :=
| Rejected (error : string)
| Saved (r : review).

(** The property names every object inherits from [Object.prototype]:
    [grouped[name]] is truthy for them although [grouped] was created
    empty. *)
Definition inherited : list string :=
  [ "constructor"; "__defineGetter__"; "__defineSetter__"; "hasOwnProperty";
    "__lookupGetter__"; "__lookupSetter__"; "isPrototypeOf";
    "propertyIsEnumerable"; "toString"; "valueOf"; "__proto__";
    "toLocaleString" ].

Definition is_inherited (k : string) : bool :=
  existsb (String.eqb k) inherited.

(** One round of the [forEach] of [GET /reviews]:
    [if (!grouped[product]) grouped[product] = [];
     grouped[product].push(review)].
    An own property holds an array and gets the review appended; an
    inherited one is truthy but has no [push], which is a [TypeError]. *)
Definition group_one (grouped : gmap string (list review)) (r : review)
    : result (gmap string (list review)) :=
  let product := rv_productName r in
  match grouped !! product with
  | Some l => Ok (<[product := (l ++ [r])%list]> grouped)
  | None =>
      if is_inherited product then Throw "TypeError"
      else Ok (<[product := [r]]> grouped)
  end.

Fixpoint group_all (grouped : gmap string (list review)) (l : list review)
    : result (gmap string (list review)) :=
  match l with
  | [] => Ok grouped
  | r :: l' =>
      match group_one grouped r with
      | Ok grouped' => group_all grouped' l'
      | Throw e => Throw e
      end
  end.

(** A pure computation that may have thrown, as a step of a handler. *)
Definition finish {A} (r : result A) : M A := fun w => (r, w).

Section Server.
Context (E : env) (readDB : M Document.t).

(** [GET /reviews]: the reviews grouped by product name.  The handler has
    no try/catch: an exception leaves it. *)
Definition get_reviews : M (gmap string (list review)) :=
  db ← readDB;
  finish (group_all ∅ (Document.reviews db)).

(** [POST /reviews].  The review pushed and sent back is given as it is
    written: its rating goes through [JSON.stringify]. *)
Definition post_review (b : body) : M reply :=
  db ← readDB;
  if negb (JS.truthy_str (productName b)) || negb (JS.truthy_str (name b))
     || negb (JS.truthy_num (rating b)) || negb (JS.truthy_str (text b)) then
    mret (Rejected "Missing review fields")
  else
    id ← Date_now E;
    let newReview :=
      Review id (JS.String_ (productName b)) (JS.String_ (name b))
             (JSON.stringify_optional (rating b)) (JS.String_ (text b)) in
    _ ← write_file (Document.Make (Document.reviews db ++ [newReview])
                                  (Document.orders db) (Document.users db));
    mret (Saved newReview).

End Server.
End Reviews.

(** [readDB] of the reviews-only server: the fallback document has no
    orders. *)
Definition V0_readDB : M Document.t := read_file (Document.Make [] None None).

(** The reviews held by the file. *)
Definition stored_reviews (w : world) : list review :=
  match db_file w with
  | Some d => Document.reviews d
  | None => []
  end.

(** The users held by the file. *)
Definition stored_users (w : world) : list user :=
  match db_file w with
  | Some d => users_or_empty d
  | None => []
  end.

(** The three [readDB] the reviews endpoints run on. *)
Definition reviews_readDB (r : M Document.t) : Prop :=
  r = V0_readDB ∨ r = V1.readDB ∨ r = V2.readDB.










(** What no request changes once an order is stored: everything but its
    status, its delivery estimate and its payment fields. *)
Definition order_core (o : Order.t) :=
  (Order.id o, Order.receipt o, Order.razorpay_order_id o, Order.amount o,
   Order.amount_paise o, Order.currency o, Order.cart o, Order.customer o,
   Order.created_at o).

(** The payment fields of an order. *)
Definition payment_fields (o : Order.t) :=
  (Order.razorpay_payment_id o, Order.razorpay_signature o, Order.paid_at o).

(** A request left the reviews and the users of the file as they were. *)
Definition keeps_reviews_and_users (w w' : world) : Prop :=
  stored_reviews w' = stored_reviews w ∧ stored_users w' = stored_users w.

(** [id] is the key of the order at position [i], and of none before
    it. *)
Definition first_keyed (id : string) (l : list Order.t) (i : nat) (o : Order.t)
    : Prop :=
  l !! i = Some o ∧ keyed_by id o
  ∧ ∀ j o', (j < i)%nat → l !! j = Some o' → ¬ keyed_by id o'.

(** The assignments of update-status to the order it found:
    [if (status) o.status = status; if (eta) o.eta = eta]. *)
Definition apply_update (u : UpdateBody.t) (o : Order.t) : Order.t :=
  (if JS.truthy_str (UpdateBody.eta u)
   then Order.set_eta (JS.String_ (UpdateBody.eta u)) else λ o, o)
    ((if JS.truthy_str (UpdateBody.status u)
      then Order.set_status (JS.String_ (UpdateBody.status u)) else λ o, o) o).

(** What a successful create-order promises: the order [o] was appended
    to the stored orders as "created", with a non-empty receipt and no
    payment field; the answer carries the gateway order id, the amount in
    paise, the currency and the receipt of that very order together with
    the public key id [key]; reviews and users are kept; and the next
    [GET /orders], through [readDB], ends with [o]. *)
Definition order_was_created (readDB : M Document.t) (key : string)
    (w : world) (rw : response * world) (o : Order.t) : Prop :=
  stored_orders (snd rw) = (stored_orders w ++ [o])%list
  ∧ payload (fst rw)
    = BOrderCreated (Order.razorpay_order_id o) (Order.amount_paise o)
                    (Order.currency o) (Order.receipt o) key
  ∧ Order.status o = "created" ∧ Order.receipt o ≠ ""
  ∧ payment_fields o = (None, None, None)
  ∧ keeps_reviews_and_users w (snd rw)
  ∧ fst (Queries.get_orders readDB (snd rw)) = Ok (stored_orders w ++ [o])%list.

(** What holds of every order V3 has stored: the receipt is not empty,
    the cart is an array (never [null]), and no payment time is
    recorded. *)
Definition V3_order_shape (o : Order.t) : Prop :=
  Order.receipt o ≠ "" ∧ is_Some (Order.cart o) ∧ Order.paid_at o = None.

(** Nothing but the users of the file changed. *)
Definition keeps_orders_and_reviews (w w' : world) : Prop :=
  stored_orders w' = stored_orders w ∧ stored_reviews w' = stored_reviews w.

(** The email of the request is free: no stored user has it, letter case
    aside. *)
Definition email_free (E : env) (email : option string) (w : world) : Prop :=
  ∀ u, u ∈ stored_users w → V3.same_email E email u = false.

(** [u] is the first stored user, at position [i], with the email of the
    request. *)
Definition first_with_email (E : env) (email : option string) (w : world)
    (i : nat) (u : user) : Prop :=
  stored_users w !! i = Some u ∧ V3.same_email E email u = true
  ∧ ∀ j u', (j < i)%nat → stored_users w !! j = Some u' →
            V3.same_email E email u' = false.

(** The three fields of a register request are there. *)
Definition register_fields (b : AuthBody.t) : Prop :=
  JS.truthy_str (AuthBody.email b) = true
  ∧ JS.truthy_str (AuthBody.password b) = true
  ∧ JS.truthy_str (AuthBody.name b) = true.

(** The two fields of a login request are there. *)
Definition login_fields (b : AuthBody.t) : Prop :=
  JS.truthy_str (AuthBody.email b) = true
  ∧ JS.truthy_str (AuthBody.password b) = true.

(** The password of the request is the one the stored user [u] was
    registered with, as [verifyPassword] sees it: [u] has a salt and a
    hash, and the constant-time comparison of the recomputed hash with
    the stored one answers [verdict] ([None]: it throws). *)
Definition password_check (E : env) (password : option string) (u : user)
    (verdict : option bool) : Prop :=
  ∃ salt hashed,
    u !! "salt" = Some (JStr salt) ∧ u !! "password" = Some (JStr hashed)
    ∧ timingSafeEqual_hex E (V3.hashPassword E password salt) hashed = verdict.

(** The user object register builds from a request and from what it drew
    and read: the salt, the token and the two clock readings. *)
Definition registered_user (E : env) (b : AuthBody.t) (salt token : string)
    (id created_at : Z) : user :=
  <["id" := JNum id]>
  (<["name" := JStr (JS.String_ (AuthBody.name b))]>
  (<["email" := JStr (toLowerCase E (JS.String_ (AuthBody.email b)))]>
  (<["salt" := JStr salt]>
  (<["password" := JStr (V3.hashPassword E (AuthBody.password b) salt)]>
  (<["token" := JStr token]>
  (<["created_at" := JNum created_at]> ∅)))))).

(** Two facts about the library the account round trips rest on:
    lower-casing twice is lower-casing once, and the constant-time
    comparison accepts a buffer against itself. *)
Definition lowercase_idempotent (E : env) : Prop :=
  ∀ s, toLowerCase E (toLowerCase E s) = toLowerCase E s.
Definition accepts_equal (E : env) : Prop :=
  ∀ h, timingSafeEqual_hex E h h = Some true.

(** The token [GET /me] extracts from the [Authorization] header:
    [auth.replace("Bearer ", "").trim()]. *)
Definition bearer_token (E : env) (h : option string) : string :=
  trim E (JS.replace_first "Bearer " "" (Queries.or_empty h)).

(** [u] is the first stored user, at position [i], that holds the
    token. *)
Definition first_with_token (token : string) (w : world) (i : nat) (u : user)
    : Prop :=
  stored_users w !! i = Some u ∧ V3.has_token token u = true
  ∧ ∀ j u', (j < i)%nat → stored_users w !! j = Some u' →
            V3.has_token token u' = false.

(** The four fields of a review are there; a rating of [0] counts as
    missing. *)
Definition review_fields (b : Reviews.body) : Prop :=
  JS.truthy_str (Reviews.productName b) = true
  ∧ JS.truthy_str (Reviews.name b) = true
  ∧ JS.truthy_num (Reviews.rating b) = true
  ∧ JS.truthy_str (Reviews.text b) = true.

(** The stored reviews of one product, in their stored order. *)
Definition reviews_of (p : string) (l : list review) : list review :=
  filter (λ r, rv_productName r = p) l.

(** The answer of [GET /reviews] for a list of reviews none of which
    names an inherited property: one group for each product that has a
    review, holding that product's reviews in their stored order. *)
Definition grouped_by_product (l : list review)
    (g : gmap string (list review)) : Prop :=
  ∀ p, g !! p = match reviews_of p l with
                | [] => None
                | r :: rs => Some (r :: rs)
                end.


(** * Properties *)

(** ** Rounding and printing on examples *)

Example Math_round_500 : JS.Math_round (PrimFloat.mul 500 100) = 50000%float.
Proof. vm_compute. reflexivity. Qed.
Example Math_round_half : JS.Math_round 2.5%float = 3%float.
Proof. vm_compute. reflexivity. Qed.
Example Math_round_neg_half : JS.Math_round (-2.5)%float = (-2)%float.
Proof. vm_compute. reflexivity. Qed.
Example Math_round_1005 : JS.Math_round (PrimFloat.mul 1.005 100) = 100%float.
Proof. vm_compute. reflexivity. Qed.
Example Math_round_small : JS.Math_round 0.49999999999999994%float = 0%float.
Proof. vm_compute. reflexivity. Qed.
Example decimal_ts : JS.decimal 1700000000000 = "1700000000000".
Proof. vm_compute. reflexivity. Qed.

(** ** Facts about the JavaScript primitives *)

Section JSFacts.

Lemma strict_equals_true (a b : string) : JS.strict_equals a b = true ↔ a = b.
Proof. apply String.eqb_eq. Qed.

Lemma strict_equals_false (a b : string) : JS.strict_equals a b = false ↔ a ≠ b.
Proof. apply String.eqb_neq. Qed.

Lemma strict_equals_refl (a : string) : JS.strict_equals a a = true.
Proof. by apply strict_equals_true. Qed.

Lemma strict_equals_decide (a b : string) :
  JS.strict_equals a b = bool_decide (a = b).
Proof.
  destruct (JS.strict_equals a b) eqn:H; symmetry.
  - apply bool_decide_eq_true, strict_equals_true, H.
  - apply bool_decide_eq_false, strict_equals_false, H.
Qed.

Lemma strict_equals_opt_true (a : string) (b : option string) :
  JS.strict_equals_opt a b = true ↔ b = Some a.
Proof.
  destruct b as [s|]; simpl; [|split; discriminate].
  rewrite strict_equals_true. split; [by intros ->|congruence].
Qed.

Lemma strict_equals_opt_decide (a : string) (b : option string) :
  JS.strict_equals_opt a b = bool_decide (b = Some a).
Proof.
  destruct (JS.strict_equals_opt a b) eqn:H; symmetry.
  - apply bool_decide_eq_true, strict_equals_opt_true, H.
  - apply bool_decide_eq_false. intros Hb.
    apply strict_equals_opt_true in Hb. congruence.
Qed.

Lemma truthy_str_Some (s : string) : JS.truthy_str (Some s) = true ↔ s ≠ "".
Proof.
  simpl. rewrite negb_true_iff. apply String.eqb_neq.
Qed.

Context {A : Type} (p : A → bool).

Lemma findIndex_from_Some (l : list A) (k i : nat) :
  JS.findIndex_from p l k = Some i →
  ∃ j x, i = (k + j)%nat ∧ l !! j = Some x ∧ p x = true
         ∧ ∀ j' y, (j' < j)%nat → l !! j' = Some y → p y = false.
Proof.
  revert k. induction l as [|a l IH]; intros k; simpl; [discriminate|].
  destruct (p a) eqn:Hp.
  - intros [= <-]. exists 0%nat, a. repeat split; [lia|done|lia].
  - intros H. destruct (IH _ H) as (j & x & -> & Hx & Hpx & Hmin).
    exists (S j), x. repeat split; [lia|done|done|].
    intros [|j'] y Hlt Hy; simpl in Hy.
    + congruence.
    + apply (Hmin j' y); [lia|done].
Qed.

Lemma findIndex_from_None (l : list A) (k : nat) :
  JS.findIndex_from p l k = None ↔ ∀ x, x ∈ l → p x = false.
Proof.
  revert k. induction l as [|a l IH]; intros k; simpl.
  - split; [|done]. intros _ x Hx. by apply elem_of_nil in Hx.
  - destruct (p a) eqn:Hp.
    + split; [discriminate|]. intros H. specialize (H a). rewrite Hp in H.
      discriminate H. left.
    + rewrite IH. split.
      * intros H x [->|Hx]%elem_of_cons; auto.
      * intros H x Hx. apply H. by right.
Qed.

(** [findIndex] answers the least index whose element satisfies the
    callback. *)
Lemma findIndex_Some (l : list A) (i : nat) :
  JS.findIndex p l = Some i ↔
  ∃ x, l !! i = Some x ∧ p x = true
       ∧ ∀ j y, (j < i)%nat → l !! j = Some y → p y = false.
Proof.
  split.
  - intros H. apply findIndex_from_Some in H as (j & x & -> & ? & ? & ?).
    simpl. eauto.
  - intros (x & Hx & Hpx & Hmin). unfold JS.findIndex.
    destruct (JS.findIndex_from p l 0) as [i'|] eqn:H.
    + apply findIndex_from_Some in H as (j & x' & -> & Hx' & Hpx' & Hmin').
      simpl. f_equal. destruct (Nat.lt_trichotomy i j) as [Hlt|[->|Hgt]]; [|done|].
      * rewrite (Hmin' i x Hlt Hx) in Hpx. discriminate.
      * rewrite (Hmin j x' Hgt Hx') in Hpx'. discriminate.
    + rewrite findIndex_from_None in H.
      rewrite H in Hpx; [discriminate|]. by eapply list_elem_of_lookup_2.
Qed.

Lemma findIndex_None (l : list A) :
  JS.findIndex p l = None ↔ ∀ x, x ∈ l → p x = false.
Proof. apply findIndex_from_None. Qed.

Lemma findIndex_lt (l : list A) (i : nat) :
  JS.findIndex p l = Some i → (i < length l)%nat.
Proof.
  intros (x & Hx & _)%findIndex_Some. by eapply lookup_lt_Some.
Qed.

Lemma find_Some (l : list A) (i : nat) (x : A) :
  JS.find p l = Some (i, x) → l !! i = Some x ∧ p x = true.
Proof.
  unfold JS.find. destruct (JS.findIndex p l) as [j|] eqn:H; [|discriminate].
  apply findIndex_Some in H as (y & Hy & Hpy & _).
  rewrite Hy. intros [= <- <-]. done.
Qed.

End JSFacts.


(** ** JSON numbers *)

(** What [JSON.stringify] makes of a number: a finite one is kept, a
    zero loses its sign, an infinity or [NaN] becomes [null]. *)
Lemma stringify_number_spec (x : float) :
  match Prim2SF x with
  | S754_finite _ _ _ => JSON.value <$> JSON.stringify_number x = Some x
  | S754_zero _ => JSON.value <$> JSON.stringify_number x = Some 0%float
  | _ => JSON.stringify_number x = None
  end.
Proof.
  unfold JSON.stringify_number.
  destruct (Prim2SF x) eqn:Hx; cbn zeta.
  - reflexivity.
  - destruct (decide _) as [H|H]; [exfalso|reflexivity].
    unfold JSON.representable in H. by rewrite Hx in H.
  - destruct (decide _) as [H|H]; [exfalso|reflexivity].
    unfold JSON.representable in H. by rewrite Hx in H.
  - destruct (decide _) as [H|H]; [reflexivity|].
    exfalso. apply H. unfold JSON.representable. by rewrite Hx.
Qed.

(** A JSON number is determined by its value. *)
Lemma JSON_number_eq (a b : JSON.number) : JSON.value a = JSON.value b → a = b.
Proof.
  destruct a as [x Hx], b as [y Hy]. simpl. intros ->.
  f_equal. apply proof_irrel.
Qed.


(** ** Running the handlers *)

Lemma gateway_calls_app (t1 t2 : list event) :
  gateway_calls (t1 ++ t2) = (gateway_calls t1 ++ gateway_calls t2)%list.
Proof. apply omap_app. Qed.

Lemma file_accesses_app (t1 t2 : list event) :
  file_accesses (t1 ++ t2) = (file_accesses t1 ++ file_accesses t2)%list.
Proof. apply List.filter_app. Qed.

Lemma orders_of_read (w : world) (dflt : Document.t) :
  Document.orders dflt = Some [] ∨ Document.orders dflt = None →
  orders_or_empty (default dflt (db_file w)) = stored_orders w.
Proof.
  unfold stored_orders, orders_or_empty. destruct (db_file w); simpl; [done|].
  by intros [-> | ->].
Qed.

Lemma stored_orders_written (d : Document.t) (l : list Order.t) (n : nat)
    (t : list event) :
  stored_orders (World (Some (Document.set_orders l d)) n t) = l.
Proof. reflexivity. Qed.

(** Reading the orders of a world that has the file of [w] is reading
    the orders of [w]. *)
Ltac same_file w :=
  repeat match goal with
  | |- context [stored_orders (World (db_file w) ?n ?t)] =>
      change (stored_orders (World (db_file w) n t)) with (stored_orders w)
  end.

(** Unfold one handler down to the world-passing function it denotes. *)
Ltac unfold_handler :=
  unfold serve, run, try_catch, json, throw,
    V1.readDB, V1.saveDB, V2.readDB, V2.writeDB, V3.readDB, V3.writeDB,
    read_file, write_file, Date_now, randomBytes_hex, orders_create;
  unfold mbind, M_bind, mret, M_ret; cbn beta iota.


Lemma one_char_apart_neq (a b : string) : one_char_apart a b → a ≠ b.
Proof.
  intros (pre & x & y & suf & Hxy & -> & ->).
  induction pre as [|c pre IH]; simpl; intros H; injection H; auto.
Qed.

Section VerifyV2.
Context (E : env).


(** What a verify-payment request that passes the guards answers and
    leaves in the file. *)
Lemma V2_verify_payment_run (b : VerifyBody.t) (w : world) :
  V2_preconditions E b →
  let verified := bool_decide
    (VerifyBody.razorpay_signature b = Some (V2.generated_signature E b)) in
  let orders := stored_orders w in
  let idx := JS.findIndex (V2.matches b) orders in
  let r := fst (serve (V2.verify_payment E b) w) in
  let w' := snd (serve (V2.verify_payment E b) w) in
  r = Response 200 (BVerified verified (JS.index_number idx)
                              (idx ≫= (stored_orders w' !!.)))
    ∧ stored_orders w' =
        match idx with
        | Some i =>
            if verified
            then alter (V2.mark_paid b (Date_now_at E (ticks w))) i orders
            else alter (Order.set_status "payment_failed") i orders
        | None => orders
        end
    ∧ (idx = None → db_file w' = db_file w)
    ∧ gateway_calls (trace w') = gateway_calls (trace w).
Proof.
  intros (H1 & H2 & H3 & H4) verified orders idx.
  unfold V2.verify_payment. unfold_handler.
  rewrite H1, H2, H3. cbn [negb orb].
  apply String.eqb_neq in H4. rewrite H4.
  rewrite orders_of_read by (left; reflexivity). same_file w.
  rewrite strict_equals_opt_decide.
  fold orders. fold idx. fold verified.
  destruct idx as [i|]; [destruct verified|]; cbn beta iota;
    (split; [reflexivity|]); (split; [reflexivity|]);
    (split; [try reflexivity; try discriminate|]);
    cbn [snd trace]; rewrite ?gateway_calls_app; cbn; by rewrite ?app_nil_r.
Qed.

End VerifyV2.

Section VerifyV1.
Context (E : env).


Lemma V1_verify_payment_run (b : VerifyBody.t) (w : world) :
  V1_preconditions b →
  let verified := bool_decide
    (VerifyBody.razorpay_signature b = Some (V1.generated_signature E b)) in
  let orders := stored_orders w in
  let idx := JS.findIndex (V1.matches b) orders in
  let r := fst (serve (V1.verify_payment E b) w) in
  let w' := snd (serve (V1.verify_payment E b) w) in
  r = Response 200 (BVerified verified (JS.index_number idx)
                              (idx ≫= (stored_orders w' !!.)))
    ∧ stored_orders w' =
        match idx with
        | Some i =>
            if verified
            then alter (V1.mark_paid b (Date_now_at E (ticks w))) i orders
            else alter (Order.set_status "payment_failed") i orders
        | None => orders
        end
    ∧ (idx = None → db_file w' = db_file w)
    ∧ gateway_calls (trace w') = gateway_calls (trace w).
Proof.
  intros (H1 & H2 & H3) verified orders idx.
  unfold V1.verify_payment. unfold_handler.
  rewrite H1, H2, H3. cbn [negb orb].
  rewrite orders_of_read by (left; reflexivity). same_file w.
  rewrite strict_equals_opt_decide.
  fold orders. fold idx. fold verified.
  destruct idx as [i|]; [destruct verified|]; cbn beta iota;
    (split; [reflexivity|]); (split; [reflexivity|]);
    (split; [try reflexivity; try discriminate|]);
    cbn [snd trace]; rewrite ?gateway_calls_app; cbn; by rewrite ?app_nil_r.
Qed.

End VerifyV1.

Section VerifyV3.
Context (E : env).


Lemma V3_verify_payment_run (b : VerifyBody.t) (w : world) :
  let verified := bool_decide
    (VerifyBody.razorpay_signature b = Some (V3.generated_signature E b)) in
  let orders := stored_orders w in
  let idx := JS.findIndex (V3.matches_key (VerifyBody.razorpay_order_id b)
                                          (VerifyBody.receipt b)) orders in
  let r := fst (serve (V3.verify_payment E b) w) in
  let w' := snd (serve (V3.verify_payment E b) w) in
  r = Response 200 (BVerifiedOnly verified)
    ∧ stored_orders w' =
        match idx with
        | Some i => alter (V3_settle b verified) i orders
        | None => orders
        end
    ∧ (idx = None → db_file w' = db_file w)
    ∧ gateway_calls (trace w') = gateway_calls (trace w).
Proof.
  intros verified orders idx.
  unfold V3.verify_payment. unfold_handler.
  rewrite orders_of_read by (left; reflexivity). same_file w.
  rewrite strict_equals_opt_decide.
  fold orders. fold idx. fold verified.
  destruct idx as [i|]; cbn beta iota;
    (split; [reflexivity|]); (split; [reflexivity|]);
    (split; [try reflexivity; try discriminate|]);
    cbn [snd trace]; rewrite ?gateway_calls_app; cbn; by rewrite ?app_nil_r.
Qed.

End VerifyV3.

(** ** A stand-in environment for running the handlers on examples

    The library functions are replaced by simple stand-ins: the
    "signature" of a message under a key is the two glued together, the
    gateway echoes what it is asked for under the id [order_abc].  The
    theorems below hold for every environment; this one only serves to
    evaluate the handlers on concrete requests. *)


(** ** Signature verification (C1) *)

Lemma truthy_nonempty (s : string) : s ≠ "" → JS.truthy_str (Some s) = true.
Proof. apply truthy_str_Some. Qed.

Lemma lookup_alter_status (f : Order.t → Order.t) (s : string)
    (l : list Order.t) (i : nat) :
  (i < length l)%nat → (∀ o, Order.status (f o) = s) →
  Order.status <$> (alter f i l !! i) = Some s.
Proof.
  intros Hi Hf. rewrite list_lookup_alter_eq.
  destruct (lookup_lt_is_Some_2 l i Hi) as [o ->]. simpl. f_equal. apply Hf.
Qed.

(** C1.  For a verify-payment request that carries the three gateway
    fields, the [verified] flag of the response is [true] exactly when
    the supplied signature is the hex HMAC-SHA256, under the configured
    secret, of [razorpay_order_id + "|" + razorpay_payment_id]; and a
    supplied signature that differs from that digest in one character
    gives [verified = false] and leaves the order found by the lookup
    with status "payment_failed".  In V2 the request must pass the
    guards of the handler (three non-empty fields, secret configured);
    V3 has no guard. *)
Theorem C1_signature_decides_verified :
  (∀ (E : env) (w : world) (oid pid sig : string) (receipt : option string),
     let b := VerifyBody.Make (Some oid) (Some pid) (Some sig) receipt in
     let expected :=
       hmac_sha256_hex E (V2.RZP_KEY_SECRET E) (oid ++ "|" ++ pid) in
     let r := fst (serve (V2.verify_payment E b) w) in
     let w' := snd (serve (V2.verify_payment E b) w) in
     oid ≠ "" → pid ≠ "" → sig ≠ "" → V2.RZP_KEY_SECRET E ≠ "" →
     (verified_of r = Some true ↔ sig = expected)
     ∧ (verified_of r = Some false ↔ sig ≠ expected)
     ∧ (one_char_apart expected sig →
        verified_of r = Some false
        ∧ ∀ i, JS.findIndex (V2.matches b) (stored_orders w) = Some i →
               Order.status <$> (stored_orders w' !! i) = Some "payment_failed"))
  ∧
  (∀ (E : env) (w : world) (oid pid sig : string) (receipt : option string),
     let b := VerifyBody.Make (Some oid) (Some pid) (Some sig) receipt in
     let expected :=
       hmac_sha256_hex E (V3.RZP_KEY_SECRET E) (oid ++ "|" ++ pid) in
     let r := fst (serve (V3.verify_payment E b) w) in
     let w' := snd (serve (V3.verify_payment E b) w) in
     (verified_of r = Some true ↔ sig = expected)
     ∧ (verified_of r = Some false ↔ sig ≠ expected)
     ∧ (one_char_apart expected sig →
        verified_of r = Some false
        ∧ ∀ i, JS.findIndex (V3.matches_key (Some oid) receipt)
                            (stored_orders w) = Some i →
               Order.status <$> (stored_orders w' !! i) = Some "payment_failed")).
Proof.
  split.
  - intros E w oid pid sig receipt b expected r w' Ho Hp Hs Hk.
    assert (Hpre : V2_preconditions E b)
      by (repeat split; simpl; try apply truthy_nonempty; done).
    destruct (V2_verify_payment_run E b w Hpre) as (Hr & Hw & _).
    fold r in Hr. fold w' in Hw.
    change (V2.generated_signature E b) with expected in Hr, Hw.
    change (VerifyBody.razorpay_signature b) with (Some sig) in Hr, Hw.
    assert (Hv : verified_of r = Some (bool_decide (Some sig = Some expected)))
      by (rewrite Hr; reflexivity).
    repeat split.
    + rewrite Hv. intros [= H%bool_decide_eq_true]. congruence.
    + intros ->. rewrite Hv. f_equal. by apply bool_decide_eq_true.
    + rewrite Hv. intros [= H%bool_decide_eq_false]. congruence.
    + intros H. rewrite Hv. f_equal. apply bool_decide_eq_false. congruence.
    + rewrite Hv. f_equal. apply bool_decide_eq_false.
      apply one_char_apart_neq in H. congruence.
    + intros i Hi. rewrite Hw, Hi.
      rewrite bool_decide_eq_false_2
        by (apply one_char_apart_neq in H; congruence).
      apply lookup_alter_status; [by eapply findIndex_lt|done].
  - intros E w oid pid sig receipt b expected r w'.
    destruct (V3_verify_payment_run E b w) as (Hr & Hw & _).
    fold r in Hr. fold w' in Hw.
    change (V3.generated_signature E b) with expected in Hr, Hw.
    change (VerifyBody.razorpay_signature b) with (Some sig) in Hr, Hw.
    assert (Hv : verified_of r = Some (bool_decide (Some sig = Some expected)))
      by (rewrite Hr; reflexivity).
    repeat split.
    + rewrite Hv. intros [= H%bool_decide_eq_true]. congruence.
    + intros ->. rewrite Hv. f_equal. by apply bool_decide_eq_true.
    + rewrite Hv. intros [= H%bool_decide_eq_false]. congruence.
    + intros H. rewrite Hv. f_equal. apply bool_decide_eq_false. congruence.
    + rewrite Hv. f_equal. apply bool_decide_eq_false.
      apply one_char_apart_neq in H. congruence.
    + intros i Hi. simpl in Hw. rewrite Hw, Hi.
      rewrite bool_decide_eq_false_2
        by (apply one_char_apart_neq in H; congruence).
      apply lookup_alter_status; [by eapply findIndex_lt|done].
Qed.

(** C1 at work: the order [order_abc] is on file, the request carries a
    signature whose last character was changed. *)
Lemma C1_flipped_signature_example :
  let w := world_with [created_order 1 "r1" "order_abc" 500] in
  let b := VerifyBody.Make (Some "order_abc") (Some "pay_123")
             (Some "s3cret/order_abc|pay_124") None in
  verified_of (fst (serve (V2.verify_payment stub_env b) w)) = Some false
  ∧ Order.status <$> (stored_orders (snd (serve (V2.verify_payment stub_env b) w)) !! 0%nat)
    = Some "payment_failed".
Proof.
  cbv zeta.
  assert (Hone : one_char_apart
                   (hmac_sha256_hex stub_env (V2.RZP_KEY_SECRET stub_env)
                      ("order_abc" ++ "|" ++ "pay_123"))
                   "s3cret/order_abc|pay_124").
  { exists "s3cret/order_abc|pay_12", "3"%char, "4"%char, "".
    repeat split. discriminate. }
  destruct (proj1 C1_signature_decides_verified stub_env
              (world_with [created_order 1 "r1" "order_abc" 500])
              "order_abc" "pay_123" "s3cret/order_abc|pay_124" None
              ltac:(discriminate) ltac:(discriminate) ltac:(discriminate)
              ltac:(discriminate)) as (_ & _ & H).
  destruct (H Hone) as [Hv Hs]. split; [exact Hv|].
  apply Hs. vm_compute. reflexivity.
Defined.


(** ** Which order verify-payment selects (C2) *)


(** The callback of V1 and V2 compares [String(o.receipt)] with
    [String(receipt)], so a request without a receipt is compared as the
    text "undefined". *)
Lemma matches_spec (b : VerifyBody.t) (o : Order.t) :
  V2.matches b o = true ↔
  VerifyBody.razorpay_order_id b = Some (Order.razorpay_order_id o)
  ∨ Order.receipt o = JS.String_ (VerifyBody.receipt b).
Proof.
  unfold V2.matches. rewrite orb_true_iff, strict_equals_opt_true,
    strict_equals_true. done.
Qed.

Lemma V1_matches_V2 (b : VerifyBody.t) (o : Order.t) :
  V1.matches b o = V2.matches b o.
Proof. reflexivity. Qed.

(** With a receipt in the request, the callback is the correlation of
    the specification. *)
Lemma matches_correlates (b : VerifyBody.t) (o : Order.t) :
  is_Some (VerifyBody.receipt b) →
  V2.matches b o = true ↔ correlates b o.
Proof.
  intros [r Hr]. rewrite matches_spec. unfold correlates. rewrite Hr. simpl.
  split; (intros [H|H]; [by left|right; congruence]).
Qed.

(** For a request that carries a receipt and passes the guards, V2
    selects the first stored order that correlates, and when there is
    none it answers [order: null] and writes nothing. *)
Lemma V2_selects_first_correlated (E : env) (b : VerifyBody.t) (w : world) :
  V2_preconditions E b → is_Some (VerifyBody.receipt b) →
  let r := fst (serve (V2.verify_payment E b) w) in
  let w' := snd (serve (V2.verify_payment E b) w) in
  (∀ i, JS.findIndex (V2.matches b) (stored_orders w) = Some i ↔
        ∃ o, stored_orders w !! i = Some o ∧ correlates b o
             ∧ ∀ j o', (j < i)%nat → stored_orders w !! j = Some o' →
                       ¬ correlates b o')
  ∧ ((∀ o, o ∈ stored_orders w → ¬ correlates b o) →
     order_of r = Some None
     ∧ verified_of r = Some (bool_decide (VerifyBody.razorpay_signature b
                                          = Some (V2.generated_signature E b)))
     ∧ db_file w' = db_file w).
Proof.
  intros Hpre Hrec r w'. split.
  - intros i. rewrite findIndex_Some. split.
    + intros (o & Ho & Hm & Hmin). exists o. split; [done|].
      split; [by apply matches_correlates|].
      intros j o' Hj Ho' Hc. apply matches_correlates in Hc; [|done].
      rewrite (Hmin j o' Hj Ho') in Hc. discriminate.
    + intros (o & Ho & Hm & Hmin). exists o. split; [done|].
      split; [by apply matches_correlates|].
      intros j o' Hj Ho'. apply not_true_is_false.
      intros Hc. apply (Hmin j o' Hj Ho'). by apply matches_correlates.
  - intros Hnone.
    assert (Hidx : JS.findIndex (V2.matches b) (stored_orders w) = None).
    { apply findIndex_None. intros o Ho. apply not_true_is_false.
      intros Hc. apply (Hnone o Ho). by apply matches_correlates. }
    destruct (V2_verify_payment_run E b w Hpre) as (Hr & _ & Hw & _).
    fold r in Hr. fold w' in Hw. rewrite Hidx in Hr. rewrite (Hw Hidx), Hr.
    done.
Qed.

(** C2 (the code departs from the claim).  Two orders are on file; the
    first has the receipt text "undefined".  A correctly signed
    confirmation for the second order that carries no receipt is
    matched with the first order, in V1 and in V2: the first order is
    marked paid with the second order's payment, the second stays
    "created".  And a confirmation for an order id that is not on
    file, again without a receipt, does not answer [order: null]: it
    marks the first order as failed. *)
Theorem C2_absent_receipt_selects_undefined_receipt :
  let A := created_order 1 "undefined" "order_A" 500 in
  let B := created_order 2 "r2" "order_B" 250 in
  let w := world_with [A; B] in
  let paid := VerifyBody.Make (Some "order_B") (Some "pay_1")
                (Some "s3cret/order_B|pay_1") None in
  let stray := VerifyBody.Make (Some "order_Z") (Some "pay_9") (Some "xyz") None in
  (∀ o, o ∈ [A] → ¬ correlates paid o)
  ∧ (∀ o, o ∈ [A; B] → ¬ correlates stray o)
  ∧ Order.status <$> stored_orders (snd (serve (V1.verify_payment stub_env paid) w))
    = ["paid"; "created"]
  ∧ Order.status <$> stored_orders (snd (serve (V2.verify_payment stub_env paid) w))
    = ["paid"; "created"]
  ∧ Order.razorpay_payment_id
      <$> stored_orders (snd (serve (V2.verify_payment stub_env paid) w))
    = [Some "pay_1"; None]
  ∧ payload (fst (serve (V2.verify_payment stub_env stray) w))
    = BVerified false 0 (Some (Order.set_status "payment_failed" A))
  ∧ payload (fst (serve (V1.verify_payment stub_env stray) w))
    = BVerified false 0 (Some (Order.set_status "payment_failed" A)).
Proof.
  cbv zeta. split; [|split].
  - intros o ->%list_elem_of_singleton [H|H]; discriminate H.
  - intros o Ho. apply elem_of_cons in Ho as [->|Ho];
      [|apply list_elem_of_singleton in Ho as ->]; intros [H|H]; discriminate H.
  - repeat split; vm_compute; reflexivity.
Qed.


(** ** Verifying twice (C4) *)


Section FindIndexAlter.
Context {A : Type} (p : A → bool) (f : A → A).
Hypothesis p_f : ∀ x, p (f x) = p x.

Lemma findIndex_from_alter (l : list A) (i k : nat) :
  JS.findIndex_from p (alter f i l) k = JS.findIndex_from p l k.
Proof.
  revert i k. induction l as [|a l IH]; intros [|i] k; simpl; try done.
  - by rewrite p_f.
  - destruct (p a); [done|apply IH].
Qed.

Lemma findIndex_alter (l : list A) (i : nat) :
  JS.findIndex p (alter f i l) = JS.findIndex p l.
Proof. apply findIndex_from_alter. Qed.

End FindIndexAlter.

Lemma mark_paid_matches (b b' : VerifyBody.t) (now : Z) (o : Order.t) :
  V2.matches b' (V2.mark_paid b now o) = V2.matches b' o.
Proof. reflexivity. Qed.

Lemma mark_paid_twice (b : VerifyBody.t) (t1 t2 : Z) (o : Order.t) :
  V2.mark_paid b t2 (V2.mark_paid b t1 o) = V2.mark_paid b t2 o.
Proof. reflexivity. Qed.

Lemma settlement_mark_paid (b : VerifyBody.t) (now : Z) (o : Order.t) :
  settlement (V2.mark_paid b now o)
  = ("paid", VerifyBody.razorpay_payment_id b, VerifyBody.razorpay_signature b).
Proof. reflexivity. Qed.

(** Two verified runs in a row: the same order is selected, it is paid
    after each, and the second run changes no status, payment id or
    signature anywhere in the store. *)
Lemma verify_outcome_twice (gen : string) (t1 t2 : Z) (b : VerifyBody.t)
    (l l1 l2 : list Order.t) (r1 r2 : response) :
  VerifyBody.razorpay_signature b = Some gen →
  verify_outcome gen t1 b l r1 l1 →
  verify_outcome gen t2 b l1 r2 l2 →
  code r1 = 200%nat ∧ code r2 = 200%nat
  ∧ verified_of r1 = Some true ∧ verified_of r2 = Some true
  ∧ settlement <$> l2 = settlement <$> l1
  ∧ JS.findIndex (V2.matches b) l1 = JS.findIndex (V2.matches b) l
  ∧ ∀ i, JS.findIndex (V2.matches b) l = Some i →
         ∃ o1 o2, l1 !! i = Some o1 ∧ l2 !! i = Some o2
                  ∧ order_of r1 = Some (Some o1) ∧ order_of r2 = Some (Some o2)
                  ∧ Order.status o1 = "paid" ∧ Order.status o2 = "paid"
                  ∧ Order.razorpay_payment_id o1 = VerifyBody.razorpay_payment_id b
                  ∧ Order.razorpay_payment_id o2 = VerifyBody.razorpay_payment_id b
                  ∧ Order.razorpay_signature o1 = VerifyBody.razorpay_signature b
                  ∧ Order.razorpay_signature o2 = VerifyBody.razorpay_signature b.
Proof.
  intros Hsig [Hr1 Hl1] [Hr2 Hl2].
  rewrite bool_decide_eq_true_2 in Hr1, Hl1, Hr2, Hl2 by done.
  assert (Hidx : JS.findIndex (V2.matches b) l1 = JS.findIndex (V2.matches b) l).
  { rewrite Hl1. destruct (JS.findIndex (V2.matches b) l) as [i|] eqn:Hi; [|done].
    rewrite findIndex_alter; [done|]. intros o. apply mark_paid_matches. }
  rewrite Hidx in Hr2, Hl2.
  split; [by rewrite Hr1|]. split; [by rewrite Hr2|].
  split; [by rewrite Hr1|]. split; [by rewrite Hr2|].
  destruct (JS.findIndex (V2.matches b) l) as [i|] eqn:Hi.
  - assert (Hl2' : l2 = alter (V2.mark_paid b t2) i l).
    { rewrite Hl2, Hl1, list_alter_alter_eq. apply list_alter_ext; [|done].
      intros o _. apply mark_paid_twice. }
    split; [|split; [done|]].
    + rewrite Hl2', Hl1.
      pose (h := fun _ : string * option string * option string =>
        ("paid", VerifyBody.razorpay_payment_id b, VerifyBody.razorpay_signature b)).
      rewrite (list_fmap_alter settlement (V2.mark_paid b t2) h)
        by (apply Forall_forall; intros o _; apply settlement_mark_paid).
      by rewrite (list_fmap_alter settlement (V2.mark_paid b t1) h)
        by (apply Forall_forall; intros o _; apply settlement_mark_paid).
    + intros ? [= <-]. apply findIndex_lt in Hi.
      destruct (lookup_lt_is_Some_2 l i Hi) as [o Ho].
      exists (V2.mark_paid b t1 o), (V2.mark_paid b t2 o).
      assert (H1 : l1 !! i = Some (V2.mark_paid b t1 o))
        by (by rewrite Hl1, list_lookup_alter_eq, Ho).
      assert (H2 : l2 !! i = Some (V2.mark_paid b t2 o))
        by (by rewrite Hl2', list_lookup_alter_eq, Ho).
      split; [done|]. split; [done|].
      split; [by rewrite Hr1; simpl; rewrite H1|].
      split; [by rewrite Hr2; simpl; rewrite H2|]. done.
  - split; [by rewrite Hl2, Hl1|]. split; [done|]. intros ? [=].
Qed.

Lemma V2_verify_outcome (E : env) (b : VerifyBody.t) (w : world) :
  V2_preconditions E b →
  verify_outcome (V2.generated_signature E b) (Date_now_at E (ticks w)) b
    (stored_orders w) (fst (serve (V2.verify_payment E b) w))
    (stored_orders (snd (serve (V2.verify_payment E b) w))).
Proof.
  intros Hpre. destruct (V2_verify_payment_run E b w Hpre) as (Hr & Hw & _).
  split; [exact Hr|exact Hw].
Qed.

Lemma V1_verify_outcome (E : env) (b : VerifyBody.t) (w : world) :
  V1_preconditions b →
  verify_outcome (V1.generated_signature E b) (Date_now_at E (ticks w)) b
    (stored_orders w) (fst (serve (V1.verify_payment E b) w))
    (stored_orders (snd (serve (V1.verify_payment E b) w))).
Proof.
  intros Hpre. destruct (V1_verify_payment_run E b w Hpre) as (Hr & Hw & _).
  split; [exact Hr|exact Hw].
Qed.


(** C4.  verify-payment is idempotent in V1 and V2: for a request with
    the three gateway fields (and, in V2, a configured secret) whose
    signature is the digest the server computes, sending it twice in a
    row answers 200 with [verified = true] both times, the selected
    order is "paid" after each call, and the second call leaves every
    stored status, payment id and signature as the first call left
    them. *)
Theorem C4_verify_payment_idempotent :
  (∀ (E : env) (w : world) (b : VerifyBody.t),
     V1_preconditions b →
     VerifyBody.razorpay_signature b = Some (V1.generated_signature E b) →
     let rw1 := serve (V1.verify_payment E b) w in
     let rw2 := serve (V1.verify_payment E b) (snd rw1) in
     verified_twice b (stored_orders w) (fst rw1) (stored_orders (snd rw1))
                    (fst rw2) (stored_orders (snd rw2)))
  ∧
  (∀ (E : env) (w : world) (b : VerifyBody.t),
     V2_preconditions E b →
     VerifyBody.razorpay_signature b = Some (V2.generated_signature E b) →
     let rw1 := serve (V2.verify_payment E b) w in
     let rw2 := serve (V2.verify_payment E b) (snd rw1) in
     verified_twice b (stored_orders w) (fst rw1) (stored_orders (snd rw1))
                    (fst rw2) (stored_orders (snd rw2))).
Proof.
  split; intros E w b Hpre Hsig rw1 rw2.
  - pose proof (V1_verify_outcome E b w Hpre) as H1.
    pose proof (V1_verify_outcome E b (snd rw1) Hpre) as H2.
    destruct (verify_outcome_twice _ _ _ b _ _ _ _ _ Hsig H1 H2)
      as (? & ? & ? & ? & ? & _ & ?).
    repeat split; assumption.
  - pose proof (V2_verify_outcome E b w Hpre) as H1.
    pose proof (V2_verify_outcome E b (snd rw1) Hpre) as H2.
    destruct (verify_outcome_twice _ _ _ b _ _ _ _ _ Hsig H1 H2)
      as (? & ? & ? & ? & ? & _ & ?).
    repeat split; assumption.
Qed.

(** C4 at work: the scenario of the specification, verified twice. *)
Lemma C4_verified_twice_example :
  let w := world_with [created_order 1 "r1" "order_abc" 500] in
  let b := VerifyBody.Make (Some "order_abc") (Some "pay_123")
             (Some "s3cret/order_abc|pay_123") None in
  let rw1 := serve (V2.verify_payment stub_env b) w in
  let rw2 := serve (V2.verify_payment stub_env b) (snd rw1) in
  verified_twice b (stored_orders w) (fst rw1) (stored_orders (snd rw1))
                 (fst rw2) (stored_orders (snd rw2))
  ∧ settlement <$> stored_orders (snd rw2)
    = [("paid", Some "pay_123", Some "s3cret/order_abc|pay_123")].
Proof.
  cbv zeta. split.
  - apply (proj2 C4_verify_payment_idempotent stub_env).
    + repeat split; discriminate.
    + reflexivity.
  - vm_compute. reflexivity.
Defined.


(** ** Creating orders (C5, C7, C8) *)


(** C7.  In V3, a create-order request with an amount and with [cod]
    set never calls the gateway; the order gets the local id
    [cod_<timestamp>], the timestamp being a reading of the clock taken
    during the request; the order is appended to the stored orders with
    status "created"; and the document holding it is written to
    [db.json] before the handler answers (the write is the last I/O
    event of the request), the answer being a success that carries the
    same id. *)
Theorem C7_cod_order_is_local (E : env) (w : world) (b : CreateBody.t) :
  JS.truthy_num (CreateBody.amount b) = true →
  CreateBody.cod b = true →
  let r := fst (serve (V3.create_order E b) w) in
  let w' := snd (serve (V3.create_order E b) w) in
  gateway_calls (trace w') = gateway_calls (trace w)
  ∧ ∃ (t : nat) (o : Order.t) (d : Document.t),
      stored_orders w' = (stored_orders w ++ [o])%list
      ∧ db_file w' = Some d
      ∧ added_events w w' [EvReadDB; EvWriteDB d]
      ∧ (ticks w ≤ t < ticks w')%nat
      ∧ Order.razorpay_order_id o = "cod_" ++ JS.decimal (Date_now_at E t)
      ∧ Order.status o = "created"
      ∧ code r = 200%nat
      ∧ ∃ amount currency receipt key_id,
          payload r = BOrderCreated (Order.razorpay_order_id o) amount currency
                                    receipt key_id.
Proof.
  intros Hamount Hcod r w'. subst r w'.
  unfold V3.create_order. unfold_handler.
  rewrite Hamount, Hcod. cbn [negb andb].
  destruct (JS.truthy_str (CreateBody.receipt b)); cbn beta iota;
    rewrite orders_of_read by (left; reflexivity); cbn [fst snd trace].
  - split; [by rewrite !gateway_calls_app, !app_nil_r|].
    exists (ticks w). eexists. eexists.
    split; [reflexivity|]. split; [reflexivity|].
    split; [unfold added_events; simpl; by rewrite <- app_assoc|].
    split; [simpl; lia|]. split; [reflexivity|]. split; [reflexivity|].
    split; [reflexivity|]. by repeat eexists.
  - split; [by rewrite !gateway_calls_app, !app_nil_r|].
    exists (S (ticks w)). eexists. eexists.
    split; [reflexivity|]. split; [reflexivity|].
    split; [unfold added_events; simpl; by rewrite <- app_assoc|].
    split; [simpl; lia|]. split; [reflexivity|]. split; [reflexivity|].
    split; [reflexivity|]. by repeat eexists.
Qed.

(** C7 at work: a cash-on-delivery order on an empty store. *)
Lemma C7_cod_example :
  let b := CreateBody.Make (Some 500%float) None (Some "r1") None None None true in
  let rw := serve (V3.create_order stub_env b) empty_world in
  gateway_calls (trace (snd rw)) = []
  ∧ Order.razorpay_order_id <$> stored_orders (snd rw) = ["cod_1700000000000"]
  ∧ Order.status <$> stored_orders (snd rw) = ["created"].
Proof.
  cbv zeta.
  pose proof (C7_cod_order_is_local stub_env empty_world
    (CreateBody.Make (Some 500%float) None (Some "r1") None None None true)
    eq_refl eq_refl) as [Hg _].
  split; [exact Hg|]. split; vm_compute; reflexivity.
Defined.


Ltac create_cases E b w :=
  unfold V1.create_order, V2.create_order, V3.create_order; unfold_handler;
  repeat match goal with
  | H : ?x = _ |- context [?x] => rewrite H
  end; cbn [negb andb orb];
  repeat match goal with
  | |- context [JS.truthy_str (CreateBody.receipt b)] =>
      destruct (JS.truthy_str (CreateBody.receipt b)) eqn:?; cbn [negb andb orb]
  | |- context [orders_create_at E ?t ?o] =>
      let H := fresh "Hgw" in destruct (orders_create_at E t o) eqn:H
  end; cbn beta iota;
  rewrite ?orders_of_read by (left; reflexivity); cbn [fst snd code payload];
  repeat match goal with
  | |- context [stored_orders (World (db_file w) ?n ?t)] =>
      change (stored_orders (World (db_file w) n t)) with (stored_orders w)
  end.

(** C5.  A create-order request without an amount is rejected with 400
    before anything is read, written or sent, in V2 and in V3.  In V2 a
    request made while no gateway client is configured is rejected with
    500 in the same way.  A request that reaches an unreachable gateway
    (V2: client configured; V3: [cod] not set) is answered 500 "Failed
    to create order", with [db.json] neither read nor written.  More
    generally, whenever create-order answers anything but 200, [db.json]
    was neither read nor written.  In V3 the two keys fall back to the
    committed ones, so the gateway client exists whenever the library's
    constructor returns. *)
Theorem C5_failed_creation_leaves_store :
  (∀ (E : env) (w : world) (b : CreateBody.t),
     JS.truthy_num (CreateBody.amount b) = false →
     serve (V2.create_order E b) w = (Response 400 (BError "Missing amount" None), w)
     ∧ serve (V3.create_order E b) w = (Response 400 (BError "Missing amount" None), w))
  ∧ (∀ (E : env) (w : world) (b : CreateBody.t),
       JS.truthy_num (CreateBody.amount b) = true → V2.razorpay E = false →
       serve (V2.create_order E b) w
       = (Response 500 (BError "Razorpay not configured" None), w))
  ∧ (∀ (E : env) (w : world) (b : CreateBody.t),
       JS.truthy_num (CreateBody.amount b) = true → V2.razorpay E = true →
       gateway_down E →
       creation_failed w (serve (V2.create_order E b) w) "Failed to create order")
  ∧ (∀ (E : env) (w : world) (b : CreateBody.t),
       JS.truthy_num (CreateBody.amount b) = true → V3.razorpay E = true →
       CreateBody.cod b = false → gateway_down E →
       creation_failed w (serve (V3.create_order E b) w) "Failed to create order")
  ∧ (∀ (E : env) (w : world) (b : CreateBody.t),
       (code (fst (serve (V2.create_order E b) w)) ≠ 200%nat →
        store_untouched w (snd (serve (V2.create_order E b) w)))
       ∧ (code (fst (serve (V3.create_order E b) w)) ≠ 200%nat →
          store_untouched w (snd (serve (V3.create_order E b) w))))
  ∧ (∀ E : env, V3.razorpay E = Razorpay_constructs E).
Proof.
  split; [|split; [|split; [|split; [|split]]]].
  - intros E w b Ha. split; create_cases E b w; reflexivity.
  - intros E w b Ha Hr. create_cases E b w. reflexivity.
  - intros E w b Ha Hr Hdown. unfold creation_failed.
    create_cases E b w;
      try (match goal with H : orders_create_at E ?t ?o = inl _ |- _ =>
             destruct (Hdown t o) as [? ?]; congruence end);
      (split; [reflexivity|]); (split; [by eexists|]); (split; [reflexivity|]);
      cbn [trace]; by rewrite file_accesses_app, app_nil_r.
  - intros E w b Ha Hr Hc Hdown. unfold creation_failed.
    create_cases E b w;
      try (match goal with H : orders_create_at E ?t ?o = inl _ |- _ =>
             destruct (Hdown t o) as [? ?]; congruence end);
      (split; [reflexivity|]); (split; [by eexists|]); (split; [reflexivity|]);
      cbn [trace]; by rewrite file_accesses_app, app_nil_r.
  - intros E w b. unfold store_untouched. split.
    + destruct (JS.truthy_num (CreateBody.amount b)) eqn:Ha,
        (V2.razorpay E) eqn:Hr;
        create_cases E b w; intros Hcode; try done;
        (split; [reflexivity|]); cbn [trace];
        by rewrite ?file_accesses_app, ?app_nil_r.
    + destruct (JS.truthy_num (CreateBody.amount b)) eqn:Ha,
        (CreateBody.cod b) eqn:Hc, (V3.razorpay E) eqn:Hr;
        create_cases E b w; intros Hcode; try done;
        (split; [reflexivity|]); cbn [trace];
        by rewrite ?file_accesses_app, ?app_nil_r.
  - intros E. unfold V3.razorpay, V3.RZP_KEY_ID, V3.RZP_KEY_SECRET.
    assert (Hkey : ∀ (x : option string) (dflt : string), dflt ≠ "" →
              negb (String.eqb (if JS.truthy_str x then JS.String_ x else dflt) "")
              = true).
    { intros [s|] dflt Hd; simpl.
      - destruct (String.eqb s "") eqn:Hs; simpl; [|by rewrite Hs].
        apply negb_true_iff. by apply String.eqb_neq.
      - apply negb_true_iff. by apply String.eqb_neq. }
    by rewrite !Hkey.
Qed.

(** C5 at work: the gateway refuses the connection; nothing is stored. *)
Lemma C5_offline_example :
  let b := CreateBody.Make (Some 500%float) None (Some "r1") None None None false in
  creation_failed empty_world (serve (V2.create_order offline_env b) empty_world)
                  "Failed to create order"
  ∧ creation_failed empty_world (serve (V3.create_order offline_env b) empty_world)
                    "Failed to create order".
Proof.
  cbv zeta.
  assert (Hdown : gateway_down offline_env) by (intros t o; by eexists).
  destruct C5_failed_creation_leaves_store as (_ & _ & H2 & H3 & _).
  split; [apply H2|apply H3]; try reflexivity; exact Hdown.
Defined.

(** C8 (as amended).  For every create-order request that succeeds, the
    new order is appended with [amount] as supplied and as
    [JSON.stringify] writes it.  In V1 its [amount_paise] is
    [Math.round(Number(amount) * 100)] as [JSON.stringify] writes it.  In
    V3 the same holds when the order is made locally ([cod] set, or no
    gateway client); otherwise [amount_paise] is the amount in the
    gateway's answer to a request for [Math.round(Number(amount) * 100)],
    hence that number whenever the gateway echoes the amount it was asked
    for.  [JSON.stringify] writes a finite number as it is, a zero as
    [0], and an infinity or [NaN] as [null]: when the product overflows,
    no number is stored. *)
Theorem C8_amount_paise :
  (∀ (E : env) (w : world) (b : CreateBody.t),
     let rw := serve (V1.create_order E b) w in
     code (fst rw) = 200%nat →
     ∃ o, stored_orders (snd rw) = (stored_orders w ++ [o])%list
          ∧ Order.amount o = JSON.stringify_optional (CreateBody.amount b)
          ∧ Order.amount_paise o = JSON.stringify_number (amountPaise b))
  ∧
  (∀ (E : env) (w : world) (b : CreateBody.t),
     let rw := serve (V3.create_order E b) w in
     code (fst rw) = 200%nat →
     ∃ o, stored_orders (snd rw) = (stored_orders w ++ [o])%list
          ∧ Order.amount o = JSON.stringify_optional (CreateBody.amount b)
          ∧ (CreateBody.cod b = true ∨ V3.razorpay E = false →
             Order.amount_paise o = JSON.stringify_number (amountPaise b))
          ∧ (CreateBody.cod b = false → V3.razorpay E = true →
             ∃ t opts answer,
               orders_create_at E t opts = inl answer
               ∧ RzpOptions.amount opts = amountPaise b
               ∧ Order.amount_paise o
                 = JSON.stringify_number (RzpOrder.amount answer))
          ∧ (gateway_echoes E →
             Order.amount_paise o = JSON.stringify_number (amountPaise b)))
  ∧
  (∀ x : float,
     match Prim2SF x with
     | S754_finite _ _ _ => JSON.value <$> JSON.stringify_number x = Some x
     | S754_zero _ => JSON.value <$> JSON.stringify_number x = Some 0%float
     | _ => JSON.stringify_number x = None
     end).
Proof.
  split; [|split].
  - intros E w b rw. subst rw.
    destruct (CreateBody.amount b) as [a|] eqn:Ha; [|by create_cases E b w].
    destruct (JS.truthy_num (Some a)) eqn:Ht; [|by create_cases E b w].
    create_cases E b w; try discriminate; intros _;
      eexists; (split; [reflexivity|]); split; try reflexivity;
      unfold amountPaise; by rewrite Ha.
  - intros E w b rw. subst rw.
    destruct (CreateBody.amount b) as [a|] eqn:Ha; [|by create_cases E b w].
    destruct (JS.truthy_num (Some a)) eqn:Ht; [|by create_cases E b w].
    assert (Hp : amountPaise b = JS.Math_round (PrimFloat.mul a 100))
      by (unfold amountPaise; by rewrite Ha).
    destruct (CreateBody.cod b) eqn:Hc, (V3.razorpay E) eqn:Hr;
      create_cases E b w; try discriminate; intros _;
      eexists; (split; [reflexivity|]); (split; [reflexivity|]);
      cbn [Order.amount_paise RzpOrder.amount];
      repeat split;
      first
        [ by intros [?|?]
        | by intros ? ?
        | by intros _
        | intros _ _; do 3 eexists; split; [eassumption|]; by split
        | intros Hecho;
          match goal with H : orders_create_at E _ _ = inl _ |- _ =>
            apply Hecho in H; cbn [RzpOptions.amount] in H; by rewrite H end ].
  - apply stringify_number_spec.
Qed.

(** C8 at work: the scenario of the specification (amount 500, receipt
    [r1], the gateway answering [order_abc] and echoing the amount). *)
Lemma C8_scenario_example :
  let b := CreateBody.Make (Some 500%float) (Some "INR") (Some "r1") None None None false in
  (∃ o, stored_orders (snd (serve (V1.create_order stub_env b) empty_world))
        = (stored_orders empty_world ++ [o])%list
        ∧ Order.amount o = JSON.stringify_optional (CreateBody.amount b)
        ∧ Order.amount_paise o = JSON.stringify_number (amountPaise b))
  ∧ JSON.value <$> JSON.stringify_number (amountPaise b) = Some 50000%float.
Proof.
  cbv zeta. split; [|vm_compute; reflexivity].
  apply (proj1 C8_amount_paise stub_env empty_world). vm_compute. reflexivity.
Defined.

(** C8 as stated fails.  In V3 the gateway answers a request for 50000
    paise with an order of 49900 paise; the request succeeds and the
    stored [amount_paise] is the gateway's 49900, not
    [Math.round(500 * 100)].  And for the amount [1e308], in V1 and in a
    cash-on-delivery order of V3, [Math.round(amount * 100)] is
    [Infinity] and the stored [amount_paise] is [null]. *)
Lemma C8_stored_amount_differs :
  let paise (w : world) :=
    (λ o, JSON.value <$> Order.amount_paise o) <$> stored_orders w in
  let b := CreateBody.Make (Some 500%float) None (Some "r1") None None None false in
  let big := CreateBody.Make (Some 1e308%float) None (Some "r1") None None None false in
  let big_cod := CreateBody.Make (Some 1e308%float) None (Some "r1") None None None true in
  ¬ (code (fst (serve (V3.create_order repricing_env b) empty_world)) = 200%nat →
     paise (snd (serve (V3.create_order repricing_env b) empty_world))
     = [Some (amountPaise b)])
  ∧ ¬ (code (fst (serve (V1.create_order stub_env big) empty_world)) = 200%nat →
       paise (snd (serve (V1.create_order stub_env big) empty_world))
       = [Some (amountPaise big)])
  ∧ ¬ (code (fst (serve (V3.create_order stub_env big_cod) empty_world)) = 200%nat →
       paise (snd (serve (V3.create_order stub_env big_cod) empty_world))
       = [Some (amountPaise big_cod)]).
Proof.
  cbv zeta. split; [|split]; intros H; specialize (H eq_refl).
  - apply (f_equal (fun l => match l with
                             | [Some x] => PrimFloat.eqb x 50000
                             | _ => false
                             end)) in H.
    vm_compute in H. discriminate H.
  - apply (f_equal (fun l => match l with
                             | [Some _] => true
                             | _ => false
                             end)) in H.
    vm_compute in H. discriminate H.
  - apply (f_equal (fun l => match l with
                             | [Some _] => true
                             | _ => false
                             end)) in H.
    vm_compute in H. discriminate H.
Qed.


(** ** Deleting and updating orders (C9) *)


Lemma matches_key_keyed_by (id : string) (o : Order.t) :
  V3.matches_key (Some id) (Some id) o = true ↔ keyed_by id o.
Proof.
  unfold V3.matches_key, keyed_by.
  rewrite orb_true_iff, !strict_equals_opt_true.
  split; (intros [H|H]; [left|right]; congruence).
Qed.

Lemma delete_order_run (id : string) (w : world) :
  let rw := serve (V3.delete_order id) w in
  fst rw = Response 200 BSuccess
  ∧ stored_orders (snd rw) = filter (λ o, ¬ keyed_by id o) (stored_orders w).
Proof.
  unfold V3.delete_order. unfold_handler.
  rewrite orders_of_read by (left; reflexivity).
  split; [reflexivity|]. cbn [snd]. rewrite stored_orders_written.
  induction (stored_orders w) as [|o l IH]; [done|].
  rewrite filter_cons. simpl. rewrite IH.
  rewrite !strict_equals_decide.
  destruct (decide (¬ keyed_by id o)) as [Hk|Hk]; unfold keyed_by in Hk.
  - rewrite !bool_decide_eq_false_2 by tauto. done.
  - apply dec_stable in Hk as [Hk|Hk];
      rewrite (bool_decide_eq_true_2 _ Hk); simpl; by rewrite ?andb_false_r.
Qed.

Lemma update_status_missing (id : string) (u : UpdateBody.t) (w : world) :
  (∀ o, o ∈ stored_orders w → ¬ keyed_by id o) →
  serve (V3.update_status id u) w
  = (Response 404 (BError "Not found" None),
     World (db_file w) (ticks w) (trace w ++ [EvReadDB])).
Proof.
  intros Hnone. unfold V3.update_status. unfold_handler.
  rewrite orders_of_read by (left; reflexivity).
  assert (JS.findIndex (V3.matches_key (Some id) (Some id)) (stored_orders w) = None)
    as ->; [|reflexivity].
  apply findIndex_None. intros o Ho. apply not_true_is_false.
  rewrite matches_key_keyed_by. by apply Hnone.
Qed.

(** C9.  For every key and every store, delete-order answers
    [{success: true}] whether or not an order matched, and leaves
    exactly the orders whose gateway order id and receipt both differ
    from the key, in their order; an update-status request for the same
    key that follows is answered 404 "Not found" and changes nothing in
    [db.json]. *)
Theorem C9_delete_then_update_not_found (w : world) (id : string)
    (u : UpdateBody.t) :
  let rw1 := serve (V3.delete_order id) w in
  let rw2 := serve (V3.update_status id u) (snd rw1) in
  fst rw1 = Response 200 BSuccess
  ∧ stored_orders (snd rw1) = filter (λ o, ¬ keyed_by id o) (stored_orders w)
  ∧ (∀ o, o ∈ stored_orders (snd rw1) ↔ o ∈ stored_orders w ∧ ¬ keyed_by id o)
  ∧ fst rw2 = Response 404 (BError "Not found" None)
  ∧ db_file (snd rw2) = db_file (snd rw1).
Proof.
  intros rw1 rw2. destruct (delete_order_run id w) as [Hr Hs].
  fold rw1 in Hr, Hs.
  assert (Hin : ∀ o, o ∈ stored_orders (snd rw1)
                     ↔ o ∈ stored_orders w ∧ ¬ keyed_by id o).
  { intros o. rewrite Hs, list_elem_of_filter. tauto. }
  assert (Hup : rw2 = (Response 404 (BError "Not found" None),
                        World (db_file (snd rw1)) (ticks (snd rw1))
                              (trace (snd rw1) ++ [EvReadDB]))).
  { apply update_status_missing. intros o Ho. by apply Hin in Ho as [_ ?]. }
  split; [exact Hr|]. split; [exact Hs|]. split; [exact Hin|].
  rewrite Hup. by split.
Qed.


(** ** What the account handlers disclose (C10) *)

Lemma userSafe_hides (u : user) :
  V3.userSafe u !! "password" = None ∧ V3.userSafe u !! "salt" = None.
Proof.
  unfold V3.userSafe. split.
  - rewrite lookup_delete_ne by done. apply lookup_delete_eq.
  - apply lookup_delete_eq.
Qed.

(** Every other property of the user is passed on unchanged. *)
Lemma userSafe_keeps (u : user) (k : string) :
  k ≠ "password" → k ≠ "salt" → V3.userSafe u !! k = u !! k.
Proof.
  intros Hp Hs. unfold V3.userSafe. by rewrite !lookup_delete_ne.
Qed.


Lemma register_discloses (E : env) (b : AuthBody.t) (w : world) :
  discloses_safe_user_only (fst (serve (V3.register E b) w)).
Proof.
  intros u. unfold V3.register, V3.genSalt, V3.genToken. unfold_handler.
  destruct (JS.truthy_str (AuthBody.email b)),
    (JS.truthy_str (AuthBody.password b)),
    (JS.truthy_str (AuthBody.name b)); cbn [negb orb]; try discriminate.
  destruct (JS.find _ _) as [[i u0]|]; [discriminate|].
  cbn. intros [= <-]. by eexists.
Qed.

Lemma login_discloses (E : env) (b : AuthBody.t) (w : world) :
  discloses_safe_user_only (fst (serve (V3.login E b) w)).
Proof.
  intros u. unfold V3.login, V3.verifyPassword, V3.genToken. unfold_handler.
  destruct (JS.truthy_str (AuthBody.email b)),
    (JS.truthy_str (AuthBody.password b)); cbn [negb orb]; try discriminate.
  destruct (JS.find _ _) as [[i u0]|]; [|discriminate].
  destruct (u0 !! "salt") as [[salt|?]|]; try discriminate.
  destruct (u0 !! "password") as [[hashed|?]|]; try discriminate.
  destruct (timingSafeEqual_hex E _ _) as [[|]|]; try discriminate.
  cbn. intros [= <-]. by eexists.
Qed.

Lemma me_discloses (E : env) (authorization : option string) (w : world) :
  discloses_safe_user_only (fst (serve (V3.me E authorization) w)).
Proof.
  intros u. unfold V3.me. unfold_handler.
  destruct (String.eqb _ ""); [discriminate|].
  destruct (JS.find _ _) as [[i u0]|]; [|discriminate].
  cbn. intros [= <-]. by eexists.
Qed.

(** C10.  Whatever the request and whatever [db.json] holds, a user
    object in the answer of register, login or me has neither a
    [password] nor a [salt] property. *)
Theorem C10_responses_hide_credentials (E : env) (w : world) :
  (∀ (b : AuthBody.t) (u : user),
     user_of (fst (serve (V3.register E b) w)) = Some u →
     u !! "password" = None ∧ u !! "salt" = None)
  ∧ (∀ (b : AuthBody.t) (u : user),
       user_of (fst (serve (V3.login E b) w)) = Some u →
       u !! "password" = None ∧ u !! "salt" = None)
  ∧ (∀ (authorization : option string) (u : user),
       user_of (fst (serve (V3.me E authorization) w)) = Some u →
       u !! "password" = None ∧ u !! "salt" = None).
Proof.
  split; [|split].
  - intros b u [u0 ->]%register_discloses. apply userSafe_hides.
  - intros b u [u0 ->]%login_discloses. apply userSafe_hides.
  - intros a u [u0 ->]%me_discloses. apply userSafe_hides.
Qed.

(** C10 at work: a registration on an empty store, then a login and a
    lookup by the token the login returned.  Each answer carries a user
    object with its email; none has a [password] or a [salt]; the stored
    user has both. *)
Lemma C10_account_example :
  let b := AuthBody.Make (Some "Asha") (Some "asha@example.com") (Some "pw") in
  let rw1 := serve (V3.register stub_env b) empty_world in
  let rw2 := serve (V3.login stub_env b) (snd rw1) in
  let rw3 := serve (V3.me stub_env (Some "Bearer r4")) (snd rw2) in
  let shown (r : response) (k : string) := user_of r ≫= (.!! k) in
  (shown (fst rw1) "email" = Some (JStr "asha@example.com")
   ∧ shown (fst rw1) "password" = None ∧ shown (fst rw1) "salt" = None)
  ∧ (shown (fst rw2) "email" = Some (JStr "asha@example.com")
     ∧ shown (fst rw2) "password" = None ∧ shown (fst rw2) "salt" = None)
  ∧ (shown (fst rw3) "email" = Some (JStr "asha@example.com")
     ∧ shown (fst rw3) "password" = None ∧ shown (fst rw3) "salt" = None)
  ∧ (λ u : user, (u !! "password", u !! "salt"))
      <$> default [] (db_file (snd rw3) ≫= Document.users)
    = [(Some (JStr "r0$pw"), Some (JStr "r0"))].
Proof.
  cbv zeta.
  split; [|split; [|split]]; [| | |vm_compute; reflexivity];
    (split; [vm_compute; reflexivity|]).
  - destruct (user_of _) as [u|] eqn:Hu; [|by split].
    apply (proj1 (C10_responses_hide_credentials stub_env _) _ _ Hu).
  - destruct (user_of _) as [u|] eqn:Hu; [|by split].
    apply (proj1 (proj2 (C10_responses_hide_credentials stub_env _)) _ _ Hu).
  - destruct (user_of _) as [u|] eqn:Hu; [|by split].
    apply (proj2 (proj2 (C10_responses_hide_credentials stub_env _)) _ _ Hu).
Defined.


(** ** How the signature is compared (C6) *)






(** ** Payment fields of paid orders (C3) *)




(** A verify-payment request that the guards of V2 turn away leaves the
    world as it was. *)
Lemma V2_verify_payment_guarded (E : env) (b : VerifyBody.t) (w : world) :
  V2_preconditions E b ∨ snd (serve (V2.verify_payment E b) w) = w.
Proof.
  unfold V2_preconditions, V2.verify_payment. unfold_handler.
  destruct (JS.truthy_str (VerifyBody.razorpay_order_id b));
    [|by right].
  destruct (JS.truthy_str (VerifyBody.razorpay_payment_id b));
    [|by right].
  destruct (JS.truthy_str (VerifyBody.razorpay_signature b));
    [|by right].
  cbn [negb orb].
  destruct (String.eqb (V2.RZP_KEY_SECRET E) "") eqn:Hk; [by right|].
  left. repeat split. by apply String.eqb_neq.
Qed.

Lemma Forall_alter_1 {A} (P : A → Prop) (f : A → A) (l : list A) (i : nat) :
  Forall P l → (∀ x, l !! i = Some x → P x → P (f x)) → Forall P (alter f i l).
Proof.
  intros Hl Hf. apply Forall_lookup. intros j y.
  destruct (decide (i = j)) as [<-|Hne].
  - rewrite list_lookup_alter_eq. destruct (l !! i) as [x|] eqn:Hx; [|done].
    intros [= <-]. apply Hf; [done|]. by eapply Forall_lookup_1.
  - rewrite list_lookup_alter_ne by done. by apply Forall_lookup_1.
Qed.








Lemma auth_keeps_orders (E : env) (w : world) :
  (∀ b, stored_orders (snd (serve (V3.register E b) w)) = stored_orders w)
  ∧ (∀ b, stored_orders (snd (serve (V3.login E b) w)) = stored_orders w)
  ∧ (∀ a, stored_orders (snd (serve (V3.me E a) w)) = stored_orders w).
Proof.
  split; [|split].
  - intros b. unfold V3.register, V3.genSalt, V3.genToken. unfold_handler.
    destruct (JS.truthy_str (AuthBody.email b)),
      (JS.truthy_str (AuthBody.password b)),
      (JS.truthy_str (AuthBody.name b)); cbn [negb orb]; try done.
    destruct (JS.find _ _) as [[i u0]|]; [done|].
    cbn. unfold stored_orders. by destruct (db_file w).
  - intros b. unfold V3.login, V3.verifyPassword, V3.genToken. unfold_handler.
    destruct (JS.truthy_str (AuthBody.email b)),
      (JS.truthy_str (AuthBody.password b)); cbn [negb orb]; try done.
    destruct (JS.find _ _) as [[i u0]|]; [|done].
    destruct (u0 !! "salt") as [[salt|?]|]; try done.
    destruct (u0 !! "password") as [[hashed|?]|]; try done.
    destruct (timingSafeEqual_hex E _ _) as [[|]|]; try done.
    cbn. unfold stored_orders. by destruct (db_file w).
  - intros a. unfold V3.me. unfold_handler.
    destruct (String.eqb _ ""); [done|].
    by destruct (JS.find _ _) as [[i u0]|].
Qed.








(** * Further properties of the code *)

(** ** Admin updates and deletion *)

Lemma first_keyed_findIndex (id : string) (l : list Order.t) (i : nat) :
  JS.findIndex (V3.matches_key (Some id) (Some id)) l = Some i ↔
  ∃ o, first_keyed id l i o.
Proof.
  rewrite findIndex_Some. unfold first_keyed. split.
  - intros (o & Ho & Hm & Hmin). exists o. split; [done|].
    split; [by apply matches_key_keyed_by|].
    intros j o' Hj Ho' Hk. apply matches_key_keyed_by in Hk.
    rewrite (Hmin j o' Hj Ho') in Hk. discriminate.
  - intros (o & Ho & Hm & Hmin). exists o. split; [done|].
    split; [by apply matches_key_keyed_by|].
    intros j o' Hj Ho'. apply not_true_is_false. intros Hk.
    apply (Hmin j o' Hj Ho'). by apply matches_key_keyed_by.
Qed.

Lemma file_after_write (w : world) (dflt : Document.t) (l : list Order.t)
    (n : nat) (t : list event) :
  Document.reviews dflt = [] →
  Document.users dflt = None ∨ Document.users dflt = Some [] →
  keeps_reviews_and_users w
    (World (Some (Document.set_orders l (default dflt (db_file w)))) n t).
Proof.
  intros Hr Hu. unfold keeps_reviews_and_users, stored_reviews, stored_users,
    users_or_empty.
  destruct (db_file w) as [d|]; simpl; [done|]. rewrite Hr.
  by destruct Hu as [-> | ->].
Qed.

Lemma keeps_same_file (w w' : world) :
  db_file w' = db_file w → keeps_reviews_and_users w w'.
Proof.
  intros H. unfold keeps_reviews_and_users, stored_reviews, stored_users.
  by rewrite H.
Qed.

(** X1.  When some stored order has the key, update-status answers 200
    with the first such order as updated, and stores it in place: its
    status is the supplied one if a non-empty status was supplied and is
    kept otherwise, and likewise for the delivery estimate; nothing else
    of that order changes, no other order changes, and reviews and users
    are kept. *)
Theorem update_status_applies (w : world) (id : string) (u : UpdateBody.t)
    (i : nat) (o : Order.t) :
  first_keyed id (stored_orders w) i o →
  let rw := serve (V3.update_status id u) w in
  ∃ o', fst rw = Response 200 (BUpdated (Some o'))
        ∧ stored_orders (snd rw) = <[i := o']> (stored_orders w)
        ∧ Order.status o' = (if JS.truthy_str (UpdateBody.status u)
                             then JS.String_ (UpdateBody.status u)
                             else Order.status o)
        ∧ Order.eta o' = (if JS.truthy_str (UpdateBody.eta u)
                          then UpdateBody.eta u else Order.eta o)
        ∧ order_core o' = order_core o
        ∧ payment_fields o' = payment_fields o
        ∧ keeps_reviews_and_users w (snd rw).
Proof.
  intros Hfirst rw. subst rw.
  assert (Hidx : JS.findIndex (V3.matches_key (Some id) (Some id))
                   (stored_orders w) = Some i)
    by (apply first_keyed_findIndex; eauto).
  destruct Hfirst as (Ho & _ & _).
  unfold V3.update_status. unfold_handler.
  rewrite orders_of_read by (left; reflexivity). rewrite Hidx.
  cbn beta iota. cbn [fst snd]. rewrite stored_orders_written.
  rewrite list_lookup_alter_eq, Ho. simpl.
  eexists. split; [reflexivity|].
  split.
  { apply list_eq. intros j. destruct (decide (i = j)) as [<-|Hne].
    - rewrite list_lookup_alter_eq, list_lookup_insert_eq, Ho; [done|].
      by eapply lookup_lt_Some.
    - by rewrite list_lookup_alter_ne, list_lookup_insert_ne. }
  split; [|split; [|split; [|split]]].
  - by destruct (JS.truthy_str (UpdateBody.eta u)),
      (JS.truthy_str (UpdateBody.status u)).
  - destruct (UpdateBody.eta u) as [e|]; simpl;
      [destruct (negb (e =? "")%string)|];
      by destruct (JS.truthy_str (UpdateBody.status u)).
  - by destruct (JS.truthy_str (UpdateBody.eta u)),
      (JS.truthy_str (UpdateBody.status u)).
  - by destruct (JS.truthy_str (UpdateBody.eta u)),
      (JS.truthy_str (UpdateBody.status u)).
  - apply file_after_write; [done|by right].
Qed.

(** X1 at work: an order is shipped with a delivery estimate. *)
Lemma update_status_example :
  let w := world_with [created_order 1 "r1" "order_abc" 500] in
  let rw := serve (V3.update_status "order_abc"
                     (UpdateBody.Make (Some "shipped") (Some "2024-01-01"))) w in
  ∃ o', fst rw = Response 200 (BUpdated (Some o'))
        ∧ Order.status o' = "shipped" ∧ Order.eta o' = Some "2024-01-01".
Proof.
  cbv zeta.
  destruct (update_status_applies
              (world_with [created_order 1 "r1" "order_abc" 500]) "order_abc"
              (UpdateBody.Make (Some "shipped") (Some "2024-01-01")) 0
              (created_order 1 "r1" "order_abc" 500))
    as (o' & Hr & _ & Hs & He & _).
  - split; [reflexivity|]. split; [by left|]. intros j o' Hj. lia.
  - exists o'. by repeat split.
Defined.

Lemma update_status_run (id : string) (u : UpdateBody.t) (w : world) :
  let rw := serve (V3.update_status id u) w in
  match JS.findIndex (V3.matches_key (Some id) (Some id)) (stored_orders w) with
  | Some i =>
      fst rw = Response 200 (BUpdated (apply_update u <$> stored_orders w !! i))
      ∧ stored_orders (snd rw) = alter (apply_update u) i (stored_orders w)
  | None =>
      fst rw = Response 404 (BError "Not found" None)
      ∧ db_file (snd rw) = db_file w
  end.
Proof.
  unfold V3.update_status. unfold_handler.
  rewrite orders_of_read by (left; reflexivity).
  destruct (JS.findIndex _ _) as [i|]; [|by split].
  cbn beta iota. cbn [fst snd]. rewrite stored_orders_written.
  split.
  - do 2 f_equal. rewrite <- list_lookup_alter_eq. f_equal.
    apply list_alter_ext; [|done]. intros o _. unfold apply_update.
    by destruct (JS.truthy_str (UpdateBody.eta u)),
      (JS.truthy_str (UpdateBody.status u)).
  - apply list_alter_ext; [|done]. intros o _. unfold apply_update.
    by destruct (JS.truthy_str (UpdateBody.eta u)),
      (JS.truthy_str (UpdateBody.status u)).
Qed.

Lemma apply_update_twice (u : UpdateBody.t) (o : Order.t) :
  apply_update u (apply_update u o) = apply_update u o.
Proof.
  unfold apply_update.
  by destruct (JS.truthy_str (UpdateBody.eta u)),
    (JS.truthy_str (UpdateBody.status u)).
Qed.

Lemma apply_update_matches (u : UpdateBody.t) (a b : option string) (o : Order.t) :
  V3.matches_key a b (apply_update u o) = V3.matches_key a b o.
Proof.
  unfold apply_update.
  by destruct (JS.truthy_str (UpdateBody.eta u)),
    (JS.truthy_str (UpdateBody.status u)).
Qed.

(** X2.  update-status is idempotent: sending the same update for the
    same key twice in a row gives the same answer both times (the
    updated order, or 404), and the second request leaves the stored
    orders as the first left them. *)
Theorem update_status_idempotent (w : world) (id : string) (u : UpdateBody.t) :
  let rw1 := serve (V3.update_status id u) w in
  let rw2 := serve (V3.update_status id u) (snd rw1) in
  fst rw2 = fst rw1 ∧ stored_orders (snd rw2) = stored_orders (snd rw1).
Proof.
  intros rw1 rw2.
  pose proof (update_status_run id u w) as H1.
  pose proof (update_status_run id u (snd rw1)) as H2.
  fold rw1 in H1. fold rw1 rw2 in H2. cbv zeta in H1, H2.
  destruct (JS.findIndex _ (stored_orders w)) as [i|] eqn:Hi.
  - destruct H1 as [Hr1 Hs1]. rewrite Hs1 in H2.
    rewrite findIndex_alter in H2 by (intros o; apply apply_update_matches).
    rewrite Hi in H2. destruct H2 as [Hr2 Hs2].
    rewrite list_lookup_alter_eq in Hr2.
    rewrite list_alter_alter_eq in Hs2.
    split.
    + rewrite Hr2, Hr1. do 2 f_equal.
      destruct (stored_orders w !! i) as [o|]; [|done]. simpl.
      by rewrite apply_update_twice.
    + rewrite Hs2, Hs1. apply list_alter_ext; [|done]. intros o _.
      apply apply_update_twice.
  - destruct H1 as [Hr1 Hs1].
    assert (Hsame : stored_orders (snd rw1) = stored_orders w)
      by (unfold stored_orders; by rewrite Hs1).
    rewrite Hsame, Hi in H2. destruct H2 as [Hr2 Hs2].
    split; [by rewrite Hr1, Hr2|].
    unfold stored_orders. by rewrite Hs2.
Qed.

Lemma filter_twice {A} (P : A → Prop) `{∀ x, Decision (P x)} (l : list A) :
  filter P (filter P l) = filter P l.
Proof.
  induction l as [|x l IH]; [done|].
  rewrite filter_cons. destruct (decide (P x)) as [Hx|Hx]; [|done].
  rewrite filter_cons, decide_True by done. by rewrite IH.
Qed.

Lemma filter_all {A} (P : A → Prop) `{∀ x, Decision (P x)} (l : list A) :
  (∀ x, x ∈ l → P x) → filter P l = l.
Proof.
  induction l as [|x l IH]; [done|]. intros Hall.
  rewrite filter_cons, decide_True by (apply Hall; left).
  rewrite IH; [done|]. intros y Hy. apply Hall. by right.
Qed.

Lemma delete_order_keeps (id : string) (w : world) :
  keeps_reviews_and_users w (snd (serve (V3.delete_order id) w)).
Proof.
  unfold V3.delete_order. unfold_handler. cbn [snd].
  apply file_after_write; [done|by right].
Qed.

(** X3.  delete-order is idempotent and touches only the orders it is
    asked to remove: deleting the same key again changes nothing more,
    a key that no stored order has leaves the stored orders as they
    were, and reviews and users are always kept. *)
Theorem delete_order_idempotent (w : world) (id : string) :
  let w1 := snd (serve (V3.delete_order id) w) in
  let w2 := snd (serve (V3.delete_order id) w1) in
  stored_orders w2 = stored_orders w1
  ∧ ((∀ o, o ∈ stored_orders w → ¬ keyed_by id o) →
     stored_orders w1 = stored_orders w)
  ∧ keeps_reviews_and_users w w1.
Proof.
  intros w1 w2.
  destruct (delete_order_run id w) as [_ H1].
  destruct (delete_order_run id w1) as [_ H2].
  fold w1 in H1. fold w2 in H2.
  split; [|split].
  - by rewrite H2, H1, filter_twice.
  - intros Hnone. rewrite H1. by apply filter_all.
  - apply delete_order_keeps.
Qed.


(** ** What verify-payment leaves alone *)

Lemma fmap_alter_same {A B} (g : A → B) (f : A → A) (l : list A) (i : nat) :
  (∀ x, g (f x) = g x) → g <$> alter f i l = g <$> l.
Proof.
  intros Hg. rewrite (list_fmap_alter g f (λ y, y)).
  - by apply list_alter_id.
  - apply Forall_forall. intros x _. apply Hg.
Qed.

Lemma V1_verify_payment_guarded (E : env) (b : VerifyBody.t) (w : world) :
  V1_preconditions b
  ∨ serve (V1.verify_payment E b) w
    = (Response 400 (BError "Missing Razorpay fields" None), w).
Proof.
  unfold V1_preconditions, V1.verify_payment. unfold_handler.
  destruct (JS.truthy_str (VerifyBody.razorpay_order_id b)); [|by right].
  destruct (JS.truthy_str (VerifyBody.razorpay_payment_id b)); [|by right].
  destruct (JS.truthy_str (VerifyBody.razorpay_signature b)); [|by right].
  by left.
Qed.

Lemma verify_payment_keeps_rest (E : env) (b : VerifyBody.t) (w : world) :
  keeps_reviews_and_users w (snd (serve (V1.verify_payment E b) w))
  ∧ keeps_reviews_and_users w (snd (serve (V2.verify_payment E b) w))
  ∧ keeps_reviews_and_users w (snd (serve (V3.verify_payment E b) w)).
Proof.
  split; [|split].
  - unfold V1.verify_payment. unfold_handler.
    destruct (_ || _); [by apply keeps_same_file|].
    destruct (JS.findIndex _ _) as [i|]; [|by apply keeps_same_file].
    destruct (JS.strict_equals_opt _ _); cbn [snd db_file];
      (apply file_after_write; [done|by left]).
  - unfold V2.verify_payment. unfold_handler.
    destruct (_ || _); [by apply keeps_same_file|].
    destruct (String.eqb _ ""); [by apply keeps_same_file|].
    destruct (JS.findIndex _ _) as [i|]; [|by apply keeps_same_file].
    destruct (JS.strict_equals_opt _ _); cbn [snd db_file];
      (apply file_after_write; [done|by left]).
  - unfold V3.verify_payment. unfold_handler.
    destruct (JS.findIndex _ _) as [i|]; [|by apply keeps_same_file].
    cbn [snd db_file]. apply file_after_write; [done|by right].
Qed.

(** X4.  verify-payment never adds, removes or re-identifies an order:
    in the three servers, whatever the request, the stored orders keep
    their number, their order and everything but status and payment
    fields (id, receipt, gateway order id, amounts, currency, cart,
    customer, creation time, delivery estimate); reviews and users are
    kept as well. *)
Theorem verify_payment_keeps_orders (E : env) (w : world) (b : VerifyBody.t) :
  let kept (w' : world) :=
    order_core <$> stored_orders w' = order_core <$> stored_orders w
    ∧ Order.eta <$> stored_orders w' = Order.eta <$> stored_orders w
    ∧ keeps_reviews_and_users w w' in
  kept (snd (serve (V1.verify_payment E b) w))
  ∧ kept (snd (serve (V2.verify_payment E b) w))
  ∧ kept (snd (serve (V3.verify_payment E b) w)).
Proof.
  intros kept. subst kept. cbv beta.
  destruct (verify_payment_keeps_rest E b w) as (K1 & K2 & K3).
  split; [|split]; (split; [|split; [|assumption]]).
  - destruct (V1_verify_payment_guarded E b w) as [Hpre| ->]; [|done].
    destruct (V1_verify_payment_run E b w Hpre) as (_ & -> & _).
    destruct (JS.findIndex _ _) as [i|]; [|done].
    by case_bool_decide; apply fmap_alter_same.
  - destruct (V1_verify_payment_guarded E b w) as [Hpre| ->]; [|done].
    destruct (V1_verify_payment_run E b w Hpre) as (_ & -> & _).
    destruct (JS.findIndex _ _) as [i|]; [|done].
    by case_bool_decide; apply fmap_alter_same.
  - destruct (V2_verify_payment_guarded E b w) as [Hpre| ->]; [|done].
    destruct (V2_verify_payment_run E b w Hpre) as (_ & -> & _).
    destruct (JS.findIndex _ _) as [i|]; [|done].
    by case_bool_decide; apply fmap_alter_same.
  - destruct (V2_verify_payment_guarded E b w) as [Hpre| ->]; [|done].
    destruct (V2_verify_payment_run E b w Hpre) as (_ & -> & _).
    destruct (JS.findIndex _ _) as [i|]; [|done].
    by case_bool_decide; apply fmap_alter_same.
  - destruct (V3_verify_payment_run E b w) as (_ & -> & _).
    destruct (JS.findIndex _ _) as [i|]; [|done]. by apply fmap_alter_same.
  - destruct (V3_verify_payment_run E b w) as (_ & -> & _).
    destruct (JS.findIndex _ _) as [i|]; [|done]. by apply fmap_alter_same.
Qed.


(** X5.  The guards of verify-payment.  In V1 a request without one of
    the three gateway fields (absent or empty) is answered 400 and
    nothing is read, written or computed.  In V2 such a request is
    answered 400 with [verified: false, reason: "missing_fields"], and a
    complete request that arrives while no secret is configured is
    answered 500 with reason "server_secret_missing", again without any
    effect.  V3 has no guard: a request without a signature is answered
    200 with [verified: false], and a request with neither an order id
    nor a receipt selects no order and leaves [db.json] as it was. *)
Theorem verify_payment_refusals (E : env) (w : world) (b : VerifyBody.t) :
  (¬ V1_preconditions b →
   serve (V1.verify_payment E b) w
   = (Response 400 (BError "Missing Razorpay fields" None), w))
  ∧ (¬ V1_preconditions b →
     serve (V2.verify_payment E b) w
     = (Response 400 (BVerifyRefused "missing_fields"), w))
  ∧ (V1_preconditions b → V2.RZP_KEY_SECRET E = "" →
     serve (V2.verify_payment E b) w
     = (Response 500 (BVerifyRefused "server_secret_missing"), w))
  ∧ (VerifyBody.razorpay_signature b = None →
     fst (serve (V3.verify_payment E b) w) = Response 200 (BVerifiedOnly false))
  ∧ (VerifyBody.razorpay_order_id b = None → VerifyBody.receipt b = None →
     db_file (snd (serve (V3.verify_payment E b) w)) = db_file w).
Proof.
  split; [|split; [|split; [|split]]].
  - intros Hno. by destruct (V1_verify_payment_guarded E b w).
  - intros Hno. unfold V1_preconditions in Hno.
    unfold V2.verify_payment. unfold_handler.
    destruct (JS.truthy_str (VerifyBody.razorpay_order_id b)); [|done].
    destruct (JS.truthy_str (VerifyBody.razorpay_payment_id b)); [|done].
    destruct (JS.truthy_str (VerifyBody.razorpay_signature b)); [|done].
    by destruct Hno.
  - intros (H1 & H2 & H3) Hk.
    unfold V2.verify_payment. unfold_handler.
    rewrite H1, H2, H3, Hk. reflexivity.
  - intros Hs. destruct (V3_verify_payment_run E b w) as (-> & _).
    by rewrite Hs.
  - intros Ho Hr. destruct (V3_verify_payment_run E b w) as (_ & _ & H & _).
    apply H. rewrite Ho, Hr. apply findIndex_None. intros o _.
    unfold V3.matches_key. reflexivity.
Qed.

(** X5 at work: an empty body in V2. *)
Lemma verify_payment_refusal_example :
  serve (V2.verify_payment stub_env (VerifyBody.Make None None None None))
        empty_world
  = (Response 400 (BVerifyRefused "missing_fields"), empty_world).
Proof.
  apply (proj1 (proj2 (verify_payment_refusals stub_env empty_world
                         (VerifyBody.Make None None None None)))).
  intros (H & _). discriminate H.
Defined.


(** ** What create-order answers and stores *)

Lemma truthy_String_nonempty (x : option string) :
  JS.truthy_str x = true → JS.String_ x ≠ "".
Proof.
  destruct x as [s|]; [|discriminate]. simpl.
  rewrite negb_true_iff. apply String.eqb_neq.
Qed.

Lemma rcpt_nonempty (z : Z) : "rcpt_" ++ JS.decimal z ≠ "".
Proof. discriminate. Qed.

Lemma get_orders_after_write (dflt d : Document.t) (l : list Order.t) (n : nat)
    (t : list event) :
  fst (Queries.get_orders (read_file dflt)
         (World (Some (Document.set_orders l d)) n t)) = Ok l.
Proof. reflexivity. Qed.

Ltac created_order_goal w :=
  intros _; eexists; unfold order_was_created; cbn [fst snd payload];
  rewrite ?stored_orders_written;
  split; [reflexivity|]; split; [reflexivity|]; split; [reflexivity|];
  split; [|split; [reflexivity|split; [|reflexivity]]];
  [ cbn [Order.receipt];
    try (apply truthy_String_nonempty; assumption);
    try apply rcpt_nonempty
  | cbn [db_file]; apply file_after_write; [done|(by left) || (by right)] ].

(** X6.  A create-order request that is answered 200 stored exactly the
    order its answer describes: in the three servers the order was
    appended as "created" with a non-empty receipt and without payment
    fields, the answer carries that order's gateway order id, amount in
    paise, currency and receipt and the public key id (never the
    secret), reviews and users are kept, and the next [GET /orders]
    lists the order last.  A request that is not answered 200 leaves
    [db.json] as it was. *)
Theorem create_order_answer_matches_store (E : env) (w : world) (b : CreateBody.t) :
  (let rw := serve (V1.create_order E b) w in
   (code (fst rw) = 200%nat →
    ∃ o, order_was_created V1.readDB (V1.RZP_KEY_ID E) w rw o)
   ∧ (code (fst rw) ≠ 200%nat → db_file (snd rw) = db_file w))
  ∧ (let rw := serve (V2.create_order E b) w in
     (code (fst rw) = 200%nat →
      ∃ o, order_was_created V2.readDB (V2.RZP_KEY_ID E) w rw o)
     ∧ (code (fst rw) ≠ 200%nat → db_file (snd rw) = db_file w))
  ∧ (let rw := serve (V3.create_order E b) w in
     (code (fst rw) = 200%nat →
      ∃ o, order_was_created V3.readDB (V3.RZP_KEY_ID E) w rw o)
     ∧ (code (fst rw) ≠ 200%nat → db_file (snd rw) = db_file w)).
Proof.
  split; [|split]; cbv zeta.
  - destruct (JS.truthy_num (CreateBody.amount b)) eqn:Ha;
      [|split; [by create_cases E b w|by create_cases E b w]].
    split.
    + create_cases E b w; try discriminate;
        destruct (JS.truthy_str (RzpOrder.receipt _)) eqn:Hgr;
        created_order_goal w.
    + create_cases E b w; try done; intros H; by destruct H.
  - destruct (JS.truthy_num (CreateBody.amount b)) eqn:Ha,
      (V2.razorpay E) eqn:Hr;
      try (split; [by create_cases E b w|by create_cases E b w]).
    split.
    + create_cases E b w; try discriminate;
        destruct (JS.truthy_str (RzpOrder.receipt _)) eqn:Hgr;
        created_order_goal w.
    + create_cases E b w; try done; intros H; by destruct H.
  - destruct (JS.truthy_num (CreateBody.amount b)) eqn:Ha;
      [|split; [by create_cases E b w|by create_cases E b w]].
    destruct (CreateBody.cod b) eqn:Hc, (V3.razorpay E) eqn:Hr; split;
      try (create_cases E b w; try discriminate; created_order_goal w);
      create_cases E b w; try done; intros H; by destruct H.
Qed.

(** X6 at work: the scenario of the specification in V3. *)
Lemma create_order_example :
  let b := CreateBody.Make (Some 500%float) (Some "INR") (Some "r1") None None None false in
  ∃ o, order_was_created V3.readDB (V3.RZP_KEY_ID stub_env) empty_world
         (serve (V3.create_order stub_env b) empty_world) o.
Proof.
  cbv zeta.
  apply (proj1 (proj2 (proj2 (create_order_answer_matches_store stub_env empty_world
    (CreateBody.Make (Some 500%float) (Some "INR") (Some "r1") None None None false))))).
  vm_compute. reflexivity.
Defined.

(** X7.  The receipt and the cart of an order created by V3.  The
    receipt is the one supplied when it is not empty, and otherwise
    [rcpt_] followed by the clock reading at the start of the request.
    The cart is the supplied cart, as [JSON.stringify] writes it, when
    it has at least one line (a selected product is then ignored); with
    no line and a selected product it is one line for that product, with
    an empty image when none is given and with
    [Math.round(Number(price) * Number(packKg))] as [calculatedPrice], as
    [JSON.stringify] writes it: [null] when that is not a finite number,
    as when the product has no price; with neither it is the empty
    array. *)
Theorem V3_create_order_receipt_and_cart (E : env) (w : world) (b : CreateBody.t) :
  let rw := serve (V3.create_order E b) w in
  code (fst rw) = 200%nat →
  ∃ o, stored_orders (snd rw) = (stored_orders w ++ [o])%list
       ∧ Order.receipt o
         = (if JS.truthy_str (CreateBody.receipt b)
            then JS.String_ (CreateBody.receipt b)
            else "rcpt_" ++ JS.decimal (Date_now_at E (ticks w)))
       ∧ (∀ x l, CreateBody.cart b = Some (x :: l) →
                 Order.cart o = Some (JSON_cart (x :: l)))
       ∧ (CreateBody.cart b = None ∨ CreateBody.cart b = Some [] →
          match CreateBody.selectedProduct b with
          | Some p =>
              ∃ item, Order.cart o = Some [item]
                      ∧ item_name item = sp_name p
                      ∧ item_pricePerKg item = JSON.stringify_optional (sp_price p)
                      ∧ item_qty item = JSON.stringify_optional (sp_packKg p)
                      ∧ item_packLabel item = sp_packLabel p
                      ∧ item_img item = Queries.or_empty (sp_img p)
                      ∧ item_calculatedPrice item
                        = JSON.stringify_number
                            (JS.Math_round (PrimFloat.mul (JS.Number_ (sp_price p))
                                                          (JS.Number_ (sp_packKg p))))
          | None => Order.cart o = Some []
          end).
Proof.
  intros rw. subst rw.
  destruct (JS.truthy_num (CreateBody.amount b)) eqn:Ha; [|by create_cases E b w].
  assert (Hcart : (∀ x l, CreateBody.cart b = Some (x :: l) →
                          Some (JSON_cart (V3.finalCart b)) = Some (JSON_cart (x :: l)))
                  ∧ (CreateBody.cart b = None ∨ CreateBody.cart b = Some [] →
                     match CreateBody.selectedProduct b with
                     | Some p =>
                         ∃ item, Some (JSON_cart (V3.finalCart b)) = Some [item]
                           ∧ item_name item = sp_name p
                           ∧ item_pricePerKg item
                             = JSON.stringify_optional (sp_price p)
                           ∧ item_qty item = JSON.stringify_optional (sp_packKg p)
                           ∧ item_packLabel item = sp_packLabel p
                           ∧ item_img item = Queries.or_empty (sp_img p)
                           ∧ item_calculatedPrice item
                             = JSON.stringify_number
                                 (JS.Math_round
                                    (PrimFloat.mul (JS.Number_ (sp_price p))
                                                   (JS.Number_ (sp_packKg p))))
                     | None => Some (JSON_cart (V3.finalCart b)) = Some []
                     end)).
  { unfold V3.finalCart. split.
    - intros x l ->. reflexivity.
    - intros [-> | ->]; (destruct (CreateBody.selectedProduct b) as [p|];
        [eexists; split; [reflexivity|]; by repeat split|reflexivity]). }
  destruct (CreateBody.cod b) eqn:Hc, (V3.razorpay E) eqn:Hr;
    create_cases E b w; try discriminate; intros _;
    eexists; (split; [reflexivity|]); (split; [reflexivity|]); exact Hcart.
Qed.

(** X7 at work: a quick-view order of two packs at 120, and the same
    order for a product that has no price. *)
Lemma V3_quick_view_example :
  let prices (o : Order.t) :=
    (λ it, JSON.value <$> item_calculatedPrice it) <$> default [] (Order.cart o) in
  let p := SelectedProduct (Some "Mango pickle") None (Some 120%float)
                           (Some 2%float) (Some "2 kg") in
  let q := SelectedProduct (Some "Mango pickle") None None
                           (Some 2%float) (Some "2 kg") in
  let b := CreateBody.Make (Some 240%float) None None (Some []) (Some p) None true in
  let c := CreateBody.Make (Some 240%float) None None (Some []) (Some q) None true in
  (∃ o, stored_orders (snd (serve (V3.create_order stub_env b) empty_world))
        = (stored_orders empty_world ++ [o])%list
        ∧ Order.receipt o = "rcpt_1700000000000"
        ∧ prices o = [Some 240%float])
  ∧ (∃ o, stored_orders (snd (serve (V3.create_order stub_env c) empty_world))
          = (stored_orders empty_world ++ [o])%list
          ∧ prices o = [None]).
Proof.
  cbv zeta. split.
  - destruct (V3_create_order_receipt_and_cart stub_env empty_world
      (CreateBody.Make (Some 240%float) None None (Some [])
         (Some (SelectedProduct (Some "Mango pickle") None (Some 120%float)
                                (Some 2%float) (Some "2 kg"))) None true))
      as (o & Ho & Hr & _ & Hc).
    + vm_compute. reflexivity.
    + exists o. split; [exact Ho|]. split; [exact Hr|].
      destruct Hc as (item & -> & _ & _ & _ & _ & _ & Hp); [by right|].
      simpl. rewrite Hp. vm_compute. reflexivity.
  - destruct (V3_create_order_receipt_and_cart stub_env empty_world
      (CreateBody.Make (Some 240%float) None None (Some [])
         (Some (SelectedProduct (Some "Mango pickle") None None
                                (Some 2%float) (Some "2 kg"))) None true))
      as (o & Ho & _ & _ & Hc).
    + vm_compute. reflexivity.
    + exists o. split; [exact Ho|].
      destruct Hc as (item & -> & _ & _ & _ & _ & _ & Hp); [by right|].
      simpl. rewrite Hp. vm_compute. reflexivity.
Defined.


(** ** An invariant of the orders V3 stores *)

Lemma V3_create_order_shape (E : env) (b : CreateBody.t) (w : world) :
  let l' := stored_orders (snd (serve (V3.create_order E b) w)) in
  l' = stored_orders w
  ∨ ∃ o, l' = (stored_orders w ++ [o])%list ∧ V3_order_shape o.
Proof.
  destruct (JS.truthy_num (CreateBody.amount b)) eqn:Ha,
    (CreateBody.cod b) eqn:Hc, (V3.razorpay E) eqn:Hr;
    create_cases E b w; try (by left); right; eexists;
    (split; [reflexivity|]); unfold V3_order_shape; cbn;
    (split; [|by split; [eexists|]]);
    first [ by apply truthy_String_nonempty | discriminate ].
Qed.

Lemma shape_alter (f : Order.t → Order.t) (l : list Order.t) (i : nat) :
  (∀ o, Order.receipt (f o) = Order.receipt o
        ∧ Order.cart (f o) = Order.cart o
        ∧ Order.paid_at (f o) = Order.paid_at o) →
  Forall V3_order_shape l → Forall V3_order_shape (alter f i l).
Proof.
  intros Hf Hl. apply Forall_alter_1; [done|]. intros o _ (H1 & H2 & H3).
  destruct (Hf o) as (E1 & E2 & E3). unfold V3_order_shape.
  by rewrite E1, E2, E3.
Qed.

(** X8.  Over every store V3 can reach from one without orders, each
    stored order has a non-empty receipt, a cart that is an array, and no
    payment time: V3 never records [paid_at], not even when it marks an
    order paid. *)
Theorem V3_reachable_order_shape (E : env) (w : world) :
  V3_reachable E w → Forall V3_order_shape (stored_orders w).
Proof.
  induction 1 as [w Hw|w q Hreach IH].
  - rewrite Hw. constructor.
  - destruct q as [b|b|id u|id|b|b|a]; cbn [V3_handle].
    + destruct (V3_create_order_shape E b w) as [->|(o & -> & Ho)]; [done|].
      apply Forall_app. split; [done|]. by apply Forall_singleton.
    + destruct (V3_verify_payment_run E b w) as (_ & -> & _).
      destruct (JS.findIndex _ _) as [i|]; [|done].
      by apply shape_alter.
    + pose proof (update_status_run id u w) as Hu. cbv zeta in Hu.
      destruct (JS.findIndex _ _) as [i|].
      * destruct Hu as [_ ->]. apply shape_alter; [|done]. intros o.
        unfold apply_update.
        by destruct (JS.truthy_str (UpdateBody.eta u)),
          (JS.truthy_str (UpdateBody.status u)).
      * destruct Hu as [_ Hf]. unfold stored_orders in *. by rewrite Hf.
    + destruct (delete_order_run id w) as [_ ->].
      apply Forall_forall. intros o [_ Ho]%list_elem_of_filter.
      by eapply Forall_forall in IH.
    + by rewrite (proj1 (auth_keeps_orders E w)).
    + by rewrite (proj1 (proj2 (auth_keeps_orders E w))).
    + by rewrite (proj2 (proj2 (auth_keeps_orders E w))).
Qed.

(** X8 at work: an order created and then paid in V3. *)
Lemma V3_paid_without_time_example :
  let c := CreateBody.Make (Some 500%float) None (Some "r1") None None None false in
  let good := VerifyBody.Make (Some "order_abc") (Some "pay_123")
                (Some "s3cret/order_abc|pay_123") None in
  let w1 := snd (serve (V3.create_order stub_env c) empty_world) in
  let w2 := snd (serve (V3.verify_payment stub_env good) w1) in
  Forall V3_order_shape (stored_orders w2)
  ∧ (λ o, (Order.status o, Order.paid_at o)) <$> stored_orders w2
    = [("paid", None)].
Proof.
  cbv zeta. split; [|vm_compute; reflexivity].
  apply (V3_reachable_order_shape stub_env).
  apply (V3_step _ _ (V3_verify _)), (V3_step _ _ (V3_create _)), V3_fresh.
  reflexivity.
Defined.


(** ** Listing the orders of a customer *)

Lemma or_empty_Some (s : string) : Queries.or_empty (Some s) = s.
Proof.
  unfold Queries.or_empty. simpl.
  destruct (String.eqb s "") eqn:H; [|done]. by apply String.eqb_eq in H.
Qed.

Lemma filter_bool_sublist {A} (f : A → bool) (l : list A) :
  List.filter f l `sublist_of` l.
Proof.
  induction l as [|x l IH]; simpl; [done|].
  destruct (f x); [by apply sublist_skip|by apply sublist_cons].
Qed.

Lemma elem_of_filter_bool {A} (f : A → bool) (l : list A) (x : A) :
  x ∈ List.filter f l ↔ x ∈ l ∧ f x = true.
Proof. rewrite !list_elem_of_In. apply List.filter_In. Qed.

(** X9.  The two my-orders endpoints of V3 only read: each reads
    [db.json] once and writes nothing.  Each answers the stored orders,
    in their stored order, whose customer has the phone number of the
    request (after trimming), respectively the email of the request
    (after trimming, both sides lower-cased); a missing phone or email
    counts as the empty string, and an order without a customer is never
    listed. *)
Theorem my_orders_listing (E : env) (w : world) (param : string) :
  (∃ l, Queries.my_orders_phone E param w
        = (Ok l, World (db_file w) (ticks w) (trace w ++ [EvReadDB]))
        ∧ l `sublist_of` stored_orders w
        ∧ ∀ o, o ∈ l ↔
               o ∈ stored_orders w
               ∧ ∃ c, Order.customer o = Some c
                      ∧ Queries.or_empty (cust_phone c) = trim E param)
  ∧ (∃ l, Queries.my_orders_email E param w
          = (Ok l, World (db_file w) (ticks w) (trace w ++ [EvReadDB]))
          ∧ l `sublist_of` stored_orders w
          ∧ ∀ o, o ∈ l ↔
                 o ∈ stored_orders w
                 ∧ ∃ c, Order.customer o = Some c
                        ∧ toLowerCase E (Queries.or_empty (cust_email c))
                          = toLowerCase E (trim E param)).
Proof.
  split.
  - unfold Queries.my_orders_phone. unfold_handler.
    rewrite orders_of_read by (left; reflexivity). rewrite or_empty_Some.
    eexists. split; [reflexivity|]. split; [apply filter_bool_sublist|].
    intros o. rewrite elem_of_filter_bool. split.
    + intros [Ho Hm]. split; [done|].
      destruct (Order.customer o) as [c|]; [|discriminate].
      exists c. split; [done|]. by apply strict_equals_true.
    + intros [Ho (c & Hc & Hm)]. split; [done|]. rewrite Hc.
      by apply strict_equals_true.
  - unfold Queries.my_orders_email. unfold_handler.
    rewrite orders_of_read by (left; reflexivity). rewrite or_empty_Some.
    eexists. split; [reflexivity|]. split; [apply filter_bool_sublist|].
    intros o. rewrite elem_of_filter_bool. split.
    + intros [Ho Hm]. split; [done|].
      destruct (Order.customer o) as [c|]; [|discriminate].
      exists c. split; [done|]. by apply strict_equals_true.
    + intros [Ho (c & Hc & Hm)]. split; [done|]. rewrite Hc.
      by apply strict_equals_true.
Qed.


(** ** Accounts *)

Lemma users_of_read (w : world) (dflt : Document.t) :
  Document.users dflt = Some [] ∨ Document.users dflt = None →
  users_or_empty (default dflt (db_file w)) = stored_users w.
Proof.
  unfold stored_users, users_or_empty. destruct (db_file w); simpl; [done|].
  by intros [-> | ->].
Qed.

Lemma find_None {A} (p : A → bool) (l : list A) :
  JS.find p l = None ↔ ∀ x, x ∈ l → p x = false.
Proof.
  unfold JS.find. destruct (JS.findIndex p l) as [i|] eqn:Hi.
  - apply findIndex_Some in Hi as (x & Hx & Hp & _). rewrite Hx.
    split; [discriminate|]. intros H. rewrite H in Hp; [discriminate|].
    by eapply list_elem_of_lookup_2.
  - split; [intros _; by apply findIndex_None|done].
Qed.

Lemma find_first {A} (p : A → bool) (l : list A) (i : nat) (x : A) :
  JS.find p l = Some (i, x) ↔
  l !! i = Some x ∧ p x = true
  ∧ ∀ j y, (j < i)%nat → l !! j = Some y → p y = false.
Proof.
  unfold JS.find. split.
  - destruct (JS.findIndex p l) as [j|] eqn:Hj; [|discriminate].
    apply findIndex_Some in Hj as (y & Hy & Hp & Hmin). rewrite Hy.
    by intros [= <- <-].
  - intros (Hx & Hp & Hmin).
    assert (JS.findIndex p l = Some i) as -> by (apply findIndex_Some; eauto).
    by rewrite Hx.
Qed.

Lemma users_after_write (w : world) (dflt : Document.t) (l : list user)
    (n : nat) (t : list event) :
  Document.reviews dflt = [] →
  Document.orders dflt = None ∨ Document.orders dflt = Some [] →
  let w' := World (Some (Document.set_users l (default dflt (db_file w)))) n t in
  stored_users w' = l ∧ keeps_orders_and_reviews w w'.
Proof.
  intros Hr Ho w'. subst w'.
  unfold keeps_orders_and_reviews, stored_orders, stored_reviews, stored_users,
    users_or_empty, orders_or_empty.
  destruct (db_file w) as [d|]; simpl; [done|]. rewrite Hr.
  by destruct Ho as [-> | ->].
Qed.

(** X10.  Requests the account handlers refuse before touching anything.
    register without a name, an email or a password, and login without
    an email or a password, are answered 400 "Missing fields"; me
    without a token (no header, an empty one, or one that is only the
    word [Bearer] and blanks) is answered 401 "missing_token".  In each
    case [db.json] is not even read. *)
Theorem auth_refusals (E : env) (w : world) :
  (∀ b, ¬ register_fields b →
        serve (V3.register E b) w = (Response 400 (BError "Missing fields" None), w))
  ∧ (∀ b, ¬ login_fields b →
          serve (V3.login E b) w = (Response 400 (BError "Missing fields" None), w))
  ∧ (∀ h, trim E (JS.replace_first "Bearer " "" (Queries.or_empty h)) = "" →
          serve (V3.me E h) w = (Response 401 (BError "missing_token" None), w)).
Proof.
  split; [|split].
  - intros b Hno. unfold register_fields in Hno.
    unfold V3.register. unfold_handler.
    destruct (JS.truthy_str (AuthBody.email b)); [|done].
    destruct (JS.truthy_str (AuthBody.password b)); [|done].
    destruct (JS.truthy_str (AuthBody.name b)); [|done].
    by destruct Hno.
  - intros b Hno. unfold login_fields in Hno.
    unfold V3.login. unfold_handler.
    destruct (JS.truthy_str (AuthBody.email b)); [|done].
    destruct (JS.truthy_str (AuthBody.password b)); [|done].
    by destruct Hno.
  - intros h Hh. unfold V3.me. unfold_handler.
    unfold Queries.or_empty in Hh. by rewrite Hh.
Qed.

(** X10 at work: no header at all, with a [trim] that maps the empty
    string to itself. *)
Lemma auth_refusal_example :
  serve (V3.me stub_env None) empty_world
  = (Response 401 (BError "missing_token" None), empty_world).
Proof.
  apply (proj2 (proj2 (auth_refusals stub_env empty_world))). reflexivity.
Defined.

Lemma register_run (E : env) (b : AuthBody.t) (w : world) :
  register_fields b →
  let rw := serve (V3.register E b) w in
  (email_free E (AuthBody.email b) w →
   let salt := randomBytes_hex_at E 16 (ticks w) in
   let token := randomBytes_hex_at E 24 (S (ticks w)) in
   let u := registered_user E b salt token
              (Date_now_at E (S (S (ticks w))))
              (Date_now_at E (S (S (S (ticks w))))) in
   fst rw = Response 200 (BUser (V3.userSafe u) (Some token))
   ∧ stored_users (snd rw) = (stored_users w ++ [u])%list
   ∧ keeps_orders_and_reviews w (snd rw))
  ∧ (¬ email_free E (AuthBody.email b) w →
     fst rw = Response 400 (BError "User already exists" None)
     ∧ db_file (snd rw) = db_file w).
Proof.
  intros (H1 & H2 & H3) rw. subst rw.
  unfold V3.register, V3.genSalt, V3.genToken. unfold_handler.
  rewrite H1, H2, H3. cbn [negb orb].
  rewrite users_of_read by (left; reflexivity).
  destruct (JS.find _ _) as [[i u0]|] eqn:Hfind.
  - split.
    + intros Hfree. apply find_None in Hfree. congruence.
    + by intros _.
  - split.
    + intros _. cbn beta iota zeta. cbn [fst snd db_file ticks].
      split; [reflexivity|]. by apply users_after_write; [|right].
    + intros Hno. destruct Hno. exact (proj1 (find_None _ _) Hfind).
Qed.

(** X11.  register with its three fields.  When no stored user has the
    email (letter case aside) it answers 200 and appends one user, whose
    email is the lower-cased email of the request, whose salt and token
    are the two values drawn from the random source, and whose stored
    password is the PBKDF2 hash of the request's password under that
    salt; orders and reviews are kept.  When a stored user has the
    email it answers 400 "User already exists" and leaves [db.json] as
    it was. *)
Theorem register_outcomes (E : env) (w : world) (b : AuthBody.t) :
  register_fields b →
  let rw := serve (V3.register E b) w in
  (email_free E (AuthBody.email b) w →
   ∃ u salt token,
     salt = randomBytes_hex_at E 16 (ticks w)
     ∧ token = randomBytes_hex_at E 24 (S (ticks w))
     ∧ fst rw = Response 200 (BUser (V3.userSafe u) (Some token))
     ∧ stored_users (snd rw) = (stored_users w ++ [u])%list
     ∧ keeps_orders_and_reviews w (snd rw)
     ∧ u !! "email" = Some (JStr (toLowerCase E (JS.String_ (AuthBody.email b))))
     ∧ u !! "name" = Some (JStr (JS.String_ (AuthBody.name b)))
     ∧ u !! "token" = Some (JStr token)
     ∧ u !! "salt" = Some (JStr salt)
     ∧ u !! "password"
       = Some (JStr (pbkdf2_sha512_hex E (JS.String_ (AuthBody.password b)) salt)))
  ∧ (¬ email_free E (AuthBody.email b) w →
     fst rw = Response 400 (BError "User already exists" None)
     ∧ db_file (snd rw) = db_file w).
Proof.
  intros Hf rw. destruct (register_run E b w Hf) as [Hok Hdup]. fold rw in Hok, Hdup.
  split; [|exact Hdup].
  intros Hfree. destruct (Hok Hfree) as (Hr & Hu & Hk).
  eexists _, _, _. split; [reflexivity|]. split; [reflexivity|].
  split; [exact Hr|]. split; [exact Hu|]. split; [exact Hk|].
  unfold registered_user. by repeat split.
Qed.

(** X11 at work: the first registration on an empty store. *)
Lemma register_example :
  let b := AuthBody.Make (Some "Asha") (Some "Asha@Example.com") (Some "pw") in
  code (fst (serve (V3.register stub_env b) empty_world)) = 200%nat
  ∧ length (stored_users (snd (serve (V3.register stub_env b) empty_world)))
    = 1%nat.
Proof.
  cbv zeta.
  destruct (register_outcomes stub_env empty_world
              (AuthBody.Make (Some "Asha") (Some "Asha@Example.com") (Some "pw")))
    as [Hok _].
  - by repeat split.
  - destruct Hok as (u & salt & token & _ & _ & Hr & Hu & _).
    + intros u Hu. by apply elem_of_nil in Hu.
    + rewrite Hr, Hu. by split.
Defined.

Lemma login_run (E : env) (b : AuthBody.t) (w : world) (i : nat) (u : user) :
  login_fields b →
  first_with_email E (AuthBody.email b) w i u →
  let rw := serve (V3.login E b) w in
  (password_check E (AuthBody.password b) u (Some true) →
   let token := randomBytes_hex_at E 24 (ticks w) in
   let u' : user := <["token" := JStr token]> u in
   fst rw = Response 200 (BUser (V3.userSafe u') (Some token))
   ∧ stored_users (snd rw) = <[i := u']> (stored_users w)
   ∧ keeps_orders_and_reviews w (snd rw))
  ∧ (password_check E (AuthBody.password b) u (Some false) →
     fst rw = Response 400 (BError "Invalid credentials" None)
     ∧ db_file (snd rw) = db_file w)
  ∧ (password_check E (AuthBody.password b) u None →
     fst rw = Response 500 (BError "server_error" None)
     ∧ db_file (snd rw) = db_file w).
Proof.
  intros (H1 & H2) Hfirst rw. subst rw.
  assert (Hfind : JS.find (V3.same_email E (AuthBody.email b)) (stored_users w)
                  = Some (i, u)) by (by apply find_first).
  unfold V3.login, V3.verifyPassword, V3.genToken. unfold_handler.
  rewrite H1, H2. cbn [negb orb].
  rewrite users_of_read by (left; reflexivity). rewrite Hfind.
  split; [|split]; intros (salt & hashed & -> & -> & ->); cbn; try done.
  split; [reflexivity|]. by apply users_after_write; [|right].
Qed.

Lemma login_unknown (E : env) (b : AuthBody.t) (w : world) :
  login_fields b → email_free E (AuthBody.email b) w →
  serve (V3.login E b) w
  = (Response 400 (BError "Invalid credentials" None),
     World (db_file w) (ticks w) (trace w ++ [EvReadDB])).
Proof.
  intros (H1 & H2) Hfree. apply find_None in Hfree.
  unfold V3.login. unfold_handler. rewrite H1, H2. cbn [negb orb].
  rewrite users_of_read by (left; reflexivity). by rewrite Hfree.
Qed.

(** X12.  login with its two fields, against the first stored user that
    has the email.  If the password verifies, the answer is 200 with a
    token freshly drawn from the random source, the stored user gets
    that token and is otherwise unchanged, and nothing else in
    [db.json] changes.  If it does not verify, or if no stored user has
    the email, the answer is the same 400 "Invalid credentials" and
    [db.json] is left as it was; so is it when the comparison throws
    (the stored hash has another length), which is answered 500. *)
Theorem login_outcomes (E : env) (w : world) (b : AuthBody.t) :
  login_fields b →
  let rw := serve (V3.login E b) w in
  (∀ i u, first_with_email E (AuthBody.email b) w i u →
     (password_check E (AuthBody.password b) u (Some true) →
      ∃ token u',
        token = randomBytes_hex_at E 24 (ticks w)
        ∧ u' = <["token" := JStr token]> u
        ∧ fst rw = Response 200 (BUser (V3.userSafe u') (Some token))
        ∧ stored_users (snd rw) = <[i := u']> (stored_users w)
        ∧ keeps_orders_and_reviews w (snd rw))
     ∧ (password_check E (AuthBody.password b) u (Some false) →
        fst rw = Response 400 (BError "Invalid credentials" None)
        ∧ db_file (snd rw) = db_file w)
     ∧ (password_check E (AuthBody.password b) u None →
        fst rw = Response 500 (BError "server_error" None)
        ∧ db_file (snd rw) = db_file w))
  ∧ (email_free E (AuthBody.email b) w →
     fst rw = Response 400 (BError "Invalid credentials" None)
     ∧ db_file (snd rw) = db_file w).
Proof.
  intros Hf rw. split.
  - intros i u Hfirst.
    destruct (login_run E b w i u Hf Hfirst) as (Hok & Hbad & Hthrow).
    fold rw in Hok, Hbad, Hthrow.
    split; [|by split].
    intros Hp. destruct (Hok Hp) as (Hr & Hu & Hk). by eexists _, _.
  - intros Hfree. subst rw. by rewrite (login_unknown E b w Hf Hfree).
Qed.

(** X12 at work: a stored user, and a login with the wrong password. *)
Lemma login_wrong_password_example :
  let u : user := <["email" := JStr "asha@example.com"]>
                  (<["salt" := JStr "r0"]>
                  (<["password" := JStr "r0$pw"]>
                  (<["token" := JStr "r1"]> ∅))) in
  let w := World (Some (Document.Make [] (Some []) (Some [u]))) 0 [] in
  let b := AuthBody.Make None (Some "asha@example.com") (Some "pq") in
  fst (serve (V3.login stub_env b) w)
  = Response 400 (BError "Invalid credentials" None)
  ∧ db_file (snd (serve (V3.login stub_env b) w)) = db_file w.
Proof.
  cbv zeta.
  eapply (proj1 (login_outcomes stub_env _ _ _) 0%nat).
  - split; [reflexivity|]. split; [reflexivity|]. intros j u' Hj. lia.
  - eexists "r0", "r0$pw". by repeat split.
  Unshelve. by split.
Defined.

Lemma same_email_registered (E : env) (b : AuthBody.t) (email' : option string)
    (salt token : string) (id created_at : Z) :
  lowercase_idempotent E →
  toLowerCase E (JS.String_ email') = toLowerCase E (JS.String_ (AuthBody.email b)) →
  V3.same_email E email' (registered_user E b salt token id created_at) = true.
Proof.
  intros Hidem Heq. unfold V3.same_email, registered_user.
  rewrite lookup_insert_ne by done. rewrite lookup_insert_ne by done.
  rewrite lookup_insert_eq. simpl. rewrite Hidem, Heq.
  apply strict_equals_refl.
Qed.

(** X13.  An email can be registered once.  After a registration that
    succeeded, a second registration whose email differs from the first
    at most in letter case is answered 400 "User already exists" and
    changes nothing, whatever its name and password.  (Lower-casing is
    assumed idempotent.) *)
Theorem register_twice_refused (E : env) (w : world) (b b' : AuthBody.t) :
  lowercase_idempotent E →
  register_fields b → register_fields b' →
  toLowerCase E (JS.String_ (AuthBody.email b'))
  = toLowerCase E (JS.String_ (AuthBody.email b)) →
  let rw1 := serve (V3.register E b) w in
  let rw2 := serve (V3.register E b') (snd rw1) in
  code (fst rw1) = 200%nat →
  fst rw2 = Response 400 (BError "User already exists" None)
  ∧ db_file (snd rw2) = db_file (snd rw1).
Proof.
  intros Hidem Hf Hf' Heq rw1 rw2 Hcode.
  destruct (register_run E b w Hf) as [Hok Hdup]. fold rw1 in Hok, Hdup.
  destruct (register_run E b' (snd rw1) Hf') as [_ Hdup']. fold rw2 in Hdup'.
  apply Hdup'. intros Hfree.
  assert (Hfree0 : email_free E (AuthBody.email b) w).
  { intros u Hu. apply not_true_is_false. intros Hsame.
    destruct Hdup as [Hr _]; [|rewrite Hr in Hcode; discriminate Hcode].
    intros Hall. rewrite (Hall u Hu) in Hsame. discriminate. }
  destruct (Hok Hfree0) as (_ & Hu & _).
  specialize (Hfree (registered_user E b (randomBytes_hex_at E 16 (ticks w))
                       (randomBytes_hex_at E 24 (S (ticks w)))
                       (Date_now_at E (S (S (ticks w))))
                       (Date_now_at E (S (S (S (ticks w))))))).
  rewrite same_email_registered in Hfree by done.
  discriminate Hfree. rewrite Hu. apply elem_of_app. right. left.
Qed.

(** X13 at work: the same address in capitals, with a [toLowerCase] that
    changes nothing. *)
Lemma register_twice_example :
  let b := AuthBody.Make (Some "Asha") (Some "asha@example.com") (Some "pw") in
  let b' := AuthBody.Make (Some "Mallory") (Some "asha@example.com") (Some "x") in
  fst (serve (V3.register stub_env b')
         (snd (serve (V3.register stub_env b) empty_world)))
  = Response 400 (BError "User already exists" None).
Proof.
  cbv zeta.
  apply (register_twice_refused stub_env empty_world
           (AuthBody.Make (Some "Asha") (Some "asha@example.com") (Some "pw"))
           (AuthBody.Make (Some "Mallory") (Some "asha@example.com") (Some "x"))).
  - by intros s.
  - by repeat split.
  - by repeat split.
  - reflexivity.
  - vm_compute. reflexivity.
Defined.

(** X14.  Registering and then logging in.  After a registration that
    succeeded, a login with the same email and password succeeds: it
    answers 200 with a fresh token and with the user that was
    registered (same id, name and email), and the stored user now holds
    that token.  (Lower-casing is assumed idempotent and the
    constant-time comparison is assumed to accept equal buffers.) *)
Theorem register_then_login (E : env) (w : world) (b : AuthBody.t) :
  lowercase_idempotent E → accepts_equal E →
  register_fields b →
  let rw1 := serve (V3.register E b) w in
  let rw2 := serve (V3.login E b) (snd rw1) in
  code (fst rw1) = 200%nat →
  ∃ u1 u2 token,
    user_of (fst rw1) = Some u1
    ∧ fst rw2 = Response 200 (BUser u2 (Some token))
    ∧ token = randomBytes_hex_at E 24 (ticks (snd rw1))
    ∧ u2 !! "token" = Some (JStr token)
    ∧ (∀ k, k ≠ "token" → u2 !! k = u1 !! k)
    ∧ ∃ stored, last (stored_users (snd rw2)) = Some stored
                ∧ stored !! "token" = Some (JStr token)
                ∧ V3.userSafe stored = u2.
Proof.
  intros Hidem Hacc Hf rw1 rw2 Hcode.
  destruct (register_run E b w Hf) as [Hok Hdup]. fold rw1 in Hok, Hdup.
  assert (Hfree : email_free E (AuthBody.email b) w).
  { intros u Hu. apply not_true_is_false. intros Hsame.
    destruct Hdup as [Hr _]; [|rewrite Hr in Hcode; discriminate Hcode].
    intros Hall. rewrite (Hall u Hu) in Hsame. discriminate. }
  destruct (Hok Hfree) as (Hr1 & Hu1 & _).
  set (u := registered_user E b (randomBytes_hex_at E 16 (ticks w))
              (randomBytes_hex_at E 24 (S (ticks w)))
              (Date_now_at E (S (S (ticks w))))
              (Date_now_at E (S (S (S (ticks w)))))) in *.
  assert (Hfirst : first_with_email E (AuthBody.email b) (snd rw1)
                     (length (stored_users w)) u).
  { unfold first_with_email. rewrite Hu1. split; [|split].
    - by rewrite lookup_app_r, Nat.sub_diag.
    - by apply same_email_registered.
    - intros j u' Hj Hu'. rewrite lookup_app_l in Hu' by done.
      apply Hfree. by eapply list_elem_of_lookup_2. }
  assert (Hpw : password_check E (AuthBody.password b) u (Some true)).
  { eexists _, _. split; [|split].
    - unfold u, registered_user. do 3 (rewrite lookup_insert_ne by done).
      by rewrite lookup_insert_eq.
    - unfold u, registered_user. do 4 (rewrite lookup_insert_ne by done).
      by rewrite lookup_insert_eq.
    - apply Hacc. }
  destruct (login_run E b (snd rw1) _ u (conj (proj1 Hf) (proj1 (proj2 Hf))) Hfirst)
    as (Hok2 & _). fold rw2 in Hok2.
  destruct (Hok2 Hpw) as (Hr2 & Hu2 & _).
  eexists _, _, _. split; [by rewrite Hr1|]. split; [exact Hr2|].
  split; [reflexivity|]. split; [|split].
  - unfold V3.userSafe. by rewrite !lookup_delete_ne, lookup_insert_eq.
  - intros k Hk. unfold V3.userSafe.
    destruct (decide (k = "salt")) as [->|Hs]; [by rewrite !lookup_delete_eq|].
    rewrite !(lookup_delete_ne _ "salt") by done.
    destruct (decide (k = "password")) as [->|Hp]; [by rewrite !lookup_delete_eq|].
    rewrite !(lookup_delete_ne _ "password") by done.
    by rewrite lookup_insert_ne.
  - eexists. split; [|split; [|reflexivity]].
    + rewrite Hu2, Hu1. rewrite insert_app_r_alt, Nat.sub_diag by done. simpl.
      by rewrite last_snoc.
    + by rewrite lookup_insert_eq.
Qed.

(** X14 at work: register, then log in, with the stand-in library. *)
Lemma register_then_login_example :
  let b := AuthBody.Make (Some "Asha") (Some "asha@example.com") (Some "pw") in
  let rw1 := serve (V3.register stub_env b) empty_world in
  code (fst (serve (V3.login stub_env b) (snd rw1))) = 200%nat.
Proof.
  cbv zeta.
  destruct (register_then_login stub_env empty_world
              (AuthBody.Make (Some "Asha") (Some "asha@example.com") (Some "pw")))
    as (u1 & u2 & token & _ & Hr & _).
  - by intros s.
  - intros h. simpl. by rewrite Nat.eqb_refl, String.eqb_refl.
  - by repeat split.
  - vm_compute. reflexivity.
  - by rewrite Hr.
Defined.

Lemma substring_all (t : string) : String.substring 0 (String.length t) t = t.
Proof. induction t as [|c t IH]; simpl; [done|]. by rewrite IH. Qed.

Lemma replace_first_Bearer (t : string) :
  JS.replace_first "Bearer " "" ("Bearer " ++ t) = t.
Proof.
  unfold JS.replace_first.
  assert (String.index 0 "Bearer " ("Bearer " ++ t) = Some 0%nat) as ->.
  { simpl. destruct t; reflexivity. }
  simpl. rewrite Nat.sub_0_r. apply substring_all.
Qed.

Lemma me_run (E : env) (h : option string) (w : world) :
  bearer_token E h ≠ "" →
  let after := World (db_file w) (ticks w) (trace w ++ [EvReadDB]) in
  (∀ i u, first_with_token (bearer_token E h) w i u →
          serve (V3.me E h) w = (Response 200 (BUser (V3.userSafe u) None), after))
  ∧ ((∀ u, u ∈ stored_users w → V3.has_token (bearer_token E h) u = false) →
     serve (V3.me E h) w = (Response 401 (BError "invalid_token" None), after)).
Proof.
  intros Htok after. subst after. apply String.eqb_neq in Htok.
  unfold bearer_token, Queries.or_empty in *.
  split.
  - intros i u Hfirst. apply find_first in Hfirst.
    unfold V3.me. unfold_handler. rewrite Htok.
    rewrite users_of_read by (left; reflexivity). by rewrite Hfirst.
  - intros Hnone. apply find_None in Hnone.
    unfold V3.me. unfold_handler. rewrite Htok.
    rewrite users_of_read by (left; reflexivity). by rewrite Hnone.
Qed.

(** X15.  [GET /me] only reads.  The token is what is left of the
    [Authorization] header once the first ["Bearer "] is removed and the
    rest trimmed, so [Bearer <token>] gives the trimmed token.  With a
    non-empty token the handler reads [db.json] once, writes nothing, and
    answers 200 with the first stored user that holds the token (without
    its password and salt, and without a token property of the answer
    itself), or 401 "invalid_token" when no stored user holds it. *)
Theorem me_outcomes (E : env) (w : world) (h : option string) :
  (∀ t, bearer_token E (Some ("Bearer " ++ t)) = trim E t)
  ∧ (bearer_token E h ≠ "" →
     let after := World (db_file w) (ticks w) (trace w ++ [EvReadDB]) in
     (∀ i u, first_with_token (bearer_token E h) w i u →
             serve (V3.me E h) w
             = (Response 200 (BUser (V3.userSafe u) None), after))
     ∧ ((∀ u, u ∈ stored_users w → V3.has_token (bearer_token E h) u = false) →
        serve (V3.me E h) w
        = (Response 401 (BError "invalid_token" None), after))).
Proof.
  split; [|apply me_run].
  intros t. unfold bearer_token. rewrite or_empty_Some.
  by rewrite replace_first_Bearer.
Qed.

(** X15 at work: an unknown token on an empty store. *)
Lemma me_unknown_token_example :
  serve (V3.me stub_env (Some "Bearer abc")) empty_world
  = (Response 401 (BError "invalid_token" None),
     World None 0 [EvReadDB]).
Proof.
  apply (proj2 (me_outcomes stub_env empty_world (Some "Bearer abc"))).
  - discriminate.
  - intros u Hu. by apply elem_of_nil in Hu.
Defined.

(** X16.  A login retires the previous token.  After a login that
    succeeded for the user at position [i], whose token was [old]: a
    [GET /me] that presents [old] is answered 401 "invalid_token",
    provided the new token differs from [old] and no other stored user
    holds [old]; and a [GET /me] that presents the new token is answered
    with the user that logged in, provided no user stored before it
    holds the new token. *)
Theorem login_rotates_token (E : env) (w : world) (b : AuthBody.t) (i : nat)
    (u : user) (old : string) (h_old h_new : option string) :
  login_fields b →
  first_with_email E (AuthBody.email b) w i u →
  password_check E (AuthBody.password b) u (Some true) →
  u !! "token" = Some (JStr old) →
  let w' := snd (serve (V3.login E b) w) in
  let new := randomBytes_hex_at E 24 (ticks w) in
  (bearer_token E h_old = old → old ≠ "" → new ≠ old →
   (∀ j u', j ≠ i → stored_users w !! j = Some u' → V3.has_token old u' = false) →
   fst (serve (V3.me E h_old) w') = Response 401 (BError "invalid_token" None))
  ∧ (bearer_token E h_new = new → new ≠ "" →
     (∀ j u', (j < i)%nat → stored_users w !! j = Some u' →
              V3.has_token new u' = false) →
     fst (serve (V3.me E h_new) w')
     = Response 200 (BUser (V3.userSafe (<["token" := JStr new]> u)) None)).
Proof.
  intros Hf Hfirst Hpw Hold w' new.
  destruct (login_run E b w i u Hf Hfirst) as (Hok & _).
  destruct (Hok Hpw) as (_ & Hu & _). fold w' new in Hu.
  destruct Hfirst as (Hi & _ & _).
  assert (Hlt : (i < length (stored_users w))%nat) by (by eapply lookup_lt_Some).
  split.
  - intros Hh Hne Hnew Hothers.
    assert (Htok : bearer_token E h_old ≠ "") by (by rewrite Hh).
    destruct (me_run E h_old w' Htok) as [_ Hnone]. rewrite Hnone; [done|].
    intros u' Hu'. rewrite Hh.
    apply list_elem_of_lookup_1 in Hu' as [j Hj]. rewrite Hu in Hj.
    destruct (decide (i = j)) as [<-|Hij].
    + rewrite list_lookup_insert_eq in Hj by done. injection Hj as <-.
      unfold V3.has_token. rewrite lookup_insert_eq.
      by apply strict_equals_false.
    + rewrite list_lookup_insert_ne in Hj by done. by eapply Hothers.
  - intros Hh Hne Hbefore.
    assert (Htok : bearer_token E h_new ≠ "") by (by rewrite Hh).
    destruct (me_run E h_new w' Htok) as [Hfound _].
    rewrite (Hfound i (<["token" := JStr new]> u)); [done|].
    rewrite Hh. unfold first_with_token. rewrite Hu. split; [|split].
    + by rewrite list_lookup_insert_eq.
    + unfold V3.has_token. rewrite lookup_insert_eq. apply strict_equals_refl.
    + intros j u' Hj Hu'. rewrite list_lookup_insert_ne in Hu' by lia.
      by eapply Hbefore.
Qed.

(** X16 at work: the stored user holds [r1]; the login draws [r0]. *)
Lemma login_rotates_token_example :
  let u : user := <["email" := JStr "asha@example.com"]>
                  (<["salt" := JStr "r0"]>
                  (<["password" := JStr "r0$pw"]>
                  (<["token" := JStr "r1"]> ∅))) in
  let w := World (Some (Document.Make [] (Some []) (Some [u]))) 0 [] in
  let b := AuthBody.Make None (Some "asha@example.com") (Some "pw") in
  fst (serve (V3.me stub_env (Some "Bearer r1")) (snd (serve (V3.login stub_env b) w)))
  = Response 401 (BError "invalid_token" None).
Proof.
  intros u w b.
  assert (Hf : login_fields b) by (by split).
  assert (Hfirst : first_with_email stub_env (AuthBody.email b) w 0 u).
  { split; [reflexivity|]. split; [reflexivity|]. intros j u' Hj. lia. }
  assert (Hpw : password_check stub_env (AuthBody.password b) u (Some true)).
  { exists "r0", "r0$pw". by repeat split. }
  assert (Htok : u !! "token" = Some (JStr "r1")) by reflexivity.
  apply (proj1 (login_rotates_token stub_env w b 0 u "r1" (Some "Bearer r1") None
                  Hf Hfirst Hpw Htok)).
  - reflexivity.
  - discriminate.
  - discriminate.
  - intros [|j] u' Hj Hu'; [done|discriminate Hu'].
Defined.


(** ** Reviews *)

Lemma reviews_read (r : M Document.t) (w : world) :
  reviews_readDB r →
  ∃ dflt, r w = (Ok (default dflt (db_file w)),
                 World (db_file w) (ticks w) (trace w ++ [EvReadDB]))
          ∧ Document.reviews dflt = []
          ∧ (Document.orders dflt = Some [] ∨ Document.orders dflt = None)
          ∧ Document.users dflt = None.
Proof.
  intros [-> | [-> | ->]]; eexists; (split; [reflexivity|]);
    (split; [reflexivity|]); (split; [|reflexivity]); (by left) || (by right).
Qed.

Lemma reviews_of_read (w : world) (dflt : Document.t) :
  Document.reviews dflt = [] →
  Document.reviews (default dflt (db_file w)) = stored_reviews w.
Proof. intros H. unfold stored_reviews. by destruct (db_file w). Qed.

(** X17.  [POST /reviews], on each of the three servers that have it.
    A review with its four fields is stored at the end of the reviews
    with the clock reading as id and with its rating as [JSON.stringify]
    writes it, and is sent back with status 200; orders and users are
    kept.  A review that lacks a field, or whose
    rating is [0] or not a number, is refused with "Missing review
    fields" and [db.json] is not written. *)
Theorem post_review_outcomes (E : env) (readDB : M Document.t) (w : world)
    (b : Reviews.body) :
  reviews_readDB readDB →
  let rw := Reviews.post_review E readDB b w in
  (review_fields b →
   let r := Review (Date_now_at E (ticks w)) (JS.String_ (Reviews.productName b))
              (JS.String_ (Reviews.name b))
              (JSON.stringify_optional (Reviews.rating b))
              (JS.String_ (Reviews.text b)) in
   fst rw = Ok (Reviews.Saved r)
   ∧ stored_reviews (snd rw) = (stored_reviews w ++ [r])%list
   ∧ stored_orders (snd rw) = stored_orders w
   ∧ stored_users (snd rw) = stored_users w)
  ∧ (¬ review_fields b →
     fst rw = Ok (Reviews.Rejected "Missing review fields")
     ∧ db_file (snd rw) = db_file w)
  ∧ (Reviews.rating b = Some 0%float ∨ Reviews.rating b = Some PrimFloat.nan →
     ¬ review_fields b).
Proof.
  intros Hr rw. subst rw.
  destruct (reviews_read readDB w Hr) as (dflt & Hread & Hrev & Hord & Husr).
  unfold Reviews.post_review. unfold_handler. rewrite Hread.
  split; [|split].
  - intros (H1 & H2 & H3 & H4). rewrite H1, H2, H3, H4. cbn.
    rewrite reviews_of_read by done.
    split; [reflexivity|]. split; [reflexivity|].
    unfold stored_orders, stored_users, orders_or_empty, users_or_empty.
    destruct (db_file w) as [d|]; simpl; [done|]. rewrite Husr.
    by destruct Hord as [-> | ->].
  - intros Hno. unfold review_fields in Hno.
    destruct (JS.truthy_str (Reviews.productName b)); [|done].
    destruct (JS.truthy_str (Reviews.name b)); [|done].
    destruct (JS.truthy_num (Reviews.rating b)); [|done].
    destruct (JS.truthy_str (Reviews.text b)); [|done].
    by destruct Hno.
  - intros [H | H] (_ & _ & H3 & _); rewrite H in H3; vm_compute in H3;
      discriminate H3.
Qed.

(** X17 at work: a five-star review on an empty store. *)
Lemma post_review_example :
  let b := Reviews.Body (Some "Mango pickle") (Some "Asha") (Some 5%float)
                        (Some "Lovely") in
  stored_reviews (snd (Reviews.post_review stub_env V1.readDB b empty_world))
  = [Review 1700000000000 "Mango pickle" "Asha" (JSON.stringify_number 5)
            "Lovely"].
Proof.
  cbv zeta.
  destruct (post_review_outcomes stub_env V1.readDB empty_world
              (Reviews.Body (Some "Mango pickle") (Some "Asha") (Some 5%float)
                            (Some "Lovely")))
    as ((_ & Hs & _) & _).
  - right. by left.
  - by repeat split.
  - exact Hs.
Defined.

Lemma reviews_of_cons (p : string) (r : review) (l : list review) :
  reviews_of p (r :: l)
  = if decide (rv_productName r = p) then r :: reviews_of p l else reviews_of p l.
Proof. unfold reviews_of. by rewrite filter_cons. Qed.

Lemma group_one_ok (g : gmap string (list review)) (r : review) :
  Reviews.is_inherited (rv_productName r) = false →
  Reviews.group_one g r
  = Ok (<[rv_productName r := (default [] (g !! rv_productName r) ++ [r])%list]> g).
Proof.
  intros Hr. unfold Reviews.group_one. rewrite Hr.
  by destruct (g !! rv_productName r).
Qed.

Lemma group_all_ok (l : list review) (g : gmap string (list review)) :
  (∀ r, r ∈ l → Reviews.is_inherited (rv_productName r) = false) →
  ∃ g', Reviews.group_all g l = Ok g'
        ∧ ∀ p, g' !! p = match reviews_of p l with
                         | [] => g !! p
                         | r :: rs => Some (default [] (g !! p) ++ r :: rs)%list
                         end.
Proof.
  revert g. induction l as [|r l IH]; intros g Hl.
  - by exists g.
  - simpl. rewrite group_one_ok by (apply Hl; left).
    destruct (IH (<[rv_productName r :=
                      (default [] (g !! rv_productName r) ++ [r])%list]> g))
      as (g' & -> & Hg'); [intros x Hx; apply Hl; by right|].
    exists g'. split; [done|]. intros p. rewrite Hg', reviews_of_cons.
    destruct (decide (rv_productName r = p)) as [<-|Hne].
    + rewrite lookup_insert_eq. simpl.
      destruct (reviews_of (rv_productName r) l); [done|].
      by rewrite <- app_assoc.
    + by rewrite lookup_insert_ne.
Qed.

Lemma group_all_throws (l : list review) (g : gmap string (list review)) :
  (∀ k, Reviews.is_inherited k = true → g !! k = None) →
  (∃ r, r ∈ l ∧ Reviews.is_inherited (rv_productName r) = true) →
  Reviews.group_all g l = Throw "TypeError".
Proof.
  revert g. induction l as [|r l IH]; intros g Hg (x & Hx & Hbad).
  - by apply elem_of_nil in Hx.
  - simpl. destruct (Reviews.is_inherited (rv_productName r)) eqn:Hr.
    + unfold Reviews.group_one. by rewrite (Hg _ Hr), Hr.
    + rewrite group_one_ok by done. apply IH.
      * intros k Hk. rewrite lookup_insert_ne; [by apply Hg|]. congruence.
      * apply elem_of_cons in Hx as [->|Hx]; [congruence|]. by exists x.
Qed.

Lemma get_reviews_run (readDB : M Document.t) (w : world) :
  reviews_readDB readDB →
  Reviews.get_reviews readDB w
  = (Reviews.group_all ∅ (stored_reviews w),
     World (db_file w) (ticks w) (trace w ++ [EvReadDB])).
Proof.
  intros Hr. destruct (reviews_read readDB w Hr) as (dflt & Hread & Hrev & _).
  unfold Reviews.get_reviews, Reviews.finish. unfold_handler. rewrite Hread.
  by rewrite reviews_of_read.
Qed.

(** X18.  [GET /reviews], on each of the three servers that group.  It
    reads [db.json] once and writes nothing.  When no stored review
    names a product after a property every object inherits, the answer
    has one group for each product that has a review, and the group
    holds exactly that product's reviews in their stored order; a
    product without reviews has no group.  When some stored review does
    name such a product ("constructor", "toString", "__proto__", ...)
    the handler throws a [TypeError] and sends no reviews at all. *)
Theorem get_reviews_groups (readDB : M Document.t) (w : world) :
  reviews_readDB readDB →
  let rw := Reviews.get_reviews readDB w in
  snd rw = World (db_file w) (ticks w) (trace w ++ [EvReadDB])
  ∧ ((∀ r, r ∈ stored_reviews w →
           Reviews.is_inherited (rv_productName r) = false) →
     ∃ g, fst rw = Ok g ∧ grouped_by_product (stored_reviews w) g)
  ∧ ((∃ r, r ∈ stored_reviews w ∧ Reviews.is_inherited (rv_productName r) = true) →
     fst rw = Throw "TypeError").
Proof.
  intros Hr rw. subst rw. rewrite (get_reviews_run readDB w Hr).
  split; [done|]. split.
  - intros Hok. destruct (group_all_ok (stored_reviews w) ∅ Hok) as (g & Hg & Hl).
    exists g. split; [done|]. intros p. rewrite Hl, lookup_empty.
    by destruct (reviews_of p (stored_reviews w)).
  - intros Hbad. by apply group_all_throws.
Qed.

(** X18 at work: three reviews of two products. *)
Lemma get_reviews_example :
  let a1 := Review 1 "Mango pickle" "Asha" (JSON.stringify_number 5) "Lovely" in
  let b1 := Review 2 "Lemon pickle" "Ravi" (JSON.stringify_number 4) "Sharp" in
  let a2 := Review 3 "Mango pickle" "Meera" (JSON.stringify_number 3) "Salty" in
  let w := World (Some (Document.Make [a1; b1; a2] (Some []) None)) 0 [] in
  ∃ g, fst (Reviews.get_reviews V2.readDB w) = Ok g
       ∧ g !! "Mango pickle" = Some [a1; a2]
       ∧ g !! "Lemon pickle" = Some [b1]
       ∧ g !! "Lime pickle" = None.
Proof.
  intros a1 b1 a2 w.
  destruct (get_reviews_groups V2.readDB w) as (_ & Hok & _).
  - right. by right.
  - destruct Hok as (g & Hg & Hgroups).
    + intros r Hr. unfold w, stored_reviews in Hr. simpl in Hr.
      repeat (apply elem_of_cons in Hr as [->|Hr]; [reflexivity|]).
      by apply elem_of_nil in Hr.
    + exists g. split; [exact Hg|]. rewrite !Hgroups. by repeat split.
Defined.

(** X19.  One review can take the listing down.  [POST /reviews] accepts
    a review whose product is named after an inherited property;
    once it is stored, [GET /reviews] throws for every caller, on each
    of the three servers. *)
Theorem inherited_product_breaks_listing (E : env) (readDB : M Document.t)
    (w : world) (b : Reviews.body) :
  reviews_readDB readDB →
  review_fields b →
  Reviews.is_inherited (JS.String_ (Reviews.productName b)) = true →
  let rw := Reviews.post_review E readDB b w in
  (∃ r, fst rw = Ok (Reviews.Saved r))
  ∧ fst (Reviews.get_reviews readDB (snd rw)) = Throw "TypeError".
Proof.
  intros Hr (H1 & H2 & H3 & H4) Hbad rw. subst rw.
  rewrite (get_reviews_run readDB _ Hr).
  destruct (reviews_read readDB w Hr) as (dflt & Hread & Hrev & _).
  unfold Reviews.post_review. unfold_handler. rewrite Hread.
  rewrite H1, H2, H3, H4. cbn. split; [by eexists|].
  apply group_all_throws; [intros k _; apply lookup_empty|].
  eexists. split; [apply elem_of_app; right; left|]. exact Hbad.
Qed.

(** X19 at work: a product called [constructor]. *)
Lemma inherited_product_example :
  let b := Reviews.Body (Some "constructor") (Some "Mallory") (Some 1%float)
                        (Some "x") in
  fst (Reviews.get_reviews V1.readDB
         (snd (Reviews.post_review stub_env V1.readDB b empty_world)))
  = Throw "TypeError".
Proof.
  cbv zeta.
  apply (inherited_product_breaks_listing stub_env V1.readDB empty_world
           (Reviews.Body (Some "constructor") (Some "Mallory") (Some 1%float)
                         (Some "x"))).
  - right. by left.
  - by repeat split.
  - reflexivity.
Defined.


(** ** More on orders *)

(** X20.  What create-order refuses at once.  In V1 a request without an
    amount or without a receipt is answered 400 "Missing amount or
    receipt" and nothing is read, written or sent to the gateway.  In
    the three servers an amount of [0] counts as missing: the request
    is answered 400 and has no effect. *)
Theorem create_order_refusals (E : env) (w : world) (b : CreateBody.t) :
  (JS.truthy_num (CreateBody.amount b) = false
   ∨ JS.truthy_str (CreateBody.receipt b) = false →
   serve (V1.create_order E b) w
   = (Response 400 (BError "Missing amount or receipt" None), w))
  ∧ (CreateBody.amount b = Some 0%float →
     code (fst (serve (V1.create_order E b) w)) = 400%nat
     ∧ snd (serve (V1.create_order E b) w) = w
     ∧ serve (V2.create_order E b) w
       = (Response 400 (BError "Missing amount" None), w)
     ∧ serve (V3.create_order E b) w
       = (Response 400 (BError "Missing amount" None), w)).
Proof.
  split.
  - intros [H | H]; unfold V1.create_order; unfold_handler; rewrite H;
      [done|]. by rewrite orb_true_r.
  - intros H.
    assert (Ha : JS.truthy_num (CreateBody.amount b) = false)
      by (rewrite H; vm_compute; reflexivity).
    repeat split; create_cases E b w; reflexivity.
Qed.

(** X20 at work: an order for nothing. *)
Lemma create_order_refusal_example :
  serve (V3.create_order stub_env
           (CreateBody.Make (Some 0%float) None (Some "r1") None None None true))
        empty_world
  = (Response 400 (BError "Missing amount" None), empty_world).
Proof.
  apply (proj2 (create_order_refusals stub_env empty_world
                  (CreateBody.Make (Some 0%float) None (Some "r1") None None None
                                   true))).
  reflexivity.
Defined.

Lemma demoted_after_paid (gen_good gen_bad : string) (t1 t2 : Z)
    (good bad : VerifyBody.t) (l l1 l2 : list Order.t) (r1 r2 : response)
    (i : nat) :
  VerifyBody.razorpay_signature good = Some gen_good →
  VerifyBody.razorpay_signature bad ≠ Some gen_bad →
  JS.findIndex (V2.matches good) l = Some i →
  JS.findIndex (V2.matches bad) l = Some i →
  verify_outcome gen_good t1 good l r1 l1 →
  verify_outcome gen_bad t2 bad l1 r2 l2 →
  ∃ o, l2 !! i = Some o
       ∧ order_of r2 = Some (Some o)
       ∧ Order.status o = "payment_failed"
       ∧ Order.razorpay_payment_id o = VerifyBody.razorpay_payment_id good
       ∧ Order.razorpay_signature o = VerifyBody.razorpay_signature good.
Proof.
  intros Hgood Hbad Hi Hi' [_ Hl1] [Hr2 Hl2].
  rewrite Hi, bool_decide_eq_true_2 in Hl1 by done.
  assert (Hi1 : JS.findIndex (V2.matches bad) l1 = Some i).
  { rewrite Hl1, findIndex_alter; [done|]. intros o. apply mark_paid_matches. }
  rewrite Hi1, bool_decide_eq_false_2 in Hr2, Hl2 by done.
  destruct (lookup_lt_is_Some_2 _ _ (findIndex_lt _ _ _ Hi)) as [o Ho].
  exists (Order.set_status "payment_failed" (V2.mark_paid good t1 o)).
  assert (Hl2i : l2 !! i
                 = Some (Order.set_status "payment_failed" (V2.mark_paid good t1 o)))
    by (by rewrite Hl2, Hl1, !list_lookup_alter_eq, Ho).
  split; [done|]. split; [by rewrite Hr2; simpl; rewrite Hl2i|]. done.
Qed.

(** X21.  A confirmation with a wrong signature un-pays an order.  In V1
    and V2, when an order has been marked paid by a verified
    confirmation and a later confirmation that selects the same order
    carries a wrong signature, the order's status becomes
    "payment_failed" while the payment id and the signature of the
    verified payment stay on it. *)
Theorem wrong_signature_unpays (E : env) (w : world) (good bad : VerifyBody.t)
    (i : nat) :
  (V1_preconditions good → V1_preconditions bad →
   VerifyBody.razorpay_signature good = Some (V1.generated_signature E good) →
   VerifyBody.razorpay_signature bad ≠ Some (V1.generated_signature E bad) →
   JS.findIndex (V1.matches good) (stored_orders w) = Some i →
   JS.findIndex (V1.matches bad) (stored_orders w) = Some i →
   let w1 := snd (serve (V1.verify_payment E good) w) in
   let rw2 := serve (V1.verify_payment E bad) w1 in
   ∃ o, stored_orders (snd rw2) !! i = Some o
        ∧ order_of (fst rw2) = Some (Some o)
        ∧ Order.status o = "payment_failed"
        ∧ Order.razorpay_payment_id o = VerifyBody.razorpay_payment_id good
        ∧ Order.razorpay_signature o = VerifyBody.razorpay_signature good)
  ∧ (V2_preconditions E good → V2_preconditions E bad →
     VerifyBody.razorpay_signature good = Some (V2.generated_signature E good) →
     VerifyBody.razorpay_signature bad ≠ Some (V2.generated_signature E bad) →
     JS.findIndex (V2.matches good) (stored_orders w) = Some i →
     JS.findIndex (V2.matches bad) (stored_orders w) = Some i →
     let w1 := snd (serve (V2.verify_payment E good) w) in
     let rw2 := serve (V2.verify_payment E bad) w1 in
     ∃ o, stored_orders (snd rw2) !! i = Some o
          ∧ order_of (fst rw2) = Some (Some o)
          ∧ Order.status o = "payment_failed"
          ∧ Order.razorpay_payment_id o = VerifyBody.razorpay_payment_id good
          ∧ Order.razorpay_signature o = VerifyBody.razorpay_signature good).
Proof.
  split; intros Hpg Hpb Hgood Hbad Hi Hi' w1 rw2.
  - eapply demoted_after_paid; [exact Hgood|exact Hbad|exact Hi|exact Hi'| |].
    + apply (V1_verify_outcome E good w Hpg).
    + apply (V1_verify_outcome E bad w1 Hpb).
  - eapply demoted_after_paid; [exact Hgood|exact Hbad|exact Hi|exact Hi'| |].
    + apply (V2_verify_outcome E good w Hpg).
    + apply (V2_verify_outcome E bad w1 Hpb).
Qed.

(** X21 at work: the order [order_abc] is paid, then a confirmation with
    the signature [xyz] arrives for it. *)
Lemma wrong_signature_unpays_example :
  let w := world_with [created_order 1 "r1" "order_abc" 500] in
  let good := VerifyBody.Make (Some "order_abc") (Some "pay_123")
                (Some "s3cret/order_abc|pay_123") None in
  let bad := VerifyBody.Make (Some "order_abc") (Some "pay_666") (Some "xyz") None in
  let w1 := snd (serve (V2.verify_payment stub_env good) w) in
  let rw2 := serve (V2.verify_payment stub_env bad) w1 in
  ∃ o, stored_orders (snd rw2) !! 0%nat = Some o
       ∧ Order.status o = "payment_failed"
       ∧ Order.razorpay_payment_id o = Some "pay_123".
Proof.
  intros w good bad w1 rw2.
  destruct (proj2 (wrong_signature_unpays stub_env w good bad 0))
    as (o & Ho & _ & Hs & Hp & _).
  - repeat split; discriminate.
  - repeat split; discriminate.
  - reflexivity.
  - discriminate.
  - reflexivity.
  - reflexivity.
  - exists o. by repeat split.
Defined.
